(** * Task distribution: the task lifecycle engine of [main.py]

    A shallow embedding of the [Database], [NotificationService], [User] and
    [TaskManager] classes of [src/main.py], and the properties of the
    specification that concern registration and login, task creation,
    assignment, status change, notification fan-out, task listing and
    notification acknowledgment.

    Modelling conventions.
    - A Python [str] is a Rocq [string] holding its UTF-8 bytes.
    - A table of the PostgreSQL schema is a finite map from the primary key
      to the remaining columns; [department_employees] is a finite set of
      pairs.  A nullable column is an [option].  The statements enforce the
      keys of the schema: PRIMARY KEY, UNIQUE and REFERENCES.  The widths of
      the VARCHAR columns are not modelled; a statement that the database
      rejects for another reason is a failure of the connection.
    - [uuid.uuid4()], [datetime.datetime.now()], the failures of the database
      connection and of the SMTP relay are inputs of the environment: the
      n-th call of each is answered by a function of [Env], and the [World]
      counts the calls made so far.
    - A Python exception is the [Raise] outcome of the monad [M]; [try] /
      [except] is [try_except].
    - A Python [set] is a [gset]; the loop over it follows [elements], whose
      order is as little specified as that of the interpreter.
    - [self.current_user] is the field of the record [TaskManager]; a method
      that sets it returns the manager with its result.
    - [print] is not modelled, nor are the comments, the creation of
      departments and the statistics, which the properties below do not
      involve. *)

From Stdlib Require Import ZArith String Ascii List Permutation Sorted.
From stdpp Require Import base decidable option list gmap strings pretty sorting.

Local Open Scope Z_scope.
Local Open Scope string_scope.

(** ** SHA-256 ([hashlib.sha256], FIPS 180-4) *)

Module Sha256.

Definition mask32 (x : Z) : Z := Z.land x 0xffffffff.
Definition add32 (x y : Z) : Z := mask32 (x + y).
Definition rotr (n x : Z) : Z :=
  mask32 (Z.lor (Z.shiftr x n) (Z.shiftl x (32 - n))).

Definition Ch (x y z : Z) : Z :=
  Z.lxor (Z.land x y) (Z.land (Z.lxor x 0xffffffff) z).
Definition Maj (x y z : Z) : Z :=
  Z.lxor (Z.lxor (Z.land x y) (Z.land x z)) (Z.land y z).
Definition Sigma0 (x : Z) : Z := Z.lxor (Z.lxor (rotr 2 x) (rotr 13 x)) (rotr 22 x).
Definition Sigma1 (x : Z) : Z := Z.lxor (Z.lxor (rotr 6 x) (rotr 11 x)) (rotr 25 x).
Definition sigma0 (x : Z) : Z := Z.lxor (Z.lxor (rotr 7 x) (rotr 18 x)) (Z.shiftr x 3).
Definition sigma1 (x : Z) : Z := Z.lxor (Z.lxor (rotr 17 x) (rotr 19 x)) (Z.shiftr x 10).

(** The constants are fractional parts of roots of the first primes, as
    FIPS 180-4 defines them (sections 4.2.2 and 5.3.3). *)
Definition is_prime (n : nat) : bool :=
  forallb (fun d => negb (Nat.eqb (Nat.modulo n d) 0)) (List.seq 2 (n - 2)).

Definition primes_up_to (n : nat) : list Z :=
  List.map Z.of_nat (List.filter is_prime (List.seq 2 (n - 1))).

(** The largest [r] below [2 ^ bits] with [r ^ 3 <= n], bit by bit. *)
Fixpoint cube_root_bits (bits : nat) (n r : Z) : Z :=
  match bits with
  | O => r
  | S b =>
      let r' := r + Z.shiftl 1 (Z.of_nat b) in
      cube_root_bits b n (if (r' * r' * r' <=? n)%Z then r' else r)
  end.

(** The first 32 bits of the fractional part of the cube root of [p]. *)
Definition cube_root_fraction (p : Z) : Z :=
  mask32 (cube_root_bits 36 (Z.shiftl p 96) 0).

(** The first 32 bits of the fractional part of the square root of [p]. *)
Definition square_root_fraction (p : Z) : Z :=
  mask32 (Z.sqrt (Z.shiftl p 64)).

(** The sixty-four round constants: the primes up to 311. *)
Definition K : list Z := Eval vm_compute in List.map cube_root_fraction (primes_up_to 311).

(** The eight working variables, also the chaining value. *)
Record state := State8 { va : Z; vb : Z; vc : Z; vd : Z; ve : Z; vf : Z; vg : Z; vh : Z }.

Definition state_of_list (l : list Z) : state :=
  State8 (List.nth 0 l 0) (List.nth 1 l 0) (List.nth 2 l 0) (List.nth 3 l 0)
         (List.nth 4 l 0) (List.nth 5 l 0) (List.nth 6 l 0) (List.nth 7 l 0).

(** The initial hash value: the primes up to 19. *)
Definition H0 : state :=
  Eval vm_compute in state_of_list (List.map square_root_fraction (primes_up_to 19)).

Definition bytes_of_string (s : string) : list Z :=
  List.map (fun c => Z.of_N (N_of_ascii c)) (list_ascii_of_string s).

(** Big-endian bytes of [x], [n] of them. *)
Fixpoint be_bytes (n : nat) (x : Z) : list Z :=
  match n with
  | O => []
  | S n' => Z.land (Z.shiftr x (8 * Z.of_nat n')) 0xff :: be_bytes n' x
  end.

(** Padding: a 1 bit, zeros up to 56 modulo 64, the bit length on 8 bytes. *)
Definition pad (msg : list Z) : list Z :=
  let l := Z.of_nat (List.length msg) in
  let zeros := Z.to_nat ((55 - l) mod 64) in
  (msg ++ [0x80] ++ List.repeat 0 zeros ++ be_bytes 8 (8 * l))%list.

Fixpoint words_of_bytes (bs : list Z) : list Z :=
  match bs with
  | a :: b :: c :: d :: rest =>
      Z.lor (Z.lor (Z.shiftl a 24) (Z.shiftl b 16)) (Z.lor (Z.shiftl c 8) d)
      :: words_of_bytes rest
  | _ => []
  end.

Definition word_at (w : list Z) (i : nat) : Z := List.nth i w 0.

(** The message schedule: [n] more words after the ones of [w]. *)
Fixpoint schedule (n : nat) (w : list Z) : list Z :=
  match n with
  | O => w
  | S n' =>
      let i := List.length w in
      let x := add32 (add32 (sigma1 (word_at w (i - 2))) (word_at w (i - 7)))
                     (add32 (sigma0 (word_at w (i - 15))) (word_at w (i - 16))) in
      schedule n' (w ++ [x])%list
  end.

Definition round (s : state) (kw : Z * Z) : state :=
  let t1 := add32 (add32 (add32 (vh s) (Sigma1 (ve s)))
                         (add32 (Ch (ve s) (vf s) (vg s)) (fst kw))) (snd kw) in
  let t2 := add32 (Sigma0 (va s)) (Maj (va s) (vb s) (vc s)) in
  State8 (add32 t1 t2) (va s) (vb s) (vc s) (add32 (vd s) t1) (ve s) (vf s) (vg s).

Definition compress (h : state) (block : list Z) : state :=
  let w := schedule 48 block in
  let s := List.fold_left round (List.combine K w) h in
  State8 (add32 (va h) (va s)) (add32 (vb h) (vb s)) (add32 (vc h) (vc s))
         (add32 (vd h) (vd s)) (add32 (ve h) (ve s)) (add32 (vf h) (vf s))
         (add32 (vg h) (vg s)) (add32 (vh h) (vh s)).

(** [n] blocks of sixteen words each. *)
Fixpoint blocks (n : nat) (ws : list Z) (h : state) : state :=
  match n with
  | O => h
  | S n' => blocks n' (List.skipn 16 ws) (compress h (List.firstn 16 ws))
  end.

Definition digest (msg : list Z) : state :=
  let ws := words_of_bytes (pad msg) in
  blocks (Nat.div (List.length ws) 16) ws H0.

Definition hex_digit (x : Z) : ascii :=
  let d := Z.land x 0xf in
  ascii_of_N (Z.to_N (if (d <? 10)%Z then (48 + d)%Z else (87 + d)%Z)).

Definition hex8 (x : Z) : string :=
  String (hex_digit (Z.shiftr x 28)) (String (hex_digit (Z.shiftr x 24))
  (String (hex_digit (Z.shiftr x 20)) (String (hex_digit (Z.shiftr x 16))
  (String (hex_digit (Z.shiftr x 12)) (String (hex_digit (Z.shiftr x 8))
  (String (hex_digit (Z.shiftr x 4)) (String (hex_digit x) EmptyString))))))).

Definition hex_of_state (s : state) : string :=
  (hex8 (va s) ++ hex8 (vb s) ++ hex8 (vc s) ++ hex8 (vd s) ++
   hex8 (ve s) ++ hex8 (vf s) ++ hex8 (vg s) ++ hex8 (vh s))%string.

(** [hashlib.sha256(data).hexdigest()] *)
Definition hexdigest (s : string) : string :=
  hex_of_state (digest (bytes_of_string s)).

End Sha256.

(** ** Python values and exceptions *)

(** The operations return [Union[str, bool]]: an identifier or a message as
    [VStr], a flag as [VBool]. *)
Inductive pyval : Type :=
  | VBool (b : bool)
  | VStr (s : string).

(** What [psycopg2] and the interpreter raise in the modelled code. *)
Inductive exn : Type :=
  | OperationalError (call : nat)   (* the connection fails at this call *)
  | UniqueViolation                 (* PRIMARY KEY or UNIQUE *)
  | ForeignKeyViolation             (* REFERENCES *)
  | InvalidRowCount                 (* negative LIMIT or OFFSET *)
  | AttributeError.                 (* a method called on [None] *)

(** Truth value of an [Optional[str]]: [None] and the empty string are false. *)
Definition truthy (o : option string) : bool :=
  match o with
  | Some s => negb (String.eqb s "")
  | None => false
  end.

(** ** The schema of [Database.initialize_db] *)

Record UserRow : Type := mkUserRow {
  u_username : string;
  u_password_hash : string;
  u_full_name : string;
  u_is_admin : bool;
  u_email : option string;
  u_notification_preferences : option (gmap string bool)
}.

Record DepartmentRow : Type := mkDepartmentRow {
  d_name : string;
  d_head_id : string
}.

Record TaskRow : Type := mkTaskRow {
  t_title : string;
  t_description : string;
  t_created_by : string;
  t_assigned_to : option string;
  t_department_id : option string;
  t_created_at : Z;
  t_deadline : option Z;
  t_status : string;
  t_priority : string
}.

Record NotificationRow : Type := mkNotificationRow {
  n_user_id : string;
  n_message : string;
  n_type : string;
  n_related_id : option string;
  n_created_at : Z;
  n_is_read : bool
}.

Record Db : Type := mkDb {
  users : gmap string UserRow;
  departments : gmap string DepartmentRow;
  department_employees : gset (string * string);
  tasks : gmap string TaskRow;
  notifications : gmap string NotificationRow
}.

Definition set_users (f : gmap string UserRow → gmap string UserRow) (d : Db) : Db :=
  mkDb (f (users d)) (departments d) (department_employees d) (tasks d) (notifications d).
Definition set_tasks (f : gmap string TaskRow → gmap string TaskRow) (d : Db) : Db :=
  mkDb (users d) (departments d) (department_employees d) (f (tasks d)) (notifications d).
Definition set_notifications
    (f : gmap string NotificationRow → gmap string NotificationRow) (d : Db) : Db :=
  mkDb (users d) (departments d) (department_employees d) (tasks d) (f (notifications d)).

(** ** The world outside the interpreter *)

Record Email : Type := mkEmail {
  mail_to : string;
  mail_subject : string;
  mail_body : string
}.

Record World : Type := mkWorld {
  db : Db;
  uuid_calls : nat;
  clock_calls : nat;
  db_calls : nat;
  smtp_calls : nat;
  outbox : list Email
}.

(** What becomes of the [with smtplib.SMTP(...)] block of
    [send_email_notification]. The relay has the message once [send_message]
    has returned; leaving the block sends QUIT, and [__exit__] raises when the
    reply to it is not 221. *)
Inductive smtp_outcome : Type :=
  | Delivered              (* the block ends *)
  | Refused                (* an exception before the relay has the message *)
  | DeliveredThenFailed.   (* an exception when the block is left *)

Record Env : Type := mkEnv {
  uuid4_at : nat → string;        (* str(uuid.uuid4()), call by call *)
  now_at : nat → Z;               (* datetime.datetime.now(), call by call *)
  db_fails_at : nat → bool;       (* psycopg2.Error from the connection *)
  smtp_at : nat → smtp_outcome;   (* the session with the relay, call by call *)
  exn_text : exn → string;        (* str(e) *)
  smtp_server : option string;
  sender_email : option string
}.

(** ** State and exceptions *)

Inductive res (A : Type) : Type :=
  | Ok (a : A)
  | Raise (e : exn).
Arguments Ok {A} a.
Arguments Raise {A} e.

Definition M (A : Type) : Type := World → res A * World.

#[global] Instance M_ret : MRet M := λ A a w, (Ok a, w).
#[global] Instance M_bind : MBind M := λ A B f m w,
  match m w with
  | (Ok a, w') => f a w'
  | (Raise e, w') => (Raise e, w')
  end.

Definition raise {A : Type} (e : exn) : M A := λ w, (Raise e, w).

(** [try: body except Exception as e: handler e] *)
Definition try_except {A : Type} (body : M A) (handler : exn → M A) : M A := λ w,
  match body w with
  | (Ok a, w') => (Ok a, w')
  | (Raise e, w') => handler e w'
  end.

(** [str(uuid.uuid4())] *)
Definition uuid4 (env : Env) : M string := λ w,
  (Ok (uuid4_at env (uuid_calls w)),
   mkWorld (db w) (S (uuid_calls w)) (clock_calls w) (db_calls w) (smtp_calls w) (outbox w)).

(** [datetime.datetime.now()] *)
Definition now (env : Env) : M Z := λ w,
  (Ok (now_at env (clock_calls w)),
   mkWorld (db w) (uuid_calls w) (S (clock_calls w)) (db_calls w) (smtp_calls w) (outbox w)).

(** ** class Database *)

Definition count_db_call (w : World) (d : Db) : World :=
  mkWorld d (uuid_calls w) (clock_calls w) (S (db_calls w)) (smtp_calls w) (outbox w).

(** [Database.execute]: the statement commits, or the transaction is rolled
    back and the error raised again. *)
Definition execute (env : Env) (stmt : Db → exn + Db) : M () := λ w,
  if db_fails_at env (db_calls w)
  then (Raise (OperationalError (db_calls w)), count_db_call w (db w))
  else match stmt (db w) with
       | inl e => (Raise e, count_db_call w (db w))
       | inr d' => (Ok (), count_db_call w d')
       end.

(** [Database.fetch_one]: the first row of the result, [None] when empty. *)
Definition fetch_one {A : Type} (env : Env) (query : Db → option A) : M (option A) := λ w,
  if db_fails_at env (db_calls w)
  then (Raise (OperationalError (db_calls w)), count_db_call w (db w))
  else (Ok (query (db w)), count_db_call w (db w)).

(** [Database.fetch_all] *)
Definition fetch_all {A : Type} (env : Env) (query : Db → exn + list A) : M (list A) := λ w,
  if db_fails_at env (db_calls w)
  then (Raise (OperationalError (db_calls w)), count_db_call w (db w))
  else match query (db w) with
       | inl e => (Raise e, count_db_call w (db w))
       | inr rows => (Ok rows, count_db_call w (db w))
       end.

(** ** The SQL statements of [main.py], over [Db] *)

(** [SELECT ... FROM users WHERE username = %s] *)
Definition select_user_by_username (name : string) (d : Db) : option (string * UserRow) :=
  head (filter (λ kv : string * UserRow, u_username kv.2 = name) (map_to_list (users d))).

(** [SELECT ... FROM users WHERE id = %s] *)
Definition select_user (user_id : string) (d : Db) : option UserRow :=
  users d !! user_id.

(** [INSERT INTO users (id, username, password_hash, full_name, is_admin, email)]:
    [notification_preferences] takes the default of the column. *)
Definition insert_user (user_id username password_hash full_name : string)
    (is_admin : bool) (email : option string) (d : Db) : exn + Db :=
  match users d !! user_id, select_user_by_username username d with
  | None, None =>
      inr (set_users
             <[user_id := mkUserRow username password_hash full_name is_admin email
                            (Some {[ "email" := true; "in_app" := true ]})]> d)
  | _, _ => inl UniqueViolation
  end.

(** [SELECT ... FROM tasks t WHERE t.id = %s] *)
Definition select_task (task_id : string) (d : Db) : option TaskRow :=
  tasks d !! task_id.

(** [SELECT t.title, u.full_name FROM tasks t JOIN users u ON t.created_by = u.id
    WHERE t.id = %s] *)
Definition select_task_title_creator (task_id : string) (d : Db) : option (string * string) :=
  t ← tasks d !! task_id;
  u ← users d !! t_created_by t;
  Some (t_title t, u_full_name u).

(** [SELECT head_id FROM departments WHERE id = %s] *)
Definition select_department_head (department_id : string) (d : Db) : option string :=
  d_head_id <$> departments d !! department_id.

(** [SELECT d.id, d.head_id FROM departments d WHERE d.id = %s] *)
Definition select_department (department_id : string) (d : Db) : option (string * string) :=
  (λ r, (department_id, d_head_id r)) <$> departments d !! department_id.

(** [SELECT 1 FROM department_employees WHERE department_id = %s AND user_id = %s] *)
Definition select_employee (department_id user_id : string) (d : Db) : option Z :=
  if decide ((department_id, user_id) ∈ department_employees d) then Some 1%Z else None.

(** [SELECT email, notification_preferences FROM users WHERE id = %s] *)
Definition select_email_preferences (user_id : string) (d : Db)
    : option (option string * option (gmap string bool)) :=
  (λ u, (u_email u, u_notification_preferences u)) <$> users d !! user_id.

(** A reference to [users(id)] or [departments(id)] that may be NULL. *)
Definition references {V : Type} (key : option string) (table : gmap string V) : bool :=
  match key with
  | Some k => bool_decide (is_Some (table !! k))
  | None => true
  end.

(** The three foreign keys of a row of [tasks]. *)
Definition task_references (d : Db) (t : TaskRow) : bool :=
  references (Some (t_created_by t)) (users d)
  && references (t_assigned_to t) (users d)
  && references (t_department_id t) (departments d).

(** [INSERT INTO tasks (...)] *)
Definition insert_task (task_id : string) (r : TaskRow) (d : Db) : exn + Db :=
  match tasks d !! task_id with
  | Some _ => inl UniqueViolation
  | None =>
      if task_references d r
      then inr (set_tasks <[task_id := r]> d)
      else inl ForeignKeyViolation
  end.

(** [SET assigned_to = %s, status = 'в работе'] *)
Definition set_assignment (user_id : string) (t : TaskRow) : TaskRow :=
  mkTaskRow (t_title t) (t_description t) (t_created_by t) (Some user_id)
    (t_department_id t) (t_created_at t) (t_deadline t) "в работе" (t_priority t).

(** [SET status = %s] *)
Definition set_status (status : string) (t : TaskRow) : TaskRow :=
  mkTaskRow (t_title t) (t_description t) (t_created_by t) (t_assigned_to t)
    (t_department_id t) (t_created_at t) (t_deadline t) status (t_priority t).

(** [UPDATE tasks SET assigned_to = %s, status = 'в работе' WHERE id = %s] *)
Definition update_task_assignment (user_id task_id : string) (d : Db) : exn + Db :=
  match tasks d !! task_id with
  | None => inr d
  | Some t =>
      if references (Some user_id) (users d)
      then inr (set_tasks <[task_id := set_assignment user_id t]> d)
      else inl ForeignKeyViolation
  end.

(** [UPDATE tasks SET status = %s WHERE id = %s] *)
Definition update_task_status_row (status task_id : string) (d : Db) : exn + Db :=
  match tasks d !! task_id with
  | None => inr d
  | Some t => inr (set_tasks <[task_id := set_status status t]> d)
  end.

(** [INSERT INTO notifications (id, user_id, message, type, related_id, created_at)]:
    [is_read] takes the default FALSE. *)
Definition insert_notification (notification_id user_id message notification_type : string)
    (related_id : option string) (created_at : Z) (d : Db) : exn + Db :=
  match notifications d !! notification_id with
  | Some _ => inl UniqueViolation
  | None =>
      if references (Some user_id) (users d)
      then inr (set_notifications
                  <[notification_id := mkNotificationRow user_id message notification_type
                                         related_id created_at false]> d)
      else inl ForeignKeyViolation
  end.

Definition mark_read (n : NotificationRow) : NotificationRow :=
  mkNotificationRow (n_user_id n) (n_message n) (n_type n) (n_related_id n)
                    (n_created_at n) true.

(** [UPDATE notifications SET is_read = TRUE WHERE id = %s] *)
Definition update_notification_read (notification_id : string) (d : Db) : exn + Db :=
  inr (set_notifications (alter mark_read notification_id) d).

(** A row of the listing of [get_user_tasks], with the names of the three
    LEFT JOINs. *)
Record TaskView : Type := mkTaskView {
  v_id : string;
  v_title : string;
  v_description : string;
  v_status : string;
  v_created_at : Z;
  v_deadline : option Z;
  v_priority : string;
  v_department_name : option string;
  v_creator_name : option string;
  v_assignee_name : option string
}.

Definition task_view (d : Db) (kv : string * TaskRow) : TaskView :=
  let t := kv.2 in
  mkTaskView kv.1 (t_title t) (t_description t) (t_status t) (t_created_at t)
    (t_deadline t) (t_priority t)
    (k ← t_department_id t; d_name <$> departments d !! k)
    (u_full_name <$> users d !! t_created_by t)
    (k ← t_assigned_to t; u_full_name <$> users d !! k).

(** [WHERE (t.created_by = %s OR t.assigned_to = %s)], and [AND t.status = %s]
    when a status is given. *)
Definition user_task_filter (user_id : string) (status : option string)
    (kv : string * TaskRow) : bool :=
  (bool_decide (t_created_by kv.2 = user_id) || bool_decide (t_assigned_to kv.2 = Some user_id))
  && match status with
     | Some s => bool_decide (t_status kv.2 = s)
     | None => true
     end.

(** [ORDER BY t.created_at DESC]: the later task first. *)
Definition created_later (a b : string * TaskRow) : Prop :=
  (t_created_at b.2 ≤ t_created_at a.2)%Z.

#[global] Instance created_later_dec : RelDecision created_later.
Proof. intros a b. unfold created_later. apply _. Defined.

(** [LIMIT %s OFFSET %s] *)
Definition limit_offset {A : Type} (limit offset : Z) (rows : list A) : exn + list A :=
  if ((limit <? 0) || (offset <? 0))%Z
  then inl InvalidRowCount
  else inr (take (Z.to_nat limit) (drop (Z.to_nat offset) rows)).

(** The query of [get_user_tasks]. Rows created at the same instant come in
    an order the database chooses; here the order of the scan. *)
Definition select_user_tasks (user_id : string) (status : option string)
    (limit offset : Z) (d : Db) : exn + list TaskView :=
  let matching :=
    filter (λ kv, user_task_filter user_id status kv = true) (map_to_list (tasks d)) in
  match limit_offset limit offset (merge_sort created_later matching) with
  | inl e => inl e
  | inr rows => inr (task_view d <$> rows)
  end.

(** ** class NotificationService *)

(** [for x in xs: body x] *)
Fixpoint for_each {A : Type} (xs : list A) (body : A → M ()) : M () :=
  match xs with
  | [] => mret ()
  | x :: rest => _ ← body x; for_each rest body
  end.

Definition create_notification (env : Env) (user_id message notification_type : string)
    (related_id : option string) : M string :=
  notification_id ← uuid4 env;
  created_at ← now env;
  _ ← execute env (insert_notification notification_id user_id message notification_type
                     related_id created_at);
  mret notification_id.

(** The [with smtplib.SMTP(...)] block inside its [try]: [True] when the block
    ends, and any exception is turned into [False], also the one that comes
    after the relay has taken the message. *)
Definition smtp_send (env : Env) (mail : Email) : M bool := λ w,
  let after (sent : list Email) :=
    mkWorld (db w) (uuid_calls w) (clock_calls w) (db_calls w) (S (smtp_calls w)) sent in
  match smtp_at env (smtp_calls w) with
  | Delivered => (Ok true, after (outbox w ++ [mail])%list)
  | Refused => (Ok false, after (outbox w))
  | DeliveredThenFailed => (Ok false, after (outbox w ++ [mail])%list)
  end.

Definition send_email_notification (env : Env) (user_id subject message : string) : M bool :=
  if negb (truthy (smtp_server env)) || negb (truthy (sender_email env))
  then mret false
  else
    user_info ← fetch_one env (select_email_preferences user_id);
    match user_info with
    | None => mret false
    | Some (user_email, preferences) =>
        if negb (truthy user_email) then mret false
        else match preferences with
             | None => raise AttributeError
             | Some prefs =>
                 if negb (default false (prefs !! "email")) then mret false
                 else smtp_send env (mkEmail (default "" user_email) subject message)
             end
    end.

Definition assignment_message (task_title creator_name : string) : string :=
  "Вам назначена новая задача: " +:+ task_title +:+ " от пользователя " +:+ creator_name.

Definition assignment_email (task_title creator_name : string) : string :=
  "
        <html>
        <body>
            <h2>Вам назначена новая задача</h2>
            <p><strong>Название:</strong> " +:+ task_title +:+ "</p>
            <p><strong>От:</strong> " +:+ creator_name +:+ "</p>
            <p>Пожалуйста, войдите в систему для просмотра деталей задачи.</p>
        </body>
        </html>
        ".

Definition notify_task_assignment (env : Env) (task_id user_id : string) : M () :=
  task_info ← fetch_one env (select_task_title_creator task_id);
  match task_info with
  | None => mret ()
  | Some (task_title, creator_name) =>
      _ ← create_notification env user_id (assignment_message task_title creator_name)
            "task_assignment" (Some task_id);
      _ ← send_email_notification env user_id "Новая задача назначена"
            (assignment_email task_title creator_name);
      mret ()
  end.

Definition status_labels : gmap string string :=
  {[ "новая" := "создана"; "в работе" := "взята в работу";
     "выполнена" := "выполнена"; "отменена" := "отменена" ]}.

Definition status_message (task_title status_label : string) : string :=
  "Задача '" +:+ task_title +:+ "' " +:+ status_label.

Definition status_email (task_title new_status : string) : string :=
  "
            <html>
            <body>
                <h2>Изменение статуса задачи</h2>
                <p><strong>Задача:</strong> " +:+ task_title +:+ "</p>
                <p><strong>Новый статус:</strong> " +:+ new_status +:+ "</p>
                <p>Пожалуйста, войдите в систему для просмотра деталей задачи.</p>
            </body>
            </html>
            ".

(** The set [notify_users] of [notify_task_status_change]. *)
Definition status_change_recipients (creator_id : string) (assigned_to : option string)
    : gset string :=
  (if truthy (Some creator_id) then {[ creator_id ]} else ∅)
  ∪ match assigned_to with
    | Some a =>
        if truthy (Some a) && negb (bool_decide (a = creator_id)) then {[ a ]} else ∅
    | None => ∅
    end.

(** The body of the [for user_id in notify_users] loop. *)
Definition notify_status_change_to (env : Env) (task_id task_title status_label new_status
    user_id : string) : M () :=
  _ ← create_notification env user_id (status_message task_title status_label)
        "task_status_change" (Some task_id);
  _ ← send_email_notification env user_id
        ("Изменение статуса задачи: " +:+ task_title)
        (status_email task_title new_status);
  mret ().

Definition notify_task_status_change (env : Env) (task_id new_status : string) : M () :=
  task_info ← fetch_one env (select_task task_id);
  match task_info with
  | None => mret ()
  | Some t =>
      let task_title := t_title t in
      let notify_users := status_change_recipients (t_created_by t) (t_assigned_to t) in
      let status_label := default new_status (status_labels !! new_status) in
      for_each (elements notify_users)
        (notify_status_change_to env task_id task_title status_label new_status)
  end.

Definition mark_notification_as_read (env : Env) (notification_id : string) : M bool :=
  try_except
    (_ ← execute env (update_notification_read notification_id); mret true)
    (λ _, mret false).

(** ** class User *)

Module User.

Record t : Type := mk {
  id : string;
  username : string;
  password_hash : string;
  full_name : string;
  is_admin : bool;
  email : option string;
  notification_preferences : gmap string bool
}.

Definition default_preferences : gmap string bool :=
  {[ "email" := true; "in_app" := true ]}.

(** [__init__]: [notification_preferences or {"email": True, "in_app": True}] *)
Definition init (id username password_hash full_name : string) (is_admin : bool)
    (email : option string) (preferences : option (gmap string bool)) : t :=
  mk id username password_hash full_name is_admin email
    (match preferences with
     | Some p => if decide (p = ∅) then default_preferences else p
     | None => default_preferences
     end).

(** [hashlib.sha256(password.encode()).hexdigest()] *)
Definition hash_password (password : string) : string := Sha256.hexdigest password.

Definition verify_password (self : t) (password : string) : bool :=
  String.eqb (hash_password password) (password_hash self).

End User.

(** ** class TaskManager *)

(** The manager owns its session; the database and the notification service
    are the shared [World] and [Env]. *)
Record TaskManager : Type := mkTaskManager {
  current_user : option User.t
}.

Definition register_user (env : Env) (username password full_name : string)
    (is_admin : bool) (email : option string) : M pyval :=
  existing_user ← fetch_one env (select_user_by_username username);
  match existing_user with
  | Some _ => mret (VStr "Пользователь с таким именем уже существует")
  | None =>
      user_id ← uuid4 env;
      let password_hash := User.hash_password password in
      try_except
        (_ ← execute env (insert_user user_id username password_hash full_name is_admin email);
         mret (VStr user_id))
        (λ e, mret (VStr ("Ошибка регистрации пользователя: " +:+ exn_text env e)))
  end.

(** [login] returns its flag and the manager with [current_user] as the call
    leaves it. *)
Definition login (env : Env) (self : TaskManager) (username password : string)
    : M (bool * TaskManager) :=
  user_data ← fetch_one env (select_user_by_username username);
  match user_data with
  | None => mret (false, self)
  | Some (user_id, r) =>
      let user := User.init user_id (u_username r) (u_password_hash r) (u_full_name r)
                    (u_is_admin r) (u_email r) (u_notification_preferences r) in
      if User.verify_password user password
      then mret (true, mkTaskManager (Some user))
      else mret (false, self)
  end.

Definition logout (self : TaskManager) : TaskManager := mkTaskManager None.

Definition create_task (env : Env) (self : TaskManager) (title description : string)
    (department_id assigned_to : option string) (deadline : option Z) (priority : string)
    : M pyval :=
  match current_user self with
  | None => mret (VStr "Вы должны войти в систему для создания задачи")
  | Some cu =>
      (* the checks return the message of the first one that fails *)
      department_error ←
        (if truthy department_id then
           department ← fetch_one env (select_department (default "" department_id));
           match department with
           | None => mret (Some "Указанный отдел не найден")
           | Some (_, head_id) =>
               if negb (User.is_admin cu) && negb (String.eqb head_id (User.id cu))
               then mret (Some "Недостаточно прав для создания задачи в этом отделе")
               else mret None
           end
         else mret None);
      match department_error with
      | Some msg => mret (VStr msg)
      | None =>
          assignee_error ←
            (if truthy assigned_to then
               assigned_user ← fetch_one env (select_user (default "" assigned_to));
               match assigned_user with
               | None => mret (Some "Указанный пользователь не найден")
               | Some _ =>
                   if truthy department_id then
                     employee ← fetch_one env (select_employee (default "" department_id)
                                                 (default "" assigned_to));
                     match employee with
                     | None =>
                         mret (Some "Указанный пользователь не является сотрудником данного отдела")
                     | Some _ => mret None
                     end
                   else mret None
               end
             else mret None);
          match assignee_error with
          | Some msg => mret (VStr msg)
          | None =>
              task_id ← uuid4 env;
              try_except
                (created_at ← now env;
                 _ ← execute env
                       (insert_task task_id
                          (mkTaskRow title description (User.id cu) assigned_to department_id
                             created_at deadline "новая" priority));
                 _ ← (if truthy assigned_to
                      then notify_task_assignment env task_id (default "" assigned_to)
                      else mret ());
                 mret (VStr task_id))
                (λ e, mret (VStr ("Ошибка создания задачи: " +:+ exn_text env e)))
          end
      end
  end.

(** The [if] / [elif] chain of [assign_task] that sets [has_permission]. *)
Definition assign_permission (env : Env) (cu : User.t) (created_by : string)
    (department_id : option string) : M bool :=
  if User.is_admin cu then mret true
  else if String.eqb (User.id cu) created_by then mret true
  else if truthy department_id then
    department_head ← fetch_one env (select_department_head (default "" department_id));
    match department_head with
    | Some head_id => mret (String.eqb head_id (User.id cu))
    | None => mret false
    end
  else mret false.

Definition assign_task (env : Env) (self : TaskManager) (task_id user_id : string) : M pyval :=
  match current_user self with
  | None => mret (VStr "Вы должны войти в систему")
  | Some cu =>
      task ← fetch_one env (select_task task_id);
      match task with
      | None => mret (VStr "Задача не найдена")
      | Some t =>
          let department_id := t_department_id t in
          has_permission ← assign_permission env cu (t_created_by t) department_id;
          if negb has_permission
          then mret (VStr "Недостаточно прав для назначения этой задачи")
          else
            user ← fetch_one env (select_user user_id);
            match user with
            | None => mret (VStr "Пользователь не найден")
            | Some _ =>
                employee_error ←
                  (if truthy department_id then
                     employee ← fetch_one env
                                  (select_employee (default "" department_id) user_id);
                     match employee with
                     | None =>
                         mret (Some "Назначенный пользователь не является сотрудником данного отдела")
                     | Some _ => mret None
                     end
                   else mret None);
                match employee_error with
                | Some msg => mret (VStr msg)
                | None =>
                    try_except
                      (_ ← execute env (update_task_assignment user_id task_id);
                       _ ← notify_task_assignment env task_id user_id;
                       mret (VBool true))
                      (λ e, mret (VStr ("Ошибка при назначении задачи: " +:+ exn_text env e)))
                end
            end
      end
  end.

(** [assign_task] in two steps, for runs in which the calls of two managers
    on one database interleave: what it reads and decides before the [try],
    with the message of the check that fails, and the [try] block. *)
Definition assign_task_checks (env : Env) (self : TaskManager) (task_id user_id : string)
    : M (option pyval) :=
  match current_user self with
  | None => mret (Some (VStr "Вы должны войти в систему"))
  | Some cu =>
      task ← fetch_one env (select_task task_id);
      match task with
      | None => mret (Some (VStr "Задача не найдена"))
      | Some t =>
          let department_id := t_department_id t in
          has_permission ← assign_permission env cu (t_created_by t) department_id;
          if negb has_permission
          then mret (Some (VStr "Недостаточно прав для назначения этой задачи"))
          else
            user ← fetch_one env (select_user user_id);
            match user with
            | None => mret (Some (VStr "Пользователь не найден"))
            | Some _ =>
                if truthy department_id then
                  employee ← fetch_one env
                               (select_employee (default "" department_id) user_id);
                  match employee with
                  | None =>
                      mret (Some (VStr "Назначенный пользователь не является сотрудником данного отдела"))
                  | Some _ => mret None
                  end
                else mret None
            end
      end
  end.

Definition assign_task_commit (env : Env) (task_id user_id : string) : M pyval :=
  try_except
    (_ ← execute env (update_task_assignment user_id task_id);
     _ ← notify_task_assignment env task_id user_id;
     mret (VBool true))
    (λ e, mret (VStr ("Ошибка при назначении задачи: " +:+ exn_text env e))).

(** Two managers [a] and [b] on one database each call [assign_task] on the
    same task. Both have read and decided before either writes: *)
Definition assign_task_interleaved (env : Env) (a b : TaskManager)
    (task_id user_a user_b : string) : M (pyval * pyval) :=
  checked_a ← assign_task_checks env a task_id user_a;
  checked_b ← assign_task_checks env b task_id user_b;
  result_a ← match checked_a with
             | Some message => mret message
             | None => assign_task_commit env task_id user_a
             end;
  result_b ← match checked_b with
             | Some message => mret message
             | None => assign_task_commit env task_id user_b
             end;
  mret (result_a, result_b).

(** ... or one call ends before the other begins. *)
Definition assign_task_in_turn (env : Env) (a b : TaskManager)
    (task_id user_a user_b : string) : M (pyval * pyval) :=
  result_a ← assign_task env a task_id user_a;
  result_b ← assign_task env b task_id user_b;
  mret (result_a, result_b).

Definition valid_statuses : list string :=
  ["новая"; "в работе"; "выполнена"; "отменена"].

(** The [if] / [elif] chain of [update_task_status] that sets [has_permission]. *)
Definition status_permission (env : Env) (cu : User.t) (created_by : string)
    (assigned_to department_id : option string) : M bool :=
  if User.is_admin cu then mret true
  else if String.eqb (User.id cu) created_by then mret true
  else if bool_decide (Some (User.id cu) = assigned_to) then mret true
  else if truthy department_id then
    department_head ← fetch_one env (select_department_head (default "" department_id));
    match department_head with
    | Some head_id => mret (String.eqb head_id (User.id cu))
    | None => mret false
    end
  else mret false.

Definition update_task_status (env : Env) (self : TaskManager) (task_id status : string)
    : M pyval :=
  match current_user self with
  | None => mret (VStr "Вы должны войти в систему")
  | Some cu =>
      if negb (bool_decide (status ∈ valid_statuses))
      then mret (VStr ("Некорректный статус. Допустимые значения: "
                       +:+ String.concat ", " valid_statuses))
      else
        task ← fetch_one env (select_task task_id);
        match task with
        | None => mret (VStr "Задача не найдена")
        | Some t =>
            has_permission ←
              status_permission env cu (t_created_by t) (t_assigned_to t) (t_department_id t);
            if negb has_permission
            then mret (VStr "Недостаточно прав для изменения статуса этой задачи")
            else
              try_except
                (_ ← execute env (update_task_status_row status task_id);
                 _ ← notify_task_status_change env task_id status;
                 mret (VBool true))
                (λ e, mret (VStr ("Ошибка при обновлении статуса задачи: " +:+ exn_text env e)))
        end
  end.

(** [get_user_tasks] returns the rows, or a message. *)
Definition get_user_tasks (env : Env) (self : TaskManager) (user_id status : option string)
    (page per_page : Z) : M (list TaskView + string) :=
  match current_user self with
  | None => mret (inr "Вы должны войти в систему")
  | Some cu =>
      if truthy user_id
         && negb (String.eqb (default "" user_id) (User.id cu))
         && negb (User.is_admin cu)
      then mret (inr "Недостаточно прав для просмотра задач другого пользователя")
      else
        let user_id := if truthy user_id then default "" user_id else User.id cu in
        let status := if truthy status then status else None in
        let offset := ((page - 1) * per_page)%Z in
        try_except
          (tasks ← fetch_all env (select_user_tasks user_id status per_page offset);
           mret (inl tasks))
          (λ e, mret (inr ("Ошибка при получении задач: " +:+ exn_text env e)))
  end.

(** ** The rules as the specification words them *)

(** Access control, "Change task status": the principal is admin, or the
    creator of the task, or its assignee, or the head of its department. *)
Definition may_change_status (d : Db) (principal : User.t) (t : TaskRow) : Prop :=
  User.is_admin principal = true
  ∨ User.id principal = t_created_by t
  ∨ t_assigned_to t = Some (User.id principal)
  ∨ ∃ dep row, t_department_id t = Some dep
               ∧ departments d !! dep = Some row
               ∧ d_head_id row = User.id principal.

(** Status change: the recipients are the creator and the assignee, as a set. *)
Definition creator_and_assignee (t : TaskRow) : gset string :=
  {[ t_created_by t ]} ∪ from_option singleton ∅ (t_assigned_to t).

(** Concurrent assignment: exactly one of the two calls commits, the other
    one fails. *)
Definition one_commits_other_fails (result_a result_b : pyval) : Prop :=
  (result_a = VBool true ∧ result_b ≠ VBool true)
  ∨ (result_a ≠ VBool true ∧ result_b = VBool true).

(** ** Consistency of a database

    What the schema and the code keep true of every state they reach: the
    foreign keys of [tasks] and [notifications], identifiers that are not
    empty, and notification preferences that are not NULL. *)
Record db_consistent (d : Db) : Prop := mk_db_consistent {
  tasks_consistent :
    map_Forall (λ _ t, task_references d t = true) (tasks d);
  notifications_consistent :
    map_Forall (λ _ n, references (Some (n_user_id n)) (users d) = true) (notifications d);
  preferences_consistent :
    map_Forall (λ _ u, is_Some (u_notification_preferences u)) (users d);
  user_id_not_empty : users d !! "" = None;
  department_id_not_empty : departments d !! "" = None
}.

(** No call of the database connection fails. *)
Definition no_db_failure (env : Env) : Prop := ∀ n, db_fails_at env n = false.

(** ** A sample installation, for the examples *)

Module Sample.

Definition env : Env :=
  mkEnv (λ n, "uuid-" +:+ pretty n) (λ n, Z.of_nat n) (λ _, false) (λ _, Delivered)
        (λ _, "error") (Some "smtp.example.com") (Some "notifications@example.com").

(** The same, with a connection that fails at every call. *)
Definition env_down : Env :=
  mkEnv (uuid4_at env) (now_at env) (λ _, true) (λ _, Delivered)
        (exn_text env) (smtp_server env) (sender_email env).

Definition user_row (name : string) (admin : bool) : UserRow :=
  mkUserRow name (User.hash_password "pass123") name admin (Some (name +:+ "@example.com"))
    (Some User.default_preferences).

Definition db0 : Db :=
  mkDb {[ "u-admin" := user_row "admin1" true; "u-1" := user_row "user1" false;
          "u-2" := user_row "user2" false; "u-3" := user_row "user3" false ]}
       {[ "d-it" := mkDepartmentRow "IT" "u-admin" ]}
       {[ ("d-it", "u-1"); ("d-it", "u-2") ]}
       {[ "t-1" := mkTaskRow "Server" "Set up" "u-1" (Some "u-2") None 10 None
                     "новая" "высокий";
          "t-2" := mkTaskRow "Backup" "Do it" "u-2" (Some "u-2") None 20 None
                     "выполнена" "обычный";
          "t-3" := mkTaskRow "Audit" "Plan" "u-admin" None (Some "d-it") 30 None
                     "новая" "низкий" ]}
       {[ "n-1" := mkNotificationRow "u-2" "hello" "task_assignment" (Some "t-1") 11 false ]}.

Definition world0 : World := mkWorld db0 0 0 0 0 [].

(** A manager whose session belongs to the user [uid]. *)
Definition as_user (uid name : string) (admin : bool) : TaskManager :=
  mkTaskManager
    (Some (User.mk uid name (User.hash_password "pass123") name admin
             (Some (name +:+ "@example.com")) User.default_preferences)).

End Sample.

(** ** Vocabulary of the statements *)

(** The notifications that a run created: those of the database after it,
    less those of the database before. *)
Definition created_notifications (before after : Db) : gmap string NotificationRow :=
  notifications after ∖ notifications before.

(** The row that [create_notification] inserts. *)
Definition new_notification (env : Env) (w : World) (user_id message notification_type : string)
    (related_id : option string) : NotificationRow :=
  mkNotificationRow user_id message notification_type related_id
    (now_at env (clock_calls w)) false.

(** The state of the database after that insertion. *)
Definition with_notification (env : Env) (w : World) (user_id message notification_type : string)
    (related_id : option string) : Db :=
  set_notifications
    <[uuid4_at env (uuid_calls w) :=
        new_notification env w user_id message notification_type related_id]> (db w).

(** The assignment notification of the task [task_id] for [user_id], added
    to the database of [w]. *)
Definition assignment_notified (env : Env) (task_id user_id : string) (w : World) (d' : Db)
    : Prop :=
  ∃ task_title creator_name,
    select_task_title_creator task_id (db w) = Some (task_title, creator_name)
    ∧ notifications (db w) !! uuid4_at env (uuid_calls w) = None
    ∧ d' = with_notification env w user_id (assignment_message task_title creator_name)
             "task_assignment" (Some task_id).

(** The tables other than [notifications]. *)
Definition same_master_data (d d' : Db) : Prop :=
  users d' = users d ∧ departments d' = departments d
  ∧ department_employees d' = department_employees d ∧ tasks d' = tasks d.

(** What one turn of the loop adds for [user_id]. *)
Definition status_notification (task_id user_id : string) (n : NotificationRow) : Prop :=
  n_user_id n = user_id ∧ n_type n = "task_status_change"
  ∧ n_related_id n = Some task_id ∧ n_is_read n = false.

(** The user whose tasks [get_user_tasks] lists: the one asked for, and the
    principal when none is. *)
Definition requested_user (principal : User.t) (user_id : option string) : string :=
  if truthy user_id then default "" user_id else User.id principal.

(** The status that the listing is restricted to, if any. *)
Definition requested_status (status : option string) : option string :=
  if truthy status then status else None.

(** The user is the creator or the assignee of the task, which has the wanted
    status when one is wanted. *)
Definition task_of_user (user_id : string) (wanted : option string) (t : TaskRow) : Prop :=
  (t_created_by t = user_id ∨ t_assigned_to t = Some user_id)
  ∧ ∀ s, wanted = Some s → t_status t = s.






(** A computation that keeps a property of the database, whatever its
    outcome. *)
Definition preserves {A : Type} (P : Db → Prop) (m : M A) : Prop :=
  ∀ w r w', P (db w) → m w = (r, w') → P (db w').

(** ** The rest of [main.py]: departments *)

Definition set_departments
    (f : gmap string DepartmentRow → gmap string DepartmentRow) (d : Db) : Db :=
  mkDb (users d) (f (departments d)) (department_employees d) (tasks d) (notifications d).
Definition set_department_employees
    (f : gset (string * string) → gset (string * string)) (d : Db) : Db :=
  mkDb (users d) (departments d) (f (department_employees d)) (tasks d) (notifications d).

(** [SELECT is_admin FROM users WHERE id = %s] *)
Definition select_user_is_admin (user_id : string) (d : Db) : option bool :=
  u_is_admin <$> users d !! user_id.

(** [SELECT id FROM departments WHERE id = %s] *)
Definition select_department_id (department_id : string) (d : Db) : option string :=
  (λ _, department_id) <$> departments d !! department_id.

(** [INSERT INTO departments (id, name, head_id)] *)
Definition insert_department (department_id name head_id : string) (d : Db) : exn + Db :=
  match departments d !! department_id with
  | Some _ => inl UniqueViolation
  | None =>
      if references (Some head_id) (users d)
      then inr (set_departments <[department_id := mkDepartmentRow name head_id]> d)
      else inl ForeignKeyViolation
  end.

(** [INSERT INTO department_employees (department_id, user_id)] *)
Definition insert_department_employee (department_id user_id : string) (d : Db) : exn + Db :=
  if decide ((department_id, user_id) ∈ department_employees d)
  then inl UniqueViolation
  else if references (Some department_id) (departments d)
          && references (Some user_id) (users d)
       then inr (set_department_employees (λ es, {[ (department_id, user_id) ]} ∪ es) d)
       else inl ForeignKeyViolation.

Definition create_department (env : Env) (self : TaskManager) (name head_id : string)
    : M pyval :=
  match current_user self with
  | None => mret (VStr "Недостаточно прав для создания отдела")
  | Some cu =>
      if negb (User.is_admin cu)
      then mret (VStr "Недостаточно прав для создания отдела")
      else
        head_user ← fetch_one env (select_user_is_admin head_id);
        match head_user with
        | None => mret (VStr "Пользователь не найден")
        | Some head_is_admin =>
            if negb head_is_admin
            then mret (VStr "Руководитель отдела должен быть администратором")
            else
              department_id ← uuid4 env;
              try_except
                (_ ← execute env (insert_department department_id name head_id);
                 mret (VStr department_id))
                (λ e, mret (VStr ("Ошибка создания отдела: " +:+ exn_text env e)))
        end
  end.

Definition add_employee_to_department (env : Env) (self : TaskManager)
    (user_id department_id : string) : M pyval :=
  match current_user self with
  | None => mret (VStr "Недостаточно прав для добавления сотрудников")
  | Some cu =>
      if negb (User.is_admin cu)
      then mret (VStr "Недостаточно прав для добавления сотрудников")
      else
        user ← fetch_one env (select_user user_id);
        department ← fetch_one env (select_department_id department_id);
        match user, department with
        | None, _ => mret (VStr "Пользователь не найден")
        | Some _, None => mret (VStr "Отдел не найден")
        | Some _, Some _ =>
            try_except
              (existing ← fetch_one env (select_employee department_id user_id);
               match existing with
               | Some _ =>
                   mret (VStr "Пользователь уже является сотрудником этого отдела")
               | None =>
                   _ ← execute env (insert_department_employee department_id user_id);
                   mret (VBool true)
               end)
              (λ e, mret (VStr ("Ошибка добавления сотрудника: " +:+ exn_text env e)))
        end
  end.

(** ** Listing the tasks of a department *)

(** A row of the listing of [get_department_tasks]. *)
Record DepartmentTaskView : Type := mkDepartmentTaskView {
  dv_id : string;
  dv_title : string;
  dv_description : string;
  dv_status : string;
  dv_created_at : Z;
  dv_deadline : option Z;
  dv_priority : string;
  dv_creator_name : option string;
  dv_assignee_name : option string
}.

Definition department_task_view (d : Db) (kv : string * TaskRow) : DepartmentTaskView :=
  let t := kv.2 in
  mkDepartmentTaskView kv.1 (t_title t) (t_description t) (t_status t) (t_created_at t)
    (t_deadline t) (t_priority t)
    (u_full_name <$> users d !! t_created_by t)
    (k ← t_assigned_to t; u_full_name <$> users d !! k).

(** [WHERE t.department_id = %s], and [AND t.status = %s] when a status is
    given. *)
Definition department_task_filter (department_id : string) (status : option string)
    (kv : string * TaskRow) : bool :=
  bool_decide (t_department_id kv.2 = Some department_id)
  && match status with
     | Some s => bool_decide (t_status kv.2 = s)
     | None => true
     end.

(** The query of [get_department_tasks]. *)
Definition select_department_tasks (department_id : string) (status : option string)
    (limit offset : Z) (d : Db) : exn + list DepartmentTaskView :=
  let matching :=
    filter (λ kv, department_task_filter department_id status kv = true)
      (map_to_list (tasks d)) in
  match limit_offset limit offset (merge_sort created_later matching) with
  | inl e => inl e
  | inr rows => inr (department_task_view d <$> rows)
  end.

(** The [if] / [elif] / [else] chain of [get_department_tasks]. *)
Definition department_view_permission (env : Env) (cu : User.t)
    (department_id head_id : string) : M bool :=
  if User.is_admin cu then mret true
  else if String.eqb head_id (User.id cu) then mret true
  else
    employee ← fetch_one env (select_employee department_id (User.id cu));
    match employee with
    | Some _ => mret true
    | None => mret false
    end.

Definition get_department_tasks (env : Env) (self : TaskManager) (department_id : string)
    (status : option string) (page per_page : Z) : M (list DepartmentTaskView + string) :=
  match current_user self with
  | None => mret (inr "Вы должны войти в систему")
  | Some cu =>
      department ← fetch_one env (select_department department_id);
      match department with
      | None => mret (inr "Отдел не найден")
      | Some (_, head_id) =>
          has_permission ← department_view_permission env cu department_id head_id;
          if negb has_permission
          then mret (inr "Недостаточно прав для просмотра задач отдела")
          else
            let status := if truthy status then status else None in
            let offset := ((page - 1) * per_page)%Z in
            try_except
              (tasks ← fetch_all env (select_department_tasks department_id status
                                        per_page offset);
               mret (inl tasks))
              (λ e, mret (inr ("Ошибка при получении задач отдела: " +:+ exn_text env e)))
      end
  end.

(** ** Notifications of a user *)

(** A row of [get_user_notifications]. *)
Record NotificationView : Type := mkNotificationView {
  nv_id : string;
  nv_message : string;
  nv_type : string;
  nv_related_id : option string;
  nv_created_at : Z;
  nv_is_read : bool
}.

Definition notification_view (kv : string * NotificationRow) : NotificationView :=
  mkNotificationView kv.1 (n_message kv.2) (n_type kv.2) (n_related_id kv.2)
    (n_created_at kv.2) (n_is_read kv.2).

(** [WHERE user_id = %s], and [AND is_read = FALSE] when only the unread ones
    are asked for. *)
Definition user_notification_filter (user_id : string) (only_unread : bool)
    (kv : string * NotificationRow) : bool :=
  bool_decide (n_user_id kv.2 = user_id)
  && (if only_unread then negb (n_is_read kv.2) else true).

(** [ORDER BY created_at DESC] on notifications. *)
Definition notified_later (a b : string * NotificationRow) : Prop :=
  (n_created_at b.2 ≤ n_created_at a.2)%Z.

#[global] Instance notified_later_dec : RelDecision notified_later.
Proof. intros a b. unfold notified_later. apply _. Defined.

(** The query of [get_user_notifications]: [LIMIT %s], without OFFSET. *)
Definition select_user_notifications (user_id : string) (only_unread : bool) (limit : Z)
    (d : Db) : exn + list NotificationView :=
  let matching :=
    filter (λ kv, user_notification_filter user_id only_unread kv = true)
      (map_to_list (notifications d)) in
  match limit_offset limit 0 (merge_sort notified_later matching) with
  | inl e => inl e
  | inr rows => inr (notification_view <$> rows)
  end.

Definition get_user_notifications (env : Env) (user_id : string) (limit : Z)
    (only_unread : bool) : M (list NotificationView) :=
  fetch_all env (select_user_notifications user_id only_unread limit).

(** [SET is_read = TRUE WHERE user_id = %s AND is_read = FALSE] on one row. *)
Definition mark_read_of (user_id : string) (n : NotificationRow) : NotificationRow :=
  if bool_decide (n_user_id n = user_id) && negb (n_is_read n) then mark_read n else n.

(** [UPDATE notifications SET is_read = TRUE WHERE user_id = %s AND is_read = FALSE] *)
Definition update_notifications_read (user_id : string) (d : Db) : exn + Db :=
  inr (set_notifications (fmap (mark_read_of user_id)) d).

Definition mark_all_notifications_as_read (env : Env) (user_id : string) : M bool :=
  try_except
    (_ ← execute env (update_notifications_read user_id); mret true)
    (λ _, mret false).

(** [SELECT COUNT( * ) FROM notifications WHERE user_id = %s AND is_read = FALSE] *)
Definition count_unread_notifications (user_id : string) (d : Db) : option Z :=
  Some (Z.of_nat (length (filter (λ kv, user_notification_filter user_id true kv = true)
                            (map_to_list (notifications d))))).

(** [get_unread_notifications_count] returns the number, or a message. *)
Definition get_unread_notifications_count (env : Env) (self : TaskManager) : M (Z + string) :=
  match current_user self with
  | None => mret (inr "Вы должны войти в систему")
  | Some cu =>
      try_except
        (count ← fetch_one env (count_unread_notifications (User.id cu));
         mret (inl (default 0%Z count)))
        (λ e, mret (inr ("Ошибка при получении количества уведомлений: "
                         +:+ exn_text env e)))
  end.

(** ** Statistics *)

(** Timestamps count microseconds; [INTERVAL '1 day']. *)
Definition one_day : Z := 86400000000.

(** [COUNT( * ) FILTER (WHERE ...)] over the rows of [tasks] that [scope]
    selects. *)
Definition count_tasks (scope condition : TaskRow → bool) (d : Db) : Z :=
  Z.of_nat (length (filter (λ kv : string * TaskRow, scope kv.2 && condition kv.2 = true)
                      (map_to_list (tasks d)))).

Definition has_status (s : string) (t : TaskRow) : bool := bool_decide (t_status t = s).

(** The row of four counts, by status. *)
Definition status_counts (scope : TaskRow → bool) (d : Db) : option (Z * Z * Z * Z) :=
  Some (count_tasks scope (has_status "новая") d,
        count_tasks scope (has_status "в работе") d,
        count_tasks scope (has_status "выполнена") d,
        count_tasks scope (has_status "отменена") d).

(** [WHERE assigned_to = %s] and [WHERE created_by = %s] *)
Definition assigned_to_user (user_id : string) (t : TaskRow) : bool :=
  bool_decide (t_assigned_to t = Some user_id).
Definition created_by_user (user_id : string) (t : TaskRow) : bool :=
  bool_decide (t_created_by t = user_id).

(** [status NOT IN ('выполнена', 'отменена')] *)
Definition still_open (t : TaskRow) : bool :=
  negb (has_status "выполнена" t) && negb (has_status "отменена" t).

(** [deadline < CURRENT_TIMESTAMP AND status NOT IN (...)] *)
Definition is_overdue (current_timestamp : Z) (t : TaskRow) : bool :=
  match t_deadline t with
  | Some deadline => (deadline <? current_timestamp)%Z && still_open t
  | None => false
  end.

(** [deadline BETWEEN CURRENT_TIMESTAMP AND CURRENT_TIMESTAMP + INTERVAL '1 day'
    AND status NOT IN (...)] *)
Definition is_due_today (current_timestamp : Z) (t : TaskRow) : bool :=
  match t_deadline t with
  | Some deadline =>
      (current_timestamp <=? deadline)%Z && (deadline <=? current_timestamp + one_day)%Z
      && still_open t
  | None => false
  end.

(** The third query: [WHERE assigned_to = %s AND deadline IS NOT NULL]. *)
Definition deadline_counts (current_timestamp : Z) (user_id : string) (d : Db)
    : option (Z * Z) :=
  let scope t := assigned_to_user user_id t && bool_decide (is_Some (t_deadline t)) in
  Some (count_tasks scope (is_overdue current_timestamp) d,
        count_tasks scope (is_due_today current_timestamp) d).

Record StatusCounts : Type := mkStatusCounts {
  sc_new : Z;
  sc_in_progress : Z;
  sc_completed : Z;
  sc_cancelled : Z;
  sc_total : Z
}.

Record Statistics : Type := mkStatistics {
  assigned_tasks : StatusCounts;
  created_tasks : StatusCounts;
  deadlines_overdue : Z;
  deadlines_due_today : Z
}.

(** The inner dictionary: [stats[i] if stats else 0], [sum(stats) if stats else 0]. *)
Definition status_counts_dict (stats : option (Z * Z * Z * Z)) : StatusCounts :=
  match stats with
  | Some (a, b, c, e) => mkStatusCounts a b c e (a + b + c + e)
  | None => mkStatusCounts 0 0 0 0 0
  end.

(** [get_user_statistics]; [CURRENT_TIMESTAMP], the clock of the database
    server, is an argument. *)
Definition get_user_statistics (env : Env) (current_timestamp : Z) (self : TaskManager)
    (user_id : option string) : M (Statistics + string) :=
  match current_user self with
  | None => mret (inr "Вы должны войти в систему")
  | Some cu =>
      if truthy user_id
         && negb (String.eqb (default "" user_id) (User.id cu))
         && negb (User.is_admin cu)
      then mret (inr "Недостаточно прав для просмотра статистики другого пользователя")
      else
        let user_id := if truthy user_id then default "" user_id else User.id cu in
        try_except
          (assigned_stats ← fetch_one env (status_counts (assigned_to_user user_id));
           created_stats ← fetch_one env (status_counts (created_by_user user_id));
           deadline_stats ← fetch_one env (deadline_counts current_timestamp user_id);
           mret (inl (mkStatistics (status_counts_dict assigned_stats)
                        (status_counts_dict created_stats)
                        (default 0%Z (fst <$> deadline_stats))
                        (default 0%Z (snd <$> deadline_stats)))))
          (λ e, mret (inr ("Ошибка при получении статистики: " +:+ exn_text env e)))
  end.

(** ** Comments

    The table [task_comments] stands beside [Db], and the operations on it
    run in [MC], which is [M] with that table added to the state. *)

Record CommentRow : Type := mkCommentRow {
  c_task_id : string;
  c_user_id : string;
  c_text : string;
  c_created_at : Z
}.

Record WorldC : Type := mkWorldC {
  world : World;
  task_comments : gmap string CommentRow
}.

Definition MC (A : Type) : Type := WorldC → res A * WorldC.

#[global] Instance MC_ret : MRet MC := λ A a w, (Ok a, w).
#[global] Instance MC_bind : MBind MC := λ A B f m w,
  match m w with
  | (Ok a, w') => f a w'
  | (Raise e, w') => (Raise e, w')
  end.

(** A computation of [M], which leaves the comments alone. *)
Definition lift {A : Type} (m : M A) : MC A := λ wc,
  let '(r, w') := m (world wc) in (r, mkWorldC w' (task_comments wc)).

Definition try_except_c {A : Type} (body : MC A) (handler : exn → MC A) : MC A := λ wc,
  match body wc with
  | (Ok a, wc') => (Ok a, wc')
  | (Raise e, wc') => handler e wc'
  end.

(** [Database.execute], [fetch_one] and [fetch_all] on statements that
    involve [task_comments]. *)
Definition execute_c (env : Env)
    (stmt : Db → gmap string CommentRow → exn + gmap string CommentRow) : MC () := λ wc,
  let w := world wc in
  if db_fails_at env (db_calls w)
  then (Raise (OperationalError (db_calls w)),
        mkWorldC (count_db_call w (db w)) (task_comments wc))
  else match stmt (db w) (task_comments wc) with
       | inl e => (Raise e, mkWorldC (count_db_call w (db w)) (task_comments wc))
       | inr cs => (Ok (), mkWorldC (count_db_call w (db w)) cs)
       end.

Definition fetch_one_c {A : Type} (env : Env)
    (query : Db → gmap string CommentRow → option A) : MC (option A) := λ wc,
  lift (fetch_one env (λ d, query d (task_comments wc))) wc.

Definition fetch_all_c {A : Type} (env : Env)
    (query : Db → gmap string CommentRow → exn + list A) : MC (list A) := λ wc,
  lift (fetch_all env (λ d, query d (task_comments wc))) wc.

(** [INSERT INTO task_comments (id, task_id, user_id, text, created_at)] *)
Definition insert_comment (comment_id task_id user_id text : string) (created_at : Z)
    (d : Db) (cs : gmap string CommentRow) : exn + gmap string CommentRow :=
  match cs !! comment_id with
  | Some _ => inl UniqueViolation
  | None =>
      if references (Some task_id) (tasks d) && references (Some user_id) (users d)
      then inr (<[comment_id := mkCommentRow task_id user_id text created_at]> cs)
      else inl ForeignKeyViolation
  end.

(** What [notify_new_comment] selects: the comment joined with its task and
    its author. *)
Record CommentInfo : Type := mkCommentInfo {
  ci_text : string;
  ci_commenter_id : string;
  ci_task_id : string;
  ci_task_title : string;
  ci_creator_id : string;
  ci_assigned_to : option string;
  ci_commenter_name : string
}.

Definition select_comment_info (comment_id : string) (d : Db)
    (cs : gmap string CommentRow) : option CommentInfo :=
  c ← cs !! comment_id;
  t ← tasks d !! c_task_id c;
  u ← users d !! c_user_id c;
  Some (mkCommentInfo (c_text c) (c_user_id c) (c_task_id c) (t_title t)
          (t_created_by t) (t_assigned_to t) (u_full_name u)).

(** The set [notify_users] of [notify_new_comment]. *)
Definition new_comment_recipients (creator_id : string) (assigned_to : option string)
    (commenter_id : string) : gset string :=
  (if truthy (Some creator_id) && negb (bool_decide (creator_id = commenter_id))
   then {[ creator_id ]} else ∅)
  ∪ match assigned_to with
    | Some a =>
        if truthy (Some a) && negb (bool_decide (a = commenter_id))
           && negb (bool_decide (a = creator_id))
        then {[ a ]} else ∅
    | None => ∅
    end.

Definition comment_message (commenter_name task_title : string) : string :=
  "Новый комментарий от " +:+ commenter_name +:+ " к задаче '" +:+ task_title +:+ "'".

Definition comment_email (task_title commenter_name comment_text : string) : string :=
  "
            <html>
            <body>
                <h2>Новый комментарий к задаче</h2>
                <p><strong>Задача:</strong> " +:+ task_title +:+ "</p>
                <p><strong>От:</strong> " +:+ commenter_name +:+ "</p>
                <p><strong>Комментарий:</strong> " +:+ comment_text +:+ "</p>
                <p>Пожалуйста, войдите в систему для просмотра деталей задачи.</p>
            </body>
            </html>
            ".

(** The body of the loop of [notify_new_comment]. *)
Definition notify_new_comment_to (env : Env) (info : CommentInfo) (user_id : string) : M () :=
  _ ← create_notification env user_id
        (comment_message (ci_commenter_name info) (ci_task_title info))
        "new_comment" (Some (ci_task_id info));
  _ ← send_email_notification env user_id
        ("Новый комментарий к задаче: " +:+ ci_task_title info)
        (comment_email (ci_task_title info) (ci_commenter_name info) (ci_text info));
  mret ().

Definition notify_new_comment (env : Env) (comment_id : string) : MC () :=
  comment_info ← fetch_one_c env (select_comment_info comment_id);
  match comment_info with
  | None => mret ()
  | Some info =>
      let notify_users :=
        new_comment_recipients (ci_creator_id info) (ci_assigned_to info)
          (ci_commenter_id info) in
      lift (for_each (elements notify_users) (notify_new_comment_to env info))
  end.

Definition add_task_comment (env : Env) (self : TaskManager) (task_id comment_text : string)
    : MC pyval :=
  match current_user self with
  | None => mret (VStr "Вы должны войти в систему")
  | Some cu =>
      task ← lift (fetch_one env (select_task task_id));
      match task with
      | None => mret (VStr "Задача не найдена")
      | Some _ =>
          comment_id ← lift (uuid4 env);
          try_except_c
            (created_at ← lift (now env);
             _ ← execute_c env
                   (insert_comment comment_id task_id (User.id cu) comment_text created_at);
             _ ← notify_new_comment env comment_id;
             mret (VStr comment_id))
            (λ e, mret (VStr ("Ошибка при добавлении комментария: " +:+ exn_text env e)))
      end
  end.

(** A row of [get_task_comments]. *)
Record CommentView : Type := mkCommentView {
  cv_id : string;
  cv_text : string;
  cv_created_at : Z;
  cv_user_name : string
}.

(** [ORDER BY c.created_at ASC] *)
Definition commented_earlier (a b : string * CommentRow) : Prop :=
  (c_created_at a.2 ≤ c_created_at b.2)%Z.

#[global] Instance commented_earlier_dec : RelDecision commented_earlier.
Proof. intros a b. unfold commented_earlier. apply _. Defined.

(** [FROM task_comments c JOIN users u ON c.user_id = u.id WHERE c.task_id = %s
    ORDER BY c.created_at ASC] *)
Definition select_task_comments (task_id : string) (d : Db) (cs : gmap string CommentRow)
    : exn + list CommentView :=
  let matching :=
    filter (λ kv : string * CommentRow,
              c_task_id kv.2 = task_id ∧ is_Some (users d !! c_user_id kv.2))
      (map_to_list cs) in
  inr ((λ kv : string * CommentRow,
          mkCommentView kv.1 (c_text kv.2) (c_created_at kv.2)
            (default "" (u_full_name <$> users d !! c_user_id kv.2)))
       <$> merge_sort commented_earlier matching).

(** The [if] / [elif] chain of [get_task_comments]. *)
Definition comments_permission (env : Env) (cu : User.t) (created_by : string)
    (assigned_to department_id : option string) : M bool :=
  if User.is_admin cu then mret true
  else if String.eqb (User.id cu) created_by
          || bool_decide (Some (User.id cu) = assigned_to) then mret true
  else if truthy department_id then
    department_head ← fetch_one env (select_department_head (default "" department_id));
    if match department_head with
       | Some head_id => String.eqb head_id (User.id cu)
       | None => false
       end
    then mret true
    else
      employee ← fetch_one env (select_employee (default "" department_id) (User.id cu));
      match employee with
      | Some _ => mret true
      | None => mret false
      end
  else mret false.

Definition get_task_comments (env : Env) (self : TaskManager) (task_id : string)
    : MC (list CommentView + string) :=
  match current_user self with
  | None => mret (inr "Вы должны войти в систему")
  | Some cu =>
      task ← lift (fetch_one env (select_task task_id));
      match task with
      | None => mret (inr "Задача не найдена")
      | Some t =>
          has_permission ←
            lift (comments_permission env cu (t_created_by t) (t_assigned_to t)
                    (t_department_id t));
          if negb has_permission
          then mret (inr "Недостаточно прав для просмотра комментариев к этой задаче")
          else
            try_except_c
              (comments ← fetch_all_c env (select_task_comments task_id);
               mret (inl comments))
              (λ e, mret (inr ("Ошибка при получении комментариев: " +:+ exn_text env e)))
      end
  end.

(** ** What the dialogs of [ui.py] make of an answer *)

(** [isinstance(result, str) and not result.startswith('Ошибка')]: the test
    by which [RegisterDialog.register_user], [CreateTaskDialog.create_task]
    and [TaskDetailsDialog.add_comment] take the operation for done. *)
Definition ui_accepts (result : pyval) : bool :=
  match result with
  | VStr s => negb (String.prefix "Ошибка" s)
  | VBool _ => false
  end.

(** ** Vocabulary of the statements about the whole of [main.py] *)

(** A computation whose every outcome leaves the database related by [R] to
    the one it found. *)
Definition keeps {A : Type} (R : Db → Db → Prop) (m : M A) : Prop :=
  ∀ w r w', m w = (r, w') → R (db w) (db w').

Definition keeps_c {A : Type} (R : Db → Db → Prop) (m : MC A) : Prop :=
  ∀ wc r wc', m wc = (r, wc') → R (db (world wc)) (db (world wc')).

(** A relation that every write of [main.py] respects, each write taken with
    what the code has made sure of when it issues it: the identifier is one
    that [uuid4] gave, the head of a new department is an admin, a new task
    is in the first status, a status written by [update_task_status] is one
    of the four. *)
Record writes_respect (env : Env) (R : Db → Db → Prop) : Prop := mk_writes_respect {
  wr_refl : ∀ d, R d d;
  wr_trans : ∀ d1 d2 d3, R d1 d2 → R d2 d3 → R d1 d3;
  wr_insert_user :
    ∀ n username password_hash full_name is_admin email d d',
      insert_user (uuid4_at env n) username password_hash full_name is_admin email d
      = inr d' → R d d';
  wr_insert_department :
    ∀ n name head_id d d',
      select_user_is_admin head_id d = Some true →
      insert_department (uuid4_at env n) name head_id d = inr d' → R d d';
  wr_insert_department_employee :
    ∀ department_id user_id d d',
      insert_department_employee department_id user_id d = inr d' → R d d';
  wr_insert_task :
    ∀ n title description creator assigned_to department_id created_at deadline priority
      d d',
      insert_task (uuid4_at env n)
        (mkTaskRow title description creator assigned_to department_id created_at deadline
           "новая" priority) d = inr d' → R d d';
  wr_update_task_assignment :
    ∀ user_id task_id d d', update_task_assignment user_id task_id d = inr d' → R d d';
  wr_update_task_status_row :
    ∀ status task_id d d',
      status ∈ valid_statuses → update_task_status_row status task_id d = inr d' → R d d';
  wr_insert_notification :
    ∀ n user_id message notification_type related_id created_at d d',
      insert_notification (uuid4_at env n) user_id message notification_type related_id
        created_at d = inr d' → R d d';
  wr_update_notification_read :
    ∀ notification_id d d', update_notification_read notification_id d = inr d' → R d d';
  wr_update_notifications_read :
    ∀ user_id d d', update_notifications_read user_id d = inr d' → R d d'
}.

(** A call of one of the operations of [main.py], with its arguments. *)
Inductive call : Type :=
  | RegisterUser (username password full_name : string) (is_admin : bool)
      (email : option string)
  | Login (username password : string)
  | CreateDepartment (name head_id : string)
  | AddEmployeeToDepartment (user_id department_id : string)
  | CreateTask (title description : string) (department_id assigned_to : option string)
      (deadline : option Z) (priority : string)
  | AssignTask (task_id user_id : string)
  | UpdateTaskStatus (task_id status : string)
  | AddTaskComment (task_id comment_text : string)
  | GetUserTasks (user_id status : option string) (page per_page : Z)
  | GetDepartmentTasks (department_id : string) (status : option string) (page per_page : Z)
  | GetTaskComments (task_id : string)
  | GetUnreadNotificationsCount
  | GetUserStatistics (current_timestamp : Z) (user_id : option string)
  | GetUserNotifications (user_id : string) (limit : Z) (only_unread : bool)
  | MarkNotificationAsRead (notification_id : string)
  | MarkAllNotificationsAsRead (user_id : string).

(** The world that a call leaves, whatever it returns or raises. *)
Definition world_after (env : Env) (self : TaskManager) (c : call) (wc : WorldC) : WorldC :=
  match c with
  | RegisterUser username password full_name is_admin email =>
      (lift (register_user env username password full_name is_admin email) wc).2
  | Login username password => (lift (login env self username password) wc).2
  | CreateDepartment name head_id => (lift (create_department env self name head_id) wc).2
  | AddEmployeeToDepartment user_id department_id =>
      (lift (add_employee_to_department env self user_id department_id) wc).2
  | CreateTask title description department_id assigned_to deadline priority =>
      (lift (create_task env self title description department_id assigned_to deadline
               priority) wc).2
  | AssignTask task_id user_id => (lift (assign_task env self task_id user_id) wc).2
  | UpdateTaskStatus task_id status =>
      (lift (update_task_status env self task_id status) wc).2
  | AddTaskComment task_id comment_text =>
      (add_task_comment env self task_id comment_text wc).2
  | GetUserTasks user_id status page per_page =>
      (lift (get_user_tasks env self user_id status page per_page) wc).2
  | GetDepartmentTasks department_id status page per_page =>
      (lift (get_department_tasks env self department_id status page per_page) wc).2
  | GetTaskComments task_id => (get_task_comments env self task_id wc).2
  | GetUnreadNotificationsCount => (lift (get_unread_notifications_count env self) wc).2
  | GetUserStatistics current_timestamp user_id =>
      (lift (get_user_statistics env current_timestamp self user_id) wc).2
  | GetUserNotifications user_id limit only_unread =>
      (lift (get_user_notifications env user_id limit only_unread) wc).2
  | MarkNotificationAsRead notification_id =>
      (lift (mark_notification_as_read env notification_id) wc).2
  | MarkAllNotificationsAsRead user_id =>
      (lift (mark_all_notifications_as_read env user_id) wc).2
  end.

(** The world after a sequence of calls, each by some manager. *)
Fixpoint world_after_all (env : Env) (calls : list (TaskManager * call)) (wc : WorldC)
    : WorldC :=
  match calls with
  | [] => wc
  | (self, c) :: rest => world_after_all env rest (world_after env self c wc)
  end.

(** The head of every department is a user who is an admin. *)
Definition department_heads_are_admins (d : Db) : Prop :=
  map_Forall (λ _ r, select_user_is_admin (d_head_id r) d = Some true) (departments d).

(** Every task is in one of the four statuses. *)
Definition task_statuses_valid (d : Db) : Prop :=
  map_Forall (λ _ t, t_status t ∈ valid_statuses) (tasks d).

(** No two users have the same name. *)
Definition usernames_unique (d : Db) : Prop :=
  NoDup (u_username <$> (map_to_list (users d)).*2).

(** Every member of a department is a user, of a department that exists. *)
Definition memberships_reference (d : Db) : Prop :=
  set_Forall (λ p : string * string,
                is_Some (departments d !! p.1) ∧ is_Some (users d !! p.2))
    (department_employees d).

(** Users, departments and memberships are added, never removed or changed. *)
Definition master_data_grows (d d' : Db) : Prop :=
  users d ⊆ users d' ∧ departments d ⊆ departments d'
  ∧ department_employees d ⊆ department_employees d'.

(** What of a task no operation changes. *)
Definition task_fixed_part (t : TaskRow)
    : string * string * string * option string * Z * option Z * string :=
  (t_title t, t_description t, t_created_by t, t_department_id t, t_created_at t,
   t_deadline t, t_priority t).

(** Every task is still there, the same but for its assignee and status. *)
Definition tasks_persist (d d' : Db) : Prop :=
  ∀ k t, tasks d !! k = Some t →
         ∃ t', tasks d' !! k = Some t' ∧ task_fixed_part t' = task_fixed_part t.

(** Every notification is still there, the same but that it may have been
    read; one that was read stays read. *)
Definition notifications_persist (d d' : Db) : Prop :=
  ∀ k n, notifications d !! k = Some n →
         notifications d' !! k = Some n ∨ notifications d' !! k = Some (mark_read n).

(** A sample with comments. *)
Definition sample_world_c : WorldC :=
  mkWorldC Sample.world0
    {[ "c-1" := mkCommentRow "t-1" "u-2" "On it" 12 ]}.

(** The calls that begin with [if not self.current_user]. *)
Definition needs_session (c : call) : bool :=
  match c with
  | RegisterUser _ _ _ _ _ | Login _ _ | GetUserNotifications _ _ _
  | MarkNotificationAsRead _ | MarkAllNotificationsAsRead _ => false
  | _ => true
  end.

(** Who is told of a comment on the task [t]: its creator and its assignee,
    but not the author of the comment. *)
Definition comment_recipient (commenter_id : string) (t : TaskRow) (u : string) : Prop :=
  u ≠ "" ∧ u ≠ commenter_id ∧ (u = t_created_by t ∨ t_assigned_to t = Some u).

(** A notification of a comment on the task [task_id], which is [t]. *)
Definition comment_notification (task_id commenter_id : string) (t : TaskRow)
    (n : NotificationRow) : Prop :=
  comment_recipient commenter_id t (n_user_id n) ∧ n_type n = "new_comment"
  ∧ n_related_id n = Some task_id ∧ n_is_read n = false.

(** A day of work on the sample: a department is created and staffed, a task
    is created, taken up and commented on, its notifications are read, and a
    user registers. *)
Definition sample_calls : list (TaskManager * call) :=
  let admin := Sample.as_user "u-admin" "admin1" true in
  let user1 := Sample.as_user "u-1" "user1" false in
  let user2 := Sample.as_user "u-2" "user2" false in
  [ (admin, CreateDepartment "QA" "u-admin");
    (admin, AddEmployeeToDepartment "u-3" "d-it");
    (admin, CreateTask "Report" "Write it" (Some "d-it") (Some "u-2") None "обычный");
    (user1, AssignTask "t-1" "u-3");
    (user2, UpdateTaskStatus "t-1" "в работе");
    (user2, AddTaskComment "t-1" "Started");
    (admin, MarkAllNotificationsAsRead "u-2");
    (mkTaskManager None, RegisterUser "user4" "secret" "User Four" false None) ].

(** * Properties *)

Ltac unfold_monad :=
  unfold mbind, M_bind, mret, M_ret, raise, try_except in *.

Ltac unfold_db :=
  unfold fetch_one, fetch_all, execute, uuid4, now, count_db_call in *.

(** ** Consistency *)

Lemma references_Some {V : Type} (k : string) (table : gmap string V) :
  references (Some k) table = true ↔ is_Some (table !! k).
Proof. unfold references. apply bool_decide_eq_true. Qed.

Lemma consistent_task_creator (d : Db) (k : string) (t : TaskRow) :
  db_consistent d → tasks d !! k = Some t → is_Some (users d !! t_created_by t).
Proof.
  intros Hd Ht. apply references_Some.
  pose proof (tasks_consistent d Hd k t Ht) as H. unfold task_references in H.
  apply andb_prop in H as [H _]. apply andb_prop in H as [H _]. exact H.
Qed.

Lemma consistent_task_assignee (d : Db) (k : string) (t : TaskRow) (a : string) :
  db_consistent d → tasks d !! k = Some t → t_assigned_to t = Some a →
  is_Some (users d !! a).
Proof.
  intros Hd Ht Ha. apply references_Some. rewrite <- Ha.
  pose proof (tasks_consistent d Hd k t Ht) as H. unfold task_references in H.
  apply andb_prop in H as [H _]. apply andb_prop in H as [_ H]. exact H.
Qed.

Lemma sample_db_consistent : db_consistent Sample.db0.
Proof.
  constructor; try reflexivity; apply (bool_decide_unpack _); vm_compute; reflexivity.
Qed.
(** ** SHA-256 *)

Example hexdigest_empty :
  Sha256.hexdigest ""
  = "e3b0c44298fc1c149afbf4c8996fb92427ae41e4649b934ca495991b7852b855".
Proof. vm_compute. reflexivity. Qed.

Example hexdigest_abc :
  Sha256.hexdigest "abc"
  = "ba7816bf8f01cfea414140de5dae2223b00361a396177a9cb410ff61f20015ad".
Proof. vm_compute. reflexivity. Qed.

Example hexdigest_password123 :
  Sha256.hexdigest "password123"
  = "ef92b778bafe771e89245b89ecbc08a44a4e166c06659911881f383d4473e94f".
Proof. vm_compute. reflexivity. Qed.

(** 56 bytes: the padding spills into a second block. *)
Example hexdigest_two_blocks :
  Sha256.hexdigest "aaaaaaaaaaaaaaaaaaaaaaaaaaaaaaaaaaaaaaaaaaaaaaaaaaaaaaaa"
  = "b35439a4ac6f0948b6d6f9e3c6af0f5f590ce20f1bde7090ef7970686ec6738a".
Proof. vm_compute. reflexivity. Qed.

(** The constants computed from the primes are the ones of the standard:
    the first and the last round constant, and the first initial value. *)
Example round_constants :
  List.length Sha256.K = 64%nat
  ∧ List.nth 0 Sha256.K 0%Z = 0x428a2f98%Z
  ∧ List.nth 63 Sha256.K 0%Z = 0xc67178f2%Z
  ∧ Sha256.va Sha256.H0 = 0x6a09e667%Z.
Proof. repeat split. Qed.


(** ** Status validation *)

Example invalid_status_message :
  "Некорректный статус. Допустимые значения: " +:+ String.concat ", " valid_statuses
  = "Некорректный статус. Допустимые значения: новая, в работе, выполнена, отменена".
Proof. reflexivity. Qed.

(** C3. A logged-in principal who passes a status outside the four allowed
    values gets the validation message back, and the world is left exactly as
    it was: no table is touched and the database is not even queried, also
    when the task does not exist. *)
Theorem update_task_status_invalid_status
    (env : Env) (self : TaskManager) (cu : User.t) (task_id status : string) (w : World) :
  current_user self = Some cu →
  status ∉ valid_statuses →
  update_task_status env self task_id status w
  = (Ok (VStr "Некорректный статус. Допустимые значения: новая, в работе, выполнена, отменена"),
     w).
Proof.
  intros Hcu Hbad. unfold update_task_status. rewrite Hcu.
  rewrite bool_decide_eq_false_2 by exact Hbad. reflexivity.
Qed.

Lemma update_task_status_invalid_status_witness :
  update_task_status Sample.env (Sample.as_user "u-1" "user1" false) "t-1" "done" Sample.world0
  = (Ok (VStr "Некорректный статус. Допустимые значения: новая, в работе, выполнена, отменена"),
     Sample.world0).
Proof.
  apply (update_task_status_invalid_status Sample.env _
           (User.mk "u-1" "user1" (User.hash_password "pass123") "user1" false
              (Some "user1@example.com") User.default_preferences)).
  - reflexivity.
  - unfold valid_statuses. intros H. 
    repeat (apply elem_of_cons in H as [H|H]; [discriminate H|]).
    by apply elem_of_nil in H.
Defined.

(** ** Acknowledging a notification *)

Lemma set_notifications_alter_missing (f : NotificationRow → NotificationRow)
    (k : string) (d : Db) :
  notifications d !! k = None → set_notifications (alter f k) d = d.
Proof.
  intros Hk. destruct d as [us ds es ts ns]. unfold set_notifications. simpl in *.
  f_equal. apply alter_id. intros x Hx. congruence.
Qed.

(** C10. [mark_notification_as_read] never raises; it returns [True] exactly
    when the UPDATE went through, for every identifier, also one that
    addresses no notification, and [False] exactly when the connection
    failed. It touches no other table and no other notification; the
    addressed one, when there is one and the UPDATE went through, is the same
    row with [is_read] set. For an identifier that addresses nothing the
    database is left as it was. *)
Theorem mark_notification_as_read_outcome (env : Env) (notification_id : string) (w : World) :
  let out := mark_notification_as_read env notification_id w in
  out.1 = Ok (negb (db_fails_at env (db_calls w)))
  ∧ users (db out.2) = users (db w)
  ∧ departments (db out.2) = departments (db w)
  ∧ department_employees (db out.2) = department_employees (db w)
  ∧ tasks (db out.2) = tasks (db w)
  ∧ (∀ k, k ≠ notification_id →
          notifications (db out.2) !! k = notifications (db w) !! k)
  ∧ notifications (db out.2) !! notification_id
    = (if db_fails_at env (db_calls w)
       then notifications (db w) !! notification_id
       else mark_read <$> notifications (db w) !! notification_id)
  ∧ (notifications (db w) !! notification_id = None → db out.2 = db w).
Proof.
  unfold mark_notification_as_read. unfold_monad. unfold_db.
  destruct (db_fails_at env (db_calls w)); simpl.
  - repeat split; reflexivity.
  - repeat split; try reflexivity.
    + intros k Hk. by apply lookup_alter_ne.
    + apply lookup_alter_eq.
    + apply set_notifications_alter_missing.
Qed.

(** An identifier that addresses no notification: success, nothing changed. *)
Lemma mark_notification_as_read_outcome_witness :
  (mark_notification_as_read Sample.env "n-404" Sample.world0).1 = Ok true
  ∧ db (mark_notification_as_read Sample.env "n-404" Sample.world0).2 = Sample.db0.
Proof.
  pose proof (mark_notification_as_read_outcome Sample.env "n-404" Sample.world0) as H.
  destruct H as (Hr & _ & _ & _ & _ & _ & _ & Hdb).
  split; [exact Hr | apply Hdb; reflexivity].
Defined.

Example mark_notification_as_read_existing :
  (mark_notification_as_read Sample.env "n-1" Sample.world0).1 = Ok true
  ∧ notifications (db (mark_notification_as_read Sample.env "n-1" Sample.world0).2) !! "n-1"
    = Some (mkNotificationRow "u-2" "hello" "task_assignment" (Some "t-1") 11 true).
Proof. split; vm_compute; reflexivity. Qed.

Example mark_notification_as_read_connection_down :
  (mark_notification_as_read Sample.env_down "n-1" Sample.world0).1 = Ok false
  ∧ db (mark_notification_as_read Sample.env_down "n-1" Sample.world0).2 = Sample.db0.
Proof. split; vm_compute; reflexivity. Qed.

(** ** Effects of the notification service *)

(** What a call may do to the world besides the tables it is about: the
    counters only move forward, which the statements below do not need, so
    they speak of the database alone. *)

Arguments send_email_notification : simpl never.
Arguments create_notification : simpl never.
Arguments notify_task_assignment : simpl never.
Arguments notify_task_status_change : simpl never.

(** Sending mail never writes to the database and draws no identifier. *)
Lemma send_email_notification_frame (env : Env) (user_id subject message : string)
    (w : World) (r : res bool) (w' : World) :
  send_email_notification env user_id subject message w = (r, w') →
  db w' = db w ∧ uuid_calls w' = uuid_calls w ∧ clock_calls w' = clock_calls w.
Proof.
  unfold send_email_notification, smtp_send. unfold_monad. unfold_db.
  repeat match goal with
         | |- context [if ?b then _ else _] => destruct b
         | |- context [match ?x with _ => _ end] => destruct x
         end;
    intros [= <- <-]; simpl; auto.
Qed.

(** With a working connection and preferences that are not NULL it returns. *)
Lemma send_email_notification_returns (env : Env) (user_id subject message : string)
    (w : World) :
  db_fails_at env (db_calls w) = false →
  (∀ u, users (db w) !! user_id = Some u → is_Some (u_notification_preferences u)) →
  ∃ b w', send_email_notification env user_id subject message w = (Ok b, w')
          ∧ (db_calls w ≤ db_calls w' ≤ S (db_calls w))%nat.
Proof.
  intros Hdb Hprefs.
  unfold send_email_notification, smtp_send, select_email_preferences.
  destruct (negb (truthy (smtp_server env)) || negb (truthy (sender_email env)));
    [eexists _, _; split; [reflexivity | lia] |].
  unfold_monad. unfold_db. rewrite Hdb.
  destruct (users (db w) !! user_id) as [u|] eqn:Hu; simpl;
    [| eexists _, _; split; [reflexivity | simpl; lia]].
  destruct (negb (truthy (u_email u)));
    [eexists _, _; split; [reflexivity | simpl; lia] |].
  destruct (Hprefs u eq_refl) as [p ->].
  destruct (negb (default false (p !! "email")));
    [eexists _, _; split; [reflexivity | simpl; lia] |].
  simpl. destruct (smtp_at env (smtp_calls w));
    eexists _, _; (split; [reflexivity | simpl; lia]).
Qed.

(** Whatever happens, [create_notification] leaves the other tables alone and
    either leaves [notifications] alone too, or adds one unread row under an
    identifier that was free. *)
Lemma create_notification_effect (env : Env) (user_id message notification_type : string)
    (related_id : option string) (w : World) (r : res string) (w' : World) :
  create_notification env user_id message notification_type related_id w = (r, w') →
  uuid_calls w' = S (uuid_calls w)
  ∧ ((db w' = db w ∧ ∃ e, r = Raise e)
     ∨ (r = Ok (uuid4_at env (uuid_calls w))
        ∧ notifications (db w) !! uuid4_at env (uuid_calls w) = None
        ∧ db w' = with_notification env w user_id message notification_type related_id)).
Proof.
  unfold create_notification, insert_notification, with_notification, new_notification.
  unfold_monad. unfold_db. simpl.
  destruct (db_fails_at env (db_calls w)); simpl.
  { intros [= <- <-]. simpl. eauto. }
  destruct (notifications (db w) !! uuid4_at env (uuid_calls w)) eqn:Hfree; simpl.
  { intros [= <- <-]. simpl. eauto. }
  destruct (bool_decide (is_Some (users (db w) !! user_id))); simpl;
    intros [= <- <-]; simpl; eauto.
Qed.

(** With a working connection, a free identifier and an existing recipient,
    the row is inserted. *)
Lemma create_notification_inserts (env : Env) (user_id message notification_type : string)
    (related_id : option string) (w : World) :
  db_fails_at env (db_calls w) = false →
  notifications (db w) !! uuid4_at env (uuid_calls w) = None →
  is_Some (users (db w) !! user_id) →
  ∃ w', create_notification env user_id message notification_type related_id w
        = (Ok (uuid4_at env (uuid_calls w)), w')
        ∧ db w' = with_notification env w user_id message notification_type related_id
        ∧ uuid_calls w' = S (uuid_calls w)
        ∧ db_calls w' = S (db_calls w).
Proof.
  intros Hdb Hfree Huser.
  unfold create_notification, insert_notification, with_notification, new_notification.
  unfold_monad. unfold_db. simpl. rewrite Hdb, Hfree. simpl.
  rewrite bool_decide_eq_true_2 by exact Huser. simpl.
  eexists. repeat split; reflexivity.
Qed.

(** Whatever happens, [notify_task_assignment] changes nothing or adds the
    assignment notification; when it returns and the task has its creator,
    it has added it. *)
Lemma notify_task_assignment_effect (env : Env) (task_id user_id : string)
    (w : World) (r : res ()) (w' : World) :
  notify_task_assignment env task_id user_id w = (r, w') →
  (db w' = db w
   ∧ (r = Ok () → select_task_title_creator task_id (db w) = None))
  ∨ assignment_notified env task_id user_id w (db w').
Proof.
  unfold notify_task_assignment. unfold_monad. unfold fetch_one.
  destruct (db_fails_at env (db_calls w)).
  { intros [= <- <-]. left. split; [reflexivity | discriminate]. }
  destruct (select_task_title_creator task_id (db w)) as [[task_title creator_name]|] eqn:Hjoin.
  2:{ intros [= <- <-]. left. split; reflexivity. }
  destruct (create_notification env user_id (assignment_message task_title creator_name)
              "task_assignment" (Some task_id) (count_db_call w (db w)))
    as [rc w1] eqn:Hcreate.
  apply create_notification_effect in Hcreate as [_ [[Hdb [e ->]] | (-> & Hfree & Hdb)]].
  { intros [= <- <-]. left. split; [exact Hdb | discriminate]. }
  destruct (send_email_notification env user_id "Новая задача назначена"
              (assignment_email task_title creator_name) w1) as [rs w2] eqn:Hsend.
  apply send_email_notification_frame in Hsend as (Hdb2 & _ & _).
  intros Hout. right. exists task_title, creator_name.
  assert (db w' = db w2) as -> by (destruct rs; injection Hout as <- <-; reflexivity).
  rewrite Hdb2, Hdb. repeat split; assumption.
Qed.

(** With a working connection, a free identifier, and a task and a recipient
    that exist, it returns and has added the notification. *)
Lemma notify_task_assignment_returns (env : Env) (task_id user_id : string) (w : World) :
  no_db_failure env →
  (∀ k u, users (db w) !! k = Some u → is_Some (u_notification_preferences u)) →
  is_Some (select_task_title_creator task_id (db w)) →
  notifications (db w) !! uuid4_at env (uuid_calls w) = None →
  is_Some (users (db w) !! user_id) →
  ∃ w', notify_task_assignment env task_id user_id w = (Ok (), w')
        ∧ assignment_notified env task_id user_id w (db w')
        ∧ uuid_calls w' = S (uuid_calls w).
Proof.
  intros Hdb Hprefs [[task_title creator_name] Hjoin] Hfree Huser.
  unfold notify_task_assignment. unfold_monad. unfold fetch_one.
  rewrite Hdb, Hjoin.
  destruct (create_notification_inserts env user_id
              (assignment_message task_title creator_name) "task_assignment" (Some task_id)
              (count_db_call w (db w))) as (w1 & -> & Hdb1 & Hid1 & _);
    [apply Hdb | exact Hfree | exact Huser |].
  destruct (send_email_notification_returns env user_id "Новая задача назначена"
              (assignment_email task_title creator_name) w1) as (b & w2 & Hsend & _).
  { apply Hdb. }
  { intros u Hu. rewrite Hdb1 in Hu. simpl in Hu. exact (Hprefs _ _ Hu). }
  pose proof Hsend as Hframe.
  apply send_email_notification_frame in Hframe as (Hdb2 & Hid2 & _).
  rewrite Hsend. eexists. split; [reflexivity |]. split.
  - exists task_title, creator_name. rewrite Hdb2, Hdb1. repeat split; assumption.
  - rewrite Hid2, Hid1. reflexivity.
Qed.

(** ** Assignment *)

Arguments assign_task_checks : simpl never.
Arguments assign_task_commit : simpl never.

(** The two steps make up [assign_task]. *)
Lemma assign_task_steps (env : Env) (self : TaskManager) (task_id user_id : string) (w : World) :
  assign_task env self task_id user_id w
  = (checked ← assign_task_checks env self task_id user_id;
     match checked with
     | Some message => mret message
     | None => assign_task_commit env task_id user_id
     end) w.
Proof.
  unfold assign_task, assign_task_checks, assign_task_commit. unfold_monad.
  destruct (current_user self) as [cu|]; [| reflexivity].
  destruct (fetch_one env (select_task task_id) w) as [[[t|]|e] w1]; try reflexivity.
  destruct (assign_permission env cu (t_created_by t) (t_department_id t) w1)
    as [[[]|e] w2]; try reflexivity.
  simpl.
  destruct (fetch_one env (select_user user_id) w2) as [[[u|]|e] w3]; try reflexivity.
  destruct (truthy (t_department_id t)); [| reflexivity].
  destruct (fetch_one env (select_employee (default "" (t_department_id t)) user_id) w3)
    as [[[one|]|e] w4]; reflexivity.
Qed.

Lemma fetch_one_frame {A : Type} (env : Env) (query : Db → option A) (w : World)
    (r : res (option A)) (w' : World) :
  fetch_one env query w = (r, w') →
  db w' = db w ∧ uuid_calls w' = uuid_calls w ∧ clock_calls w' = clock_calls w
  ∧ (∀ a, r = Ok a → a = query (db w)).
Proof.
  unfold fetch_one. destruct (db_fails_at env (db_calls w)); intros [= <- <-]; simpl;
    repeat split; congruence.
Qed.

Lemma assign_permission_frame (env : Env) (cu : User.t) (created_by : string)
    (department_id : option string) (w : World) (r : res bool) (w' : World) :
  assign_permission env cu created_by department_id w = (r, w') →
  db w' = db w ∧ uuid_calls w' = uuid_calls w ∧ clock_calls w' = clock_calls w.
Proof.
  unfold assign_permission.
  destruct (User.is_admin cu); [intros [= <- <-]; auto |].
  destruct (String.eqb (User.id cu) created_by); [intros [= <- <-]; auto |].
  destruct (truthy department_id); [| intros [= <- <-]; auto].
  unfold_monad.
  destruct (fetch_one env _ w) as [[[h|]|e] w1] eqn:Hf;
    apply fetch_one_frame in Hf as (? & ? & ? & _); intros [= <- <-]; auto.
Qed.

(** The checks only read: the database is as before, no identifier is drawn
    and the clock is not read. When they pass, the task and the target user
    exist. *)
Lemma assign_task_checks_frame (env : Env) (self : TaskManager) (task_id user_id : string)
    (w : World) (r : res (option pyval)) (w' : World) :
  assign_task_checks env self task_id user_id w = (r, w') →
  db w' = db w ∧ uuid_calls w' = uuid_calls w ∧ clock_calls w' = clock_calls w
  ∧ (∀ v, r = Ok (Some v) → v ≠ VBool true)
  ∧ (r = Ok None →
     is_Some (tasks (db w) !! task_id) ∧ is_Some (users (db w) !! user_id)).
Proof.
  unfold assign_task_checks. unfold_monad.
  destruct (current_user self) as [cu|].
  2:{ intros [= <- <-]. repeat split; try done. by intros v [= <-]. }
  destruct (fetch_one env (select_task task_id) w) as [[[t|]|e] w1] eqn:H1;
    apply fetch_one_frame in H1 as (D1 & U1 & C1 & Q1).
  2:{ intros [= <- <-]. repeat split; try done. by intros v [= <-]. }
  2:{ intros [= <- <-]. repeat split; try done. }
  specialize (Q1 _ eq_refl). unfold select_task in Q1.
  destruct (assign_permission env cu (t_created_by t) (t_department_id t) w1)
    as [[[]|e] w2] eqn:H2; apply assign_permission_frame in H2 as (D2 & U2 & C2); simpl.
  2:{ intros [= <- <-]. repeat split; congruence. }
  2:{ intros [= <- <-]. repeat split; congruence. }
  destruct (fetch_one env (select_user user_id) w2) as [[[u|]|e] w3] eqn:H3;
    apply fetch_one_frame in H3 as (D3 & U3 & C3 & Q3).
  2:{ intros [= <- <-]. repeat split; congruence. }
  2:{ intros [= <- <-]. repeat split; congruence. }
  specialize (Q3 _ eq_refl). unfold select_user in Q3. rewrite D2, D1 in Q3.
  assert (is_Some (tasks (db w) !! task_id) ∧ is_Some (users (db w) !! user_id)) as Hex.
  { split; [rewrite <- Q1 | rewrite <- Q3]; eauto. }
  destruct (truthy (t_department_id t)).
  2:{ intros [= <- <-]. repeat split; first [congruence | apply Hex]. }
  destruct (fetch_one env _ w3) as [[[one|]|e] w4] eqn:H4;
    apply fetch_one_frame in H4 as (D4 & U4 & C4 & _);
    intros [= <- <-]; repeat split; first [congruence | apply Hex].
Qed.

(** Whatever happens, the [try] block returns a value. Either the UPDATE did
    not go through and the database is as before, or it did, and then the
    assignment notification is the only other change, if any. *)
Lemma assign_task_commit_effect (env : Env) (task_id user_id : string)
    (w : World) (r : res pyval) (w' : World) :
  assign_task_commit env task_id user_id w = (r, w') →
  ∃ v, r = Ok v
    ∧ ((db w' = db w ∧ v ≠ VBool true)
       ∨ ∃ d1, update_task_assignment user_id task_id (db w) = inr d1
           ∧ ((db w' = d1
               ∧ (v = VBool true → select_task_title_creator task_id d1 = None))
              ∨ assignment_notified env task_id user_id (count_db_call w d1) (db w'))).
Proof.
  unfold assign_task_commit. unfold_monad. unfold execute.
  destruct (db_fails_at env (db_calls w)).
  { intros [= <- <-]. eexists. split; [reflexivity |]. left. by split. }
  destruct (update_task_assignment user_id task_id (db w)) as [e|d1] eqn:Hupd.
  { intros [= <- <-]. eexists. split; [reflexivity |]. left. by split. }
  destruct (notify_task_assignment env task_id user_id (count_db_call w d1))
    as [rn w2] eqn:Hn.
  apply notify_task_assignment_effect in Hn.
  destruct rn as [[]|e]; intros [= <- <-]; (eexists; split; [reflexivity |]);
    right; exists d1; (split; [reflexivity |]).
  - destruct Hn as [[Hdb Hjoin] | Hadded]; [left | right; exact Hadded].
    split; [exact Hdb | intros _; exact (Hjoin eq_refl)].
  - destruct Hn as [[Hdb Hjoin] | Hadded]; [left | right; exact Hadded].
    split; [exact Hdb | discriminate].
Qed.

(** Every outcome of [assign_task]: the database is as before and the call
    did not succeed, or the task has been assigned and put in progress, and
    then the assignment notification is the only other change, if any. *)
Lemma assign_task_effect (env : Env) (self : TaskManager) (task_id user_id : string)
    (w : World) (r : res pyval) (w' : World) :
  assign_task env self task_id user_id w = (r, w') →
  (db w' = db w ∧ r ≠ Ok (VBool true))
  ∨ ∃ t w1,
      tasks (db w) !! task_id = Some t
      ∧ db w1 = set_tasks <[task_id := set_assignment user_id t]> (db w)
      ∧ uuid_calls w1 = uuid_calls w
      ∧ clock_calls w1 = clock_calls w
      ∧ ((db w' = db w1
          ∧ (r = Ok (VBool true) → select_task_title_creator task_id (db w1) = None))
         ∨ assignment_notified env task_id user_id w1 (db w')).
Proof.
  rewrite assign_task_steps. unfold_monad.
  destruct (assign_task_checks env self task_id user_id w) as [rc w0] eqn:Hc.
  apply assign_task_checks_frame in Hc as (D0 & U0 & C0 & Hmsg & Hpass).
  destruct rc as [[v|]|e].
  - intros [= <- <-]. left. split; [exact D0 |]. intros [= ->]. by eapply Hmsg.
  - destruct (Hpass eq_refl) as [[t Ht] Hu].
    intros Hcommit. apply assign_task_commit_effect in Hcommit as (v & -> & Heff).
    destruct Heff as [[Hdb Hv] | (d1 & Hupd & Heff)].
    { left. split; [congruence |]. intros [= ->]. by apply Hv. }
    right. unfold update_task_assignment in Hupd. rewrite D0, Ht in Hupd.
    unfold references in Hupd. rewrite bool_decide_eq_true_2 in Hupd by exact Hu.
    injection Hupd as <-.
    exists t, (count_db_call w0 (set_tasks <[task_id := set_assignment user_id t]> (db w))).
    repeat split; try assumption.
    destruct Heff as [[Hdb Hjoin] | Hadded]; [left | right; exact Hadded].
    split; [exact Hdb |]. intros [= ->]. by apply Hjoin.
  - intros [= <- <-]. left. by split.
Qed.

Lemma run_result {A : Type} (m : M A) (w : World) (r : res A) :
  (m w).1 = r → m w = (r, (m w).2).
Proof. intros <-. apply surjective_pairing. Qed.

Lemma assignment_notified_row (env : Env) (task_id user_id : string) (w : World) (d' : Db) :
  assignment_notified env task_id user_id w d' →
  users d' = users (db w) ∧ tasks d' = tasks (db w)
  ∧ ∃ nid n,
      notifications (db w) !! nid = None
      ∧ notifications d' = <[nid := n]> (notifications (db w))
      ∧ n_user_id n = user_id ∧ n_type n = "task_assignment"
      ∧ n_related_id n = Some task_id ∧ n_is_read n = false.
Proof.
  intros (task_title & creator_name & _ & Hfree & ->). repeat split.
  eexists _, _. split; [exact Hfree |]. split; [reflexivity |]. repeat split.
Qed.

(** C2. When [assign_task] returns [True] on a consistent database, the task
    existed, and whatever its status was before, it is now the same task with
    the target user as assignee and the status in progress; the other tasks
    are untouched. One notification has been added under a fresh identifier:
    unread, of type [task_assignment], addressed to the target user and
    related to the task. *)
Theorem assign_task_success
    (env : Env) (self : TaskManager) (task_id user_id : string) (w w' : World) :
  db_consistent (db w) →
  assign_task env self task_id user_id w = (Ok (VBool true), w') →
  ∃ t t' nid n,
    tasks (db w) !! task_id = Some t
    ∧ tasks (db w') = <[task_id := t']> (tasks (db w))
    ∧ t' = set_assignment user_id t
    ∧ t_assigned_to t' = Some user_id
    ∧ t_status t' = "в работе"
    ∧ notifications (db w) !! nid = None
    ∧ notifications (db w') = <[nid := n]> (notifications (db w))
    ∧ n_user_id n = user_id
    ∧ n_type n = "task_assignment"
    ∧ n_related_id n = Some task_id
    ∧ n_is_read n = false.
Proof.
  intros Hcons Hrun. apply assign_task_effect in Hrun as [[_ Hne] | Heff]; [done |].
  destruct Heff as (t & w1 & Ht & Hdb1 & _ & _ & Hnotify).
  assert (is_Some (select_task_title_creator task_id (db w1))) as Hjoin.
  { unfold select_task_title_creator. rewrite Hdb1. simpl. rewrite lookup_insert_eq. simpl.
    destruct (consistent_task_creator _ _ _ Hcons Ht) as [u ->]. simpl. eauto. }
  destruct Hnotify as [[_ Hnone] | Hadded].
  { rewrite (Hnone eq_refl) in Hjoin. by destruct Hjoin. }
  apply assignment_notified_row in Hadded as (_ & Htasks & nid & n & Hfree & Hn & Hprops).
  rewrite Hdb1 in Htasks, Hfree, Hn. simpl in *.
  exists t, (set_assignment user_id t), nid, n. repeat split; tauto.
Qed.

(** A completed task is assigned again: it is in progress afterwards. *)
Lemma assign_task_success_witness :
  tasks Sample.db0 !! "t-2"
  = Some (mkTaskRow "Backup" "Do it" "u-2" (Some "u-2") None 20 None "выполнена" "обычный")
  ∧ ∃ t t' nid n,
      tasks (db Sample.world0) !! "t-2" = Some t
      ∧ tasks (db (assign_task Sample.env (Sample.as_user "u-2" "user2" false)
                     "t-2" "u-3" Sample.world0).2)
        = <["t-2" := t']> (tasks (db Sample.world0))
      ∧ t' = set_assignment "u-3" t
      ∧ t_assigned_to t' = Some "u-3"
      ∧ t_status t' = "в работе"
      ∧ notifications (db Sample.world0) !! nid = None
      ∧ notifications (db (assign_task Sample.env (Sample.as_user "u-2" "user2" false)
                             "t-2" "u-3" Sample.world0).2)
        = <[nid := n]> (notifications (db Sample.world0))
      ∧ n_user_id n = "u-3"
      ∧ n_type n = "task_assignment"
      ∧ n_related_id n = Some "t-2"
      ∧ n_is_read n = false.
Proof.
  split; [reflexivity |].
  apply (assign_task_success Sample.env (Sample.as_user "u-2" "user2" false)
           "t-2" "u-3" Sample.world0).
  - exact sample_db_consistent.
  - apply run_result. vm_compute. reflexivity.
Defined.

(** C9. Whatever the outcome of [assign_task], the notifications are as
    before or one row has been added under a fresh identifier, and that row
    is of type [task_assignment] and addressed to the target user. So every
    notification that the call created is an assignment notification for the
    new assignee, and a notification of type [task_status_change] found
    afterwards was there before. *)
Theorem assign_task_notifies_assignee_only
    (env : Env) (self : TaskManager) (task_id user_id : string) (w : World) :
  let w' := (assign_task env self task_id user_id w).2 in
  (notifications (db w') = notifications (db w)
   ∨ ∃ nid n,
       notifications (db w) !! nid = None
       ∧ notifications (db w') = <[nid := n]> (notifications (db w))
       ∧ n_user_id n = user_id
       ∧ n_type n = "task_assignment"
       ∧ n_related_id n = Some task_id)
  ∧ (∀ k n, notifications (db w') !! k = Some n →
            notifications (db w) !! k = None →
            n_user_id n = user_id ∧ n_type n = "task_assignment")
  ∧ (∀ k n, notifications (db w') !! k = Some n →
            n_type n = "task_status_change" →
            notifications (db w) !! k = Some n).
Proof.
  intros w'.
  assert (notifications (db w') = notifications (db w)
          ∨ ∃ nid n,
              notifications (db w) !! nid = None
              ∧ notifications (db w') = <[nid := n]> (notifications (db w))
              ∧ n_user_id n = user_id
              ∧ n_type n = "task_assignment"
              ∧ n_related_id n = Some task_id) as Hcases.
  { subst w'.
    destruct (assign_task env self task_id user_id w) as [r w1] eqn:Hrun. simpl.
    apply assign_task_effect in Hrun as [[-> _] | Heff]; [by left |].
    destruct Heff as (t & w0 & _ & Hdb0 & _ & _ & [[-> _] | Hadded]).
    { left. by rewrite Hdb0. }
    apply assignment_notified_row in Hadded as (_ & _ & nid & n & Hfree & Hn & Hu & Hty & Hrel & _).
    rewrite Hdb0 in Hfree, Hn. simpl in *. right. exists nid, n. tauto. }
  split; [exact Hcases |].
  destruct Hcases as [-> | (nid & n0 & Hfree & -> & Hu & Hty & _)].
  - split; [intros k n H1 H2; congruence | tauto].
  - split.
    + intros k n Hk Hold. destruct (decide (nid = k)) as [->|Hne].
      * rewrite lookup_insert_eq in Hk. injection Hk as <-. tauto.
      * rewrite lookup_insert_ne in Hk by exact Hne. congruence.
    + intros k n Hk Hstatus. destruct (decide (nid = k)) as [->|Hne].
      * rewrite lookup_insert_eq in Hk. injection Hk as <-.
        rewrite Hty in Hstatus. discriminate Hstatus.
      * by rewrite lookup_insert_ne in Hk.
Qed.

(** The creator assigns a task: the one notification that appears is the
    assignment notification of the new assignee. *)
Lemma assign_task_notifies_assignee_only_witness :
  n_user_id (mkNotificationRow "u-3" "Вам назначена новая задача: Server от пользователя user1"
               "task_assignment" (Some "t-1") 0 false) = "u-3"
  ∧ n_type (mkNotificationRow "u-3" "Вам назначена новая задача: Server от пользователя user1"
              "task_assignment" (Some "t-1") 0 false) = "task_assignment".
Proof.
  pose proof (assign_task_notifies_assignee_only Sample.env
                (Sample.as_user "u-1" "user1" false) "t-1" "u-3" Sample.world0) as (_ & H & _).
  apply (H "uuid-0").
  - vm_compute. reflexivity.
  - reflexivity.
Defined.

(** ** Two assignments of one task *)

Arguments assign_task : simpl never.

(** Under a working connection the outcome of the checks is decided by the
    manager, the users, the departments and their employees, and by the
    creator and the department of the task. *)
Lemma assign_task_checks_agree (env : Env) (self : TaskManager) (task_id user_id : string)
    (w w2 : World) :
  no_db_failure env →
  users (db w2) = users (db w) →
  departments (db w2) = departments (db w) →
  department_employees (db w2) = department_employees (db w) →
  (λ t, (t_created_by t, t_department_id t)) <$> tasks (db w2) !! task_id
  = (λ t, (t_created_by t, t_department_id t)) <$> tasks (db w) !! task_id →
  (assign_task_checks env self task_id user_id w2).1
  = (assign_task_checks env self task_id user_id w).1.
Proof.
  intros Hnf Hu Hd He Ht.
  unfold assign_task_checks, assign_permission, select_task, select_user,
    select_department_head, select_employee.
  destruct (current_user self) as [cu|]; [| reflexivity].
  unfold_monad. unfold fetch_one. rewrite !Hnf.
  destruct (tasks (db w2) !! task_id) as [t2|], (tasks (db w) !! task_id) as [t|];
    try discriminate Ht; [| reflexivity].
  simpl in Ht. injection Ht as Hc Hdep. rewrite Hc, Hdep.
  destruct (User.is_admin cu); simpl.
  { rewrite !Hnf, Hu. destruct (users (db w) !! user_id); [| reflexivity].
    destruct (truthy (t_department_id t)); [| reflexivity].
    simpl. rewrite !Hnf, He. by destruct (decide _). }
  destruct (String.eqb (User.id cu) (t_created_by t)); simpl.
  { rewrite !Hnf, Hu. destruct (users (db w) !! user_id); [| reflexivity].
    destruct (truthy (t_department_id t)); [| reflexivity].
    simpl. rewrite !Hnf, He. by destruct (decide _). }
  destruct (truthy (t_department_id t)); [| reflexivity].
  simpl. rewrite !Hnf, Hd.
  destruct (departments (db w) !! default "" (t_department_id t)) as [dep|]; [| reflexivity].
  simpl. destruct (String.eqb (d_head_id dep) (User.id cu)); [| reflexivity].
  simpl. rewrite !Hnf, Hu. destruct (users (db w) !! user_id); [| reflexivity].
  simpl. rewrite !Hnf, He. by destruct (decide _).
Qed.

(** With a working connection, preferences that are not NULL, an existing
    task, creator and target user, and a free identifier, the [try] block
    succeeds: the task is assigned and one notification is added. *)
Lemma assign_task_commit_returns (env : Env) (task_id user_id : string) (t : TaskRow)
    (w : World) :
  no_db_failure env →
  map_Forall (λ _ u, is_Some (u_notification_preferences u)) (users (db w)) →
  tasks (db w) !! task_id = Some t →
  is_Some (users (db w) !! t_created_by t) →
  is_Some (users (db w) !! user_id) →
  notifications (db w) !! uuid4_at env (uuid_calls w) = None →
  ∃ w' n,
    assign_task_commit env task_id user_id w = (Ok (VBool true), w')
    ∧ db w' = mkDb (users (db w)) (departments (db w)) (department_employees (db w))
                (<[task_id := set_assignment user_id t]> (tasks (db w)))
                (<[uuid4_at env (uuid_calls w) := n]> (notifications (db w)))
    ∧ n_user_id n = user_id
    ∧ uuid_calls w' = S (uuid_calls w).
Proof.
  intros Hnf Hprefs Ht Hcreator Hu Hfree.
  unfold assign_task_commit. unfold_monad. unfold execute, update_task_assignment.
  rewrite Hnf, Ht. unfold references. rewrite bool_decide_eq_true_2 by exact Hu.
  set (w1 := count_db_call w _).
  destruct (notify_task_assignment_returns env task_id user_id w1)
    as (w2 & Hrun & Hadded & Hid).
  - exact Hnf.
  - exact Hprefs.
  - unfold select_task_title_creator. subst w1. simpl. rewrite lookup_insert_eq. simpl.
    destruct Hcreator as [u ->]. simpl. eauto.
  - exact Hfree.
  - exact Hu.
  - rewrite Hrun. destruct Hadded as (title & creator & _ & _ & Hdb).
    eexists w2, _. split; [reflexivity |]. split; [exact Hdb |]. split; [reflexivity |].
    exact Hid.
Qed.

Lemma assign_task_checks_pass (env : Env) (self : TaskManager) (task_id user_id : string)
    (w : World) :
  (assign_task_checks env self task_id user_id w).1 = Ok None →
  ∃ w1, assign_task_checks env self task_id user_id w = (Ok None, w1)
        ∧ db w1 = db w ∧ uuid_calls w1 = uuid_calls w
        ∧ is_Some (users (db w) !! user_id).
Proof.
  intros Hpass. apply run_result in Hpass.
  pose proof Hpass as Hframe.
  apply assign_task_checks_frame in Hframe as (Hdb & Hid & _ & _ & Hex).
  eexists. split; [exact Hpass |]. repeat split; try assumption. by apply Hex.
Qed.

Lemma set_assignment_twice (user_a user_b : string) (t : TaskRow) :
  set_assignment user_b (set_assignment user_a t) = set_assignment user_b t.
Proof. reflexivity. Qed.

(** C5, as the code has it. Two managers are both allowed to assign the same
    task, to the users [user_a] and [user_b]; the connection works and the
    identifiers drawn are fresh. Whether both read and decide before either
    writes, or the first call ends before the second begins, both calls
    return [True]: none of them fails, there is no conflict error. The task
    ends up assigned to [user_b], whose UPDATE ran last, and in progress; the
    assignment to [user_a] is overwritten. *)
Theorem assign_task_twice_last_writer_wins
    (env : Env) (a b : TaskManager) (task_id user_a user_b : string) (t : TaskRow)
    (w : World) (run : M (pyval * pyval)) :
  no_db_failure env →
  db_consistent (db w) →
  tasks (db w) !! task_id = Some t →
  (assign_task_checks env a task_id user_a w).1 = Ok None →
  (assign_task_checks env b task_id user_b w).1 = Ok None →
  notifications (db w) !! uuid4_at env (uuid_calls w) = None →
  notifications (db w) !! uuid4_at env (S (uuid_calls w)) = None →
  uuid4_at env (uuid_calls w) ≠ uuid4_at env (S (uuid_calls w)) →
  run = assign_task_interleaved env a b task_id user_a user_b
  ∨ run = assign_task_in_turn env a b task_id user_a user_b →
  (run w).1 = Ok (VBool true, VBool true)
  ∧ tasks (db (run w).2) = <[task_id := set_assignment user_b t]> (tasks (db w))
  ∧ t_assigned_to (set_assignment user_b t) = Some user_b
  ∧ t_status (set_assignment user_b t) = "в работе".
Proof.
  intros Hnf Hcons Ht Ha Hb Hfree0 Hfree1 Hdistinct Hrun.
  pose proof (preferences_consistent _ Hcons) as Hprefs.
  pose proof (consistent_task_creator _ _ _ Hcons Ht) as Hcreator.
  destruct (assign_task_checks_pass _ _ _ _ _ Ha) as (wa & Hrun_a & Hdb_a & Hid_a & Hu_a).
  destruct (assign_task_checks_pass _ _ _ _ _ Hb) as (_ & _ & _ & _ & Hu_b).
  (* the [try] block of the first call, from a world with the database of [w] *)
  assert (∀ w0, db w0 = db w → uuid_calls w0 = uuid_calls w →
            ∃ w3 n, assign_task_commit env task_id user_a w0 = (Ok (VBool true), w3)
              ∧ uuid_calls w3 = S (uuid_calls w)
              ∧ db w3 = mkDb (users (db w)) (departments (db w)) (department_employees (db w))
                          (<[task_id := set_assignment user_a t]> (tasks (db w)))
                          (<[uuid4_at env (uuid_calls w) := n]> (notifications (db w))))
    as Hfirst.
  { intros w0 Hdb0 Hid0.
    destruct (assign_task_commit_returns env task_id user_a t w0)
      as (w3 & n & Hc & Hdb3 & _ & Hid3); rewrite ?Hdb0, ?Hid0; try assumption.
    exists w3, n. rewrite Hdb0, Hid0 in Hdb3. rewrite Hid0 in Hid3. auto. }
  (* the [try] block of the second call, after the first one has written *)
  assert (∀ w3 w0 n, 
            db w3 = mkDb (users (db w)) (departments (db w)) (department_employees (db w))
                      (<[task_id := set_assignment user_a t]> (tasks (db w)))
                      (<[uuid4_at env (uuid_calls w) := n]> (notifications (db w))) →
            db w0 = db w3 → uuid_calls w0 = S (uuid_calls w) →
            ∃ w4, assign_task_commit env task_id user_b w0 = (Ok (VBool true), w4)
              ∧ tasks (db w4) = <[task_id := set_assignment user_b t]> (tasks (db w)))
    as Hsecond.
  { intros w3 w0 n Hdb3 Hdb0 Hid0.
    destruct (assign_task_commit_returns env task_id user_b (set_assignment user_a t) w0)
      as (w4 & n4 & Hc & Hdb4 & _ & _); rewrite ?Hdb0, ?Hdb3, ?Hid0; simpl; try assumption.
    - apply lookup_insert_eq.
    - by rewrite lookup_insert_ne.
    - exists w4. split; [exact Hc |]. rewrite Hdb4, Hdb0, Hdb3. simpl.
      rewrite insert_insert_eq. reflexivity. }
  assert (∃ w4, run w = (Ok (VBool true, VBool true), w4)
            ∧ tasks (db w4) = <[task_id := set_assignment user_b t]> (tasks (db w)))
    as (w4 & Hout & Htasks).
  { destruct Hrun as [-> | ->].
    - (* both decide first *)
      unfold assign_task_interleaved. unfold_monad. rewrite Hrun_a.
      assert ((assign_task_checks env b task_id user_b wa).1 = Ok None) as Hb'.
      { rewrite <- Hb. apply assign_task_checks_agree; try exact Hnf; by rewrite Hdb_a. }
      destruct (assign_task_checks_pass _ _ _ _ _ Hb') as (wb & -> & Hdb_b & Hid_b & _).
      destruct (Hfirst wb) as (w3 & n & -> & Hid3 & Hdb3); [congruence | congruence |].
      destruct (Hsecond w3 w3 n Hdb3 eq_refl Hid3) as (w4 & -> & Htasks).
      exists w4. split; [reflexivity | exact Htasks].
    - (* one call after the other *)
      unfold assign_task_in_turn. unfold_monad. rewrite assign_task_steps. unfold_monad.
      rewrite Hrun_a.
      destruct (Hfirst wa Hdb_a Hid_a) as (w3 & n & -> & Hid3 & Hdb3).
      rewrite assign_task_steps. unfold_monad.
      assert ((assign_task_checks env b task_id user_b w3).1 = Ok None) as Hb'.
      { rewrite <- Hb. apply assign_task_checks_agree; try exact Hnf;
          rewrite Hdb3; simpl; try reflexivity.
        rewrite lookup_insert_eq, Ht. reflexivity. }
      destruct (assign_task_checks_pass _ _ _ _ _ Hb') as (wb & -> & Hdb_b & Hid_b & _).
      destruct (Hsecond w3 wb n Hdb3 Hdb_b) as (w4 & -> & Htasks); [congruence |].
      exists w4. split; [reflexivity | exact Htasks]. }
  rewrite Hout. simpl. repeat split. exact Htasks.
Qed.

(** The administrator and the creator of a task both assign it, to different
    users, and both decide before either writes. *)
Lemma assign_task_twice_last_writer_wins_witness :
  (assign_task_interleaved Sample.env (Sample.as_user "u-admin" "admin1" true)
     (Sample.as_user "u-1" "user1" false) "t-1" "u-3" "u-2" Sample.world0).1
  = Ok (VBool true, VBool true)
  ∧ tasks (db (assign_task_interleaved Sample.env (Sample.as_user "u-admin" "admin1" true)
                 (Sample.as_user "u-1" "user1" false) "t-1" "u-3" "u-2" Sample.world0).2)
    = <["t-1" := set_assignment "u-2"
                   (mkTaskRow "Server" "Set up" "u-1" (Some "u-2") None 10 None
                      "новая" "высокий")]> (tasks (db Sample.world0))
  ∧ t_assigned_to (set_assignment "u-2"
                     (mkTaskRow "Server" "Set up" "u-1" (Some "u-2") None 10 None
                        "новая" "высокий")) = Some "u-2"
  ∧ t_status (set_assignment "u-2"
                (mkTaskRow "Server" "Set up" "u-1" (Some "u-2") None 10 None
                   "новая" "высокий")) = "в работе".
Proof.
  apply (assign_task_twice_last_writer_wins Sample.env
           (Sample.as_user "u-admin" "admin1" true) (Sample.as_user "u-1" "user1" false)
           "t-1" "u-3" "u-2").
  - intros n. reflexivity.
  - exact sample_db_consistent.
  - reflexivity.
  - vm_compute. reflexivity.
  - vm_compute. reflexivity.
  - reflexivity.
  - reflexivity.
  - intros H. vm_compute in H. discriminate H.
  - left. reflexivity.
Defined.

(** C5 as stated fails: in that run both calls return [True], so it is not
    the case that one commits and the other fails; the task is left with the
    second assignee and the first assignment is lost without an error. *)
Lemma assign_task_race_counterexample :
  (assign_task_interleaved Sample.env (Sample.as_user "u-admin" "admin1" true)
     (Sample.as_user "u-1" "user1" false) "t-1" "u-3" "u-admin" Sample.world0).1
  = Ok (VBool true, VBool true)
  ∧ ¬ one_commits_other_fails (VBool true) (VBool true)
  ∧ t_assigned_to
      <$> tasks (db (assign_task_interleaved Sample.env
                       (Sample.as_user "u-admin" "admin1" true)
                       (Sample.as_user "u-1" "user1" false)
                       "t-1" "u-3" "u-admin" Sample.world0).2) !! "t-1"
    = Some (Some "u-admin").
Proof.
  split; [vm_compute; reflexivity |]. split; [| vm_compute; reflexivity].
  unfold one_commits_other_fails. intros [[_ H] | [H _]]; by apply H.
Qed.

(** ** Status change *)

Arguments notify_status_change_to : simpl never.
Arguments status_permission : simpl never.

Lemma same_master_data_refl (d : Db) : same_master_data d d.
Proof. by repeat split. Qed.

Lemma same_master_data_trans (d1 d2 d3 : Db) :
  same_master_data d1 d2 → same_master_data d2 d3 → same_master_data d1 d3.
Proof. unfold same_master_data. intros (?&?&?&?) (?&?&?&?). repeat split; congruence. Qed.

Lemma for_each_invariant {A : Type} (P : World → Prop) (body : A → M ()) (xs : list A) :
  (∀ x w r w', P w → body x w = (r, w') → P w') →
  ∀ w r w', P w → for_each xs body w = (r, w') → P w'.
Proof.
  intros Hbody. induction xs as [|x xs IH]; intros w r w' HP; simpl.
  - by intros [= <- <-].
  - unfold_monad. destruct (body x w) as [[[]|e] w1] eqn:Hx.
    + apply IH. by eapply Hbody.
    + intros [= <- <-]. by eapply Hbody.
Qed.

Lemma notify_status_change_to_frame (env : Env) (task_id task_title status_label new_status
    user_id : string) (w : World) (r : res ()) (w' : World) :
  notify_status_change_to env task_id task_title status_label new_status user_id w = (r, w') →
  same_master_data (db w) (db w').
Proof.
  unfold notify_status_change_to. unfold_monad.
  destruct (create_notification env user_id _ _ _ w) as [rc w1] eqn:Hc.
  apply create_notification_effect in Hc as [_ [[Hdb [e ->]] | (-> & _ & Hdb)]].
  { intros [= <- <-]. rewrite Hdb. apply same_master_data_refl. }
  destruct (send_email_notification env user_id _ _ w1) as [rs w2] eqn:Hs.
  apply send_email_notification_frame in Hs as (Hdb2 & _ & _).
  intros Hout. assert (db w' = db w2) as -> by (destruct rs; by injection Hout as <- <-).
  rewrite Hdb2, Hdb. by repeat split.
Qed.

(** Whatever happens, [notify_task_status_change] writes to [notifications]
    only. *)
Lemma notify_task_status_change_frame (env : Env) (task_id new_status : string)
    (w : World) (r : res ()) (w' : World) :
  notify_task_status_change env task_id new_status w = (r, w') →
  same_master_data (db w) (db w').
Proof.
  unfold notify_task_status_change. unfold_monad.
  destruct (fetch_one env (select_task task_id) w) as [[[t|]|e] w1] eqn:Hf;
    apply fetch_one_frame in Hf as (Hdb & _ & _ & _);
    try (intros [= <- <-]; rewrite Hdb; apply same_master_data_refl).
  rewrite <- Hdb.
  apply (for_each_invariant (λ w2, same_master_data (db w1) (db w2))).
  - intros x w2 r2 w3 H2 Hx. apply notify_status_change_to_frame in Hx.
    by eapply same_master_data_trans.
  - apply same_master_data_refl.
Qed.

(** On a database whose department identifiers are not empty, and with a
    working connection, the [if] / [elif] chain of [update_task_status]
    decides the rule of the specification, and only reads. *)
Lemma status_permission_decides (env : Env) (cu : User.t) (t : TaskRow) (w : World) :
  no_db_failure env →
  departments (db w) !! "" = None →
  ∃ b w',
    status_permission env cu (t_created_by t) (t_assigned_to t) (t_department_id t) w
    = (Ok b, w')
    ∧ db w' = db w ∧ uuid_calls w' = uuid_calls w
    ∧ (b = true ↔ may_change_status (db w) cu t).
Proof.
  intros Hnf Hempty. unfold status_permission, may_change_status.
  destruct (User.is_admin cu) eqn:Hadmin.
  { eexists _, _. split; [reflexivity |]. repeat split; auto. }
  destruct (String.eqb (User.id cu) (t_created_by t)) eqn:Hcreator.
  { apply String.eqb_eq in Hcreator. eexists _, _. split; [reflexivity |].
    repeat split; auto. }
  apply String.eqb_neq in Hcreator.
  destruct (bool_decide (Some (User.id cu) = t_assigned_to t)) eqn:Hassignee.
  { apply bool_decide_eq_true in Hassignee. eexists _, _. split; [reflexivity |].
    repeat split; auto. }
  apply bool_decide_eq_false in Hassignee.
  destruct (t_department_id t) as [dep|] eqn:Hdep; simpl.
  2:{ eexists _, _. split; [reflexivity |]. repeat split; [discriminate |].
      intros [H | [H | [H | (dep & row & H & _)]]]; congruence. }
  destruct (String.eqb dep "") eqn:Hdep_empty; simpl.
  { apply String.eqb_eq in Hdep_empty as ->.
    eexists _, _. split; [reflexivity |]. repeat split; [discriminate |].
    intros [H | [H | [H | (dep & row & H & Hrow & _)]]]; congruence. }
  unfold_monad. unfold fetch_one, select_department_head. rewrite Hnf.
  destruct (departments (db w) !! dep) as [row|] eqn:Hrow; simpl.
  - eexists _, _. split; [reflexivity |]. repeat split. 
    + intros Hhead. apply String.eqb_eq in Hhead. right. right. right. eauto.
    + intros [H | [H | [H | (dep' & row' & H & Hrow' & Hhead)]]]; try congruence.
      apply String.eqb_eq. congruence.
  - eexists _, _. split; [reflexivity |]. repeat split; [discriminate |].
    intros [H | [H | [H | (dep' & row' & H & Hrow' & _)]]]; congruence.
Qed.

(** The first fact is the rule as the code evaluates it: for the
    administrator, the creator and the assignee the decision is taken
    without asking the database for the head of the department. *)
Lemma status_permission_first_match (env : Env) (cu : User.t) (t : TaskRow) (w : World) :
  User.is_admin cu = true ∨ User.id cu = t_created_by t
  ∨ t_assigned_to t = Some (User.id cu) →
  status_permission env cu (t_created_by t) (t_assigned_to t) (t_department_id t) w
  = (Ok true, w).
Proof.
  unfold status_permission. intros [H | [H | H]].
  - by rewrite H.
  - destruct (User.is_admin cu); [reflexivity |].
    by rewrite (proj2 (String.eqb_eq _ _) H).
  - destruct (User.is_admin cu); [reflexivity |].
    destruct (String.eqb _ _); [reflexivity |].
    by rewrite bool_decide_eq_true_2.
Qed.

(** The run of [update_task_status] up to the permission check. *)
Lemma update_task_status_decision
    (env : Env) (self : TaskManager) (cu : User.t) (task_id status : string) (t : TaskRow)
    (w : World) :
  no_db_failure env →
  departments (db w) !! "" = None →
  current_user self = Some cu →
  tasks (db w) !! task_id = Some t →
  status ∈ valid_statuses →
  ∃ b w1,
    db w1 = db w ∧ uuid_calls w1 = uuid_calls w
    ∧ (b = true ↔ may_change_status (db w) cu t)
    ∧ update_task_status env self task_id status w
      = if b
        then try_except
               (_ ← execute env (update_task_status_row status task_id);
                _ ← notify_task_status_change env task_id status;
                mret (VBool true))
               (λ e, mret (VStr ("Ошибка при обновлении статуса задачи: "
                                 +:+ exn_text env e))) w1
        else (Ok (VStr "Недостаточно прав для изменения статуса этой задачи"), w1).
Proof.
  intros Hnf Hempty Hcu Ht Hvalid.
  destruct (status_permission_decides env cu t (count_db_call w (db w)) Hnf Hempty)
    as (b & w1 & Hperm & Hdb1 & Hid1 & Hb).
  exists b, w1. repeat split; try tauto.
  unfold update_task_status. rewrite Hcu.
  rewrite bool_decide_eq_true_2 by exact Hvalid. simpl.
  unfold mbind at 1, M_bind at 1. unfold fetch_one at 1. rewrite Hnf.
  unfold select_task. rewrite Ht.
  unfold mbind at 1, M_bind at 1. rewrite Hperm. by destruct b.
Qed.

(** C1. A logged-in principal asks for a valid status on an existing task,
    on a consistent database and with a working connection. When the
    principal is admin, or the creator, or the assignee, or the head of the
    department of the task, the UPDATE is made: the task has the new status,
    and the call does not answer with the permission message. For any other
    principal the call answers with the permission message and the database
    is as before. The first three roles are recognised, in that order,
    without looking up the department. *)
Theorem update_task_status_permission
    (env : Env) (self : TaskManager) (cu : User.t) (task_id status : string) (t : TaskRow)
    (w : World) :
  no_db_failure env →
  db_consistent (db w) →
  current_user self = Some cu →
  tasks (db w) !! task_id = Some t →
  status ∈ valid_statuses →
  let out := update_task_status env self task_id status w in
  (may_change_status (db w) cu t →
     tasks (db out.2) = <[task_id := set_status status t]> (tasks (db w))
     ∧ out.1 ≠ Ok (VStr "Недостаточно прав для изменения статуса этой задачи")
     ∧ ∃ v, out.1 = Ok v)
  ∧ (¬ may_change_status (db w) cu t →
     out.1 = Ok (VStr "Недостаточно прав для изменения статуса этой задачи")
     ∧ db out.2 = db w)
  ∧ (User.is_admin cu = true ∨ User.id cu = t_created_by t
     ∨ t_assigned_to t = Some (User.id cu) →
     ∀ w0, status_permission env cu (t_created_by t) (t_assigned_to t)
             (t_department_id t) w0 = (Ok true, w0)).
Proof.
  intros Hnf Hcons Hcu Ht Hvalid out.
  destruct (update_task_status_decision env self cu task_id status t w Hnf
              (department_id_not_empty _ Hcons) Hcu Ht Hvalid)
    as (b & w1 & Hdb1 & _ & Hb & Hrun).
  split; [| split]; [| | intros H w0; by apply status_permission_first_match].
  - intros Hmay. subst out. rewrite Hrun, (proj2 Hb Hmay).
    unfold_monad. unfold execute, update_task_status_row. rewrite Hnf, Hdb1, Ht.
    destruct (notify_task_status_change env task_id status _) as [rn w2] eqn:Hn.
    apply notify_task_status_change_frame in Hn as (_ & _ & _ & Htasks).
    destruct rn as [[]|e]; simpl; (split; [exact Htasks |]); (split; [discriminate | eauto]).
  - intros Hdeny. subst out. rewrite Hrun.
    destruct b; [exfalso; apply Hdeny; by apply Hb |]. simpl. by split.
Qed.

(** The assignee of a task completes it; a user who has no part in the task
    is turned away. *)
Lemma update_task_status_permission_witness :
  tasks (db (update_task_status Sample.env (Sample.as_user "u-2" "user2" false)
               "t-1" "выполнена" Sample.world0).2) !! "t-1"
  = Some (mkTaskRow "Server" "Set up" "u-1" (Some "u-2") None 10 None "выполнена" "высокий")
  ∧ (update_task_status Sample.env (Sample.as_user "u-3" "user3" false)
       "t-1" "выполнена" Sample.world0).1
    = Ok (VStr "Недостаточно прав для изменения статуса этой задачи").
Proof.
  assert (no_db_failure Sample.env) as Hnf by (intros n; reflexivity).
  assert ("выполнена" ∈ valid_statuses) as Hvalid
      by (apply (bool_decide_unpack _); vm_compute; reflexivity).
  split.
  - destruct (update_task_status_permission Sample.env (Sample.as_user "u-2" "user2" false)
                (User.mk "u-2" "user2" (User.hash_password "pass123") "user2" false
                   (Some "user2@example.com") User.default_preferences)
                "t-1" "выполнена"
                (mkTaskRow "Server" "Set up" "u-1" (Some "u-2") None 10 None "новая" "высокий")
                Sample.world0 Hnf sample_db_consistent eq_refl eq_refl Hvalid)
      as (Hallowed & _ & _).
    destruct Hallowed as (Htasks & _ & _).
    + right. right. left. reflexivity.
    + rewrite Htasks. reflexivity.
  - destruct (update_task_status_permission Sample.env (Sample.as_user "u-3" "user3" false)
                (User.mk "u-3" "user3" (User.hash_password "pass123") "user3" false
                   (Some "user3@example.com") User.default_preferences)
                "t-1" "выполнена"
                (mkTaskRow "Server" "Set up" "u-1" (Some "u-2") None 10 None "новая" "высокий")
                Sample.world0 Hnf sample_db_consistent eq_refl eq_refl Hvalid)
      as (_ & Hdenied & _).
    apply Hdenied.
    intros [H | [H | [H | (dep & row & H & _)]]]; discriminate.
Defined.

(** ** Recipients of a status change *)

Lemma existing_user_truthy (d : Db) (u : string) :
  users d !! "" = None → is_Some (users d !! u) → truthy (Some u) = true.
Proof.
  intros Hempty [row Hu]. simpl. destruct (String.eqb u "") eqn:E; [| reflexivity].
  apply String.eqb_eq in E. congruence.
Qed.

(** On existing users the set that the code builds is the set of the creator
    and the assignee. *)
Lemma status_change_recipients_spec (d : Db) (t : TaskRow) :
  users d !! "" = None →
  is_Some (users d !! t_created_by t) →
  (∀ a, t_assigned_to t = Some a → is_Some (users d !! a)) →
  status_change_recipients (t_created_by t) (t_assigned_to t) = creator_and_assignee t.
Proof.
  intros Hempty Hc Ha. unfold status_change_recipients, creator_and_assignee.
  rewrite (existing_user_truthy d _ Hempty Hc).
  destruct (t_assigned_to t) as [a|]; [| reflexivity].
  rewrite (existing_user_truthy d _ Hempty (Ha a eq_refl)). simpl.
  destruct (bool_decide (a = t_created_by t)) eqn:E; simpl; [| reflexivity].
  apply bool_decide_eq_true in E as ->. by rewrite union_idemp_L, (right_id_L ∅ (∪)).
Qed.

Lemma notify_status_change_to_returns (env : Env) (task_id task_title status_label new_status
    user_id : string) (w : World) :
  no_db_failure env →
  map_Forall (λ _ u, is_Some (u_notification_preferences u)) (users (db w)) →
  is_Some (users (db w) !! user_id) →
  notifications (db w) !! uuid4_at env (uuid_calls w) = None →
  ∃ w' n,
    notify_status_change_to env task_id task_title status_label new_status user_id w
    = (Ok (), w')
    ∧ same_master_data (db w) (db w')
    ∧ notifications (db w') = <[uuid4_at env (uuid_calls w) := n]> (notifications (db w))
    ∧ status_notification task_id user_id n
    ∧ uuid_calls w' = S (uuid_calls w).
Proof.
  intros Hnf Hprefs Hu Hfree. unfold notify_status_change_to. unfold_monad.
  destruct (create_notification_inserts env user_id (status_message task_title status_label)
              "task_status_change" (Some task_id) w) as (w1 & -> & Hdb1 & Hid1 & _);
    [apply Hnf | exact Hfree | exact Hu |].
  destruct (send_email_notification_returns env user_id
              ("Изменение статуса задачи: " +:+ task_title)
              (status_email task_title new_status) w1) as (b & w2 & Hsend & _).
  { apply Hnf. }
  { intros u Hrow. rewrite Hdb1 in Hrow. simpl in Hrow. exact (Hprefs _ _ Hrow). }
  pose proof Hsend as Hframe.
  apply send_email_notification_frame in Hframe as (Hdb2 & Hid2 & _).
  rewrite Hsend. eexists w2, _. split; [reflexivity |].
  rewrite Hdb2, Hdb1, Hid2, Hid1. repeat split.
Qed.

(** The records that [notify_task_status_change] creates, on existing users
    with a working connection and fresh identifiers: one when the creator is
    alone, two, in either order, when there is another assignee. *)
Lemma notify_task_status_change_returns (env : Env) (task_id new_status : string)
    (t : TaskRow) (w : World) :
  no_db_failure env →
  map_Forall (λ _ u, is_Some (u_notification_preferences u)) (users (db w)) →
  users (db w) !! "" = None →
  tasks (db w) !! task_id = Some t →
  is_Some (users (db w) !! t_created_by t) →
  (∀ a, t_assigned_to t = Some a → is_Some (users (db w) !! a)) →
  notifications (db w) !! uuid4_at env (uuid_calls w) = None →
  notifications (db w) !! uuid4_at env (S (uuid_calls w)) = None →
  uuid4_at env (uuid_calls w) ≠ uuid4_at env (S (uuid_calls w)) →
  ∃ w', notify_task_status_change env task_id new_status w = (Ok (), w')
    ∧ same_master_data (db w) (db w')
    ∧ ((creator_and_assignee t = {[ t_created_by t ]}
        ∧ ∃ n, notifications (db w')
               = <[uuid4_at env (uuid_calls w) := n]> (notifications (db w))
               ∧ status_notification task_id (t_created_by t) n)
       ∨ (∃ a x y n1 n2,
            t_assigned_to t = Some a ∧ a ≠ t_created_by t
            ∧ ((x = t_created_by t ∧ y = a) ∨ (x = a ∧ y = t_created_by t))
            ∧ notifications (db w')
              = <[uuid4_at env (S (uuid_calls w)) := n2]>
                  (<[uuid4_at env (uuid_calls w) := n1]> (notifications (db w)))
            ∧ status_notification task_id x n1
            ∧ status_notification task_id y n2)).
Proof.
  intros Hnf Hprefs Hempty Ht Hc Ha Hfree0 Hfree1 Hdistinct.
  unfold notify_task_status_change. unfold_monad. unfold fetch_one, select_task.
  rewrite Hnf, Ht.
  rewrite (status_change_recipients_spec (db w) t Hempty Hc Ha).
  pose (w0 := count_db_call w (db w)).
  change (count_db_call w (db w)) with w0.
  assert (db w0 = db w) as Hdb0 by reflexivity.
  assert (uuid_calls w0 = uuid_calls w) as Hid0 by reflexivity.
  clearbody w0.
  set (body := notify_status_change_to env task_id (t_title t)
                 (default new_status (status_labels !! new_status)) new_status).
  (* two turns of the loop, for two existing users *)
  assert (∀ x y, is_Some (users (db w) !! x) → is_Some (users (db w) !! y) →
            ∃ w' n1 n2, for_each [x; y] body w0 = (Ok (), w')
              ∧ same_master_data (db w) (db w')
              ∧ notifications (db w')
                = <[uuid4_at env (S (uuid_calls w)) := n2]>
                    (<[uuid4_at env (uuid_calls w) := n1]> (notifications (db w)))
              ∧ status_notification task_id x n1 ∧ status_notification task_id y n2) as Htwo.
  { intros x y Hx Hy. simpl. unfold_monad.
    destruct (notify_status_change_to_returns env task_id (t_title t)
                (default new_status (status_labels !! new_status)) new_status x w0)
      as (w1 & n1 & Hrun1 & Hsame1 & Hn1 & Hgood1 & Hid1); rewrite ?Hdb0, ?Hid0;
      try assumption.
    fold body in Hrun1. rewrite Hrun1. rewrite Hdb0 in Hsame1, Hn1. rewrite Hid0 in Hn1, Hid1.
    destruct Hsame1 as (Husers1 & Hrest1).
    destruct (notify_status_change_to_returns env task_id (t_title t)
                (default new_status (status_labels !! new_status)) new_status y w1)
      as (w2 & n2 & Hrun2 & Hsame2 & Hn2 & Hgood2 & Hid2).
    - exact Hnf.
    - by rewrite Husers1.
    - by rewrite Husers1.
    - rewrite Hn1, Hid1. simpl. by rewrite lookup_insert_ne.
    - fold body in Hrun2. rewrite Hrun2. exists w2, n1, n2. split; [reflexivity |].
      split; [eapply same_master_data_trans; [| exact Hsame2]; by split |].
      rewrite Hn2, Hn1, Hid1. split; [reflexivity | split; assumption]. }
  destruct (t_assigned_to t) as [a|] eqn:Hassigned.
  - destruct (decide (a = t_created_by t)) as [-> | Hne].
    + (* the creator is the assignee *)
      assert (creator_and_assignee t = {[ t_created_by t ]}) as Hset.
      { unfold creator_and_assignee. rewrite Hassigned. simpl. apply union_idemp_L. }
      rewrite Hset, elements_singleton. simpl. unfold_monad.
      destruct (notify_status_change_to_returns env task_id (t_title t)
                  (default new_status (status_labels !! new_status)) new_status
                  (t_created_by t) w0)
        as (w1 & n1 & Hrun1 & Hsame1 & Hn1 & Hgood1 & _); rewrite ?Hdb0, ?Hid0;
        try assumption.
      fold body in Hrun1. rewrite Hrun1. rewrite Hdb0 in Hsame1, Hn1. rewrite Hid0 in Hn1.
      exists w1. split; [reflexivity |].
      split; [exact Hsame1 |]. left. split; [reflexivity |]. eauto.
    + (* two users *)
      assert (elements (creator_and_assignee t) = [t_created_by t; a]
              ∨ elements (creator_and_assignee t) = [a; t_created_by t]) as Horder.
      { apply Permutation_length_2_inv. symmetry.
        unfold creator_and_assignee. rewrite Hassigned. simpl.
        rewrite elements_union_singleton by (rewrite elem_of_singleton; congruence).
        by rewrite elements_singleton. }
      destruct Horder as [-> | ->].
      * destruct (Htwo (t_created_by t) a Hc (Ha a eq_refl))
          as (w' & n1 & n2 & -> & Hsame & Hn & Hg1 & Hg2).
        exists w'. split; [reflexivity |]. split; [exact Hsame |]. right.
        exists a, (t_created_by t), a, n1, n2. split; [reflexivity |]. split; [exact Hne |].
        split; [by left |]. split; [exact Hn |]. by split.
      * destruct (Htwo a (t_created_by t) (Ha a eq_refl) Hc)
          as (w' & n1 & n2 & -> & Hsame & Hn & Hg1 & Hg2).
        exists w'. split; [reflexivity |]. split; [exact Hsame |]. right.
        exists a, a, (t_created_by t), n1, n2. split; [reflexivity |]. split; [exact Hne |].
        split; [by right |]. split; [exact Hn |]. by split.
  - (* no assignee *)
    assert (creator_and_assignee t = {[ t_created_by t ]}) as Hset.
    { unfold creator_and_assignee. rewrite Hassigned. simpl. apply (right_id_L ∅ (∪)). }
    rewrite Hset, elements_singleton. simpl. unfold_monad.
    destruct (notify_status_change_to_returns env task_id (t_title t)
                (default new_status (status_labels !! new_status)) new_status
                (t_created_by t) w0)
      as (w1 & n1 & Hrun1 & Hsame1 & Hn1 & Hgood1 & _); rewrite ?Hdb0, ?Hid0;
      try assumption.
    fold body in Hrun1. rewrite Hrun1. rewrite Hdb0 in Hsame1, Hn1. rewrite Hid0 in Hn1.
    exists w1. split; [reflexivity |].
    split; [exact Hsame1 |]. left. split; [reflexivity |]. eauto.
Qed.

Lemma size_creator_and_assignee (t : TaskRow) :
  size (creator_and_assignee t)
  = match t_assigned_to t with
    | Some a => if decide (a = t_created_by t) then 1%nat else 2%nat
    | None => 1%nat
    end.
Proof.
  unfold creator_and_assignee. destruct (t_assigned_to t) as [a|]; cbn [from_option].
  - destruct (decide (a = t_created_by t)) as [-> | Hne].
    + rewrite (union_idemp_L (C := gset string)). apply size_singleton.
    + rewrite size_union, !size_singleton; [reflexivity |].
      apply disjoint_singleton_l. rewrite elem_of_singleton. congruence.
  - rewrite (right_id_L (A := gset string) ∅ (∪)). apply size_singleton.
Qed.

Lemma created_one (ns : gmap string NotificationRow) (k : string) (n : NotificationRow) :
  ns !! k = None → <[k := n]> ns ∖ ns = {[ k := n ]}.
Proof.
  intros Hk. rewrite <- insert_difference' by exact Hk.
  by rewrite map_difference_diag, insert_empty.
Qed.

Lemma created_two (ns : gmap string NotificationRow) (k1 k2 : string)
    (n1 n2 : NotificationRow) :
  ns !! k1 = None → ns !! k2 = None →
  <[k2 := n2]> (<[k1 := n1]> ns) ∖ ns = <[k2 := n2]> {[ k1 := n1 ]}.
Proof.
  intros Hk1 Hk2. rewrite <- insert_difference' by exact Hk2.
  by rewrite created_one.
Qed.

(** C4. A permitted status change on a consistent database, with a working
    connection and fresh identifiers, returns [True], keeps every earlier
    notification, and creates one unread [task_status_change] record per
    member of the set of the creator and the assignee, and nothing else:
    one record when the assignee is the creator (or there is no assignee),
    two when the assignee is another user. Who made the change plays no
    part: the principal is notified like anybody else when it is the creator
    or the assignee. *)
Theorem status_change_notifies_creator_and_assignee
    (env : Env) (self : TaskManager) (cu : User.t) (task_id status : string) (t : TaskRow)
    (w : World) :
  no_db_failure env →
  db_consistent (db w) →
  current_user self = Some cu →
  tasks (db w) !! task_id = Some t →
  status ∈ valid_statuses →
  may_change_status (db w) cu t →
  notifications (db w) !! uuid4_at env (uuid_calls w) = None →
  notifications (db w) !! uuid4_at env (S (uuid_calls w)) = None →
  uuid4_at env (uuid_calls w) ≠ uuid4_at env (S (uuid_calls w)) →
  let out := update_task_status env self task_id status w in
  let created := created_notifications (db w) (db out.2) in
  out.1 = Ok (VBool true)
  ∧ notifications (db w) ⊆ notifications (db out.2)
  ∧ size created = size (creator_and_assignee t)
  ∧ (t_assigned_to t = Some (t_created_by t) → size created = 1%nat)
  ∧ (∀ a, t_assigned_to t = Some a → a ≠ t_created_by t → size created = 2%nat)
  ∧ (∀ k n, created !! k = Some n →
            n_user_id n ∈ creator_and_assignee t
            ∧ n_type n = "task_status_change"
            ∧ n_related_id n = Some task_id
            ∧ n_is_read n = false)
  ∧ (∀ u, u ∈ creator_and_assignee t → ∃ k n, created !! k = Some n ∧ n_user_id n = u)
  ∧ (User.id cu = t_created_by t ∨ t_assigned_to t = Some (User.id cu) →
     ∃ k n, created !! k = Some n ∧ n_user_id n = User.id cu).
Proof.
  intros Hnf Hcons Hcu Ht Hvalid Hmay Hfree0 Hfree1 Hdistinct out created.
  destruct (update_task_status_decision env self cu task_id status t w Hnf
              (department_id_not_empty _ Hcons) Hcu Ht Hvalid)
    as (b & w1 & Hdb1 & Hid1 & Hb & Hrun).
  rewrite (proj2 Hb Hmay) in Hrun. revert Hrun.
  unfold_monad. unfold execute, update_task_status_row. rewrite Hnf, Hdb1, Ht.
  set (w2 := count_db_call w1 _).
  destruct (notify_task_status_change_returns env task_id status (set_status status t) w2)
    as (w3 & Hnotify & _ & Hcases); subst w2; simpl; rewrite ?Hid1; try assumption.
  { exact (preferences_consistent _ Hcons). }
  { exact (user_id_not_empty _ Hcons). }
  { apply lookup_insert_eq. }
  { exact (consistent_task_creator _ _ _ Hcons Ht). }
  { intros a Ha. exact (consistent_task_assignee _ _ _ _ Hcons Ht Ha). }
  rewrite Hnotify. intros Hrun.
  assert (size created = size (creator_and_assignee t)
          ∧ notifications (db w) ⊆ notifications (db out.2)
          ∧ (∀ k n, created !! k = Some n →
                    n_user_id n ∈ creator_and_assignee t
                    ∧ n_type n = "task_status_change"
                    ∧ n_related_id n = Some task_id
                    ∧ n_is_read n = false)
          ∧ (∀ u, u ∈ creator_and_assignee t →
                  ∃ k n, created !! k = Some n ∧ n_user_id n = u))
    as (Hsize & Hkept & Hrows & Hall).
  { subst created out. unfold created_notifications. rewrite Hrun. simpl in *.
    rewrite Hid1 in Hcases.
    change (creator_and_assignee (set_status status t)) with (creator_and_assignee t) in Hcases.
    destruct Hcases as [[Hset (n & -> & Hu & Hn)]
                       | (a & x & y & n1 & n2 & Ha & Hne & Hxy & -> & [Hu1 Hn1] & [Hu2 Hn2])].
    - rewrite created_one by exact Hfree0. rewrite Hset. repeat split.
      + by rewrite map_size_singleton, size_singleton.
      + by apply insert_subseteq.
      + apply lookup_singleton_Some in H as [_ <-]. rewrite Hu. by apply elem_of_singleton.
      + apply lookup_singleton_Some in H as [_ <-]. tauto.
      + apply lookup_singleton_Some in H as [_ <-]. tauto.
      + apply lookup_singleton_Some in H as [_ <-]. tauto.
      + intros u ->%elem_of_singleton. exists (uuid4_at env (uuid_calls w)), n.
        split; [apply lookup_singleton_eq | exact Hu].
    - rewrite created_two by assumption.
      assert (creator_and_assignee t = {[ t_created_by t ]} ∪ {[ a ]}) as Hset.
      { unfold creator_and_assignee. by rewrite Ha. }
      assert (∀ u, u ∈ creator_and_assignee t ↔ u = x ∨ u = y) as Hmem.
      { intros u. rewrite Hset, elem_of_union, !elem_of_singleton.
        destruct Hxy as [[-> ->] | [-> ->]]; tauto. }
      repeat split.
      + rewrite map_size_insert_None, map_size_singleton, size_creator_and_assignee.
        * rewrite Ha. by destruct (decide (a = t_created_by t)).
        * rewrite lookup_singleton_ne; [reflexivity | exact Hdistinct].
      + etrans; [apply insert_subseteq; exact Hfree0 |].
        apply insert_subseteq. by rewrite lookup_insert_ne.
      + apply Hmem. apply lookup_insert_Some in H as [[_ <-] | [_ H]]; [tauto |].
        apply lookup_singleton_Some in H as [_ <-]. tauto.
      + apply lookup_insert_Some in H as [[_ <-] | [_ H]]; [tauto |].
        apply lookup_singleton_Some in H as [_ <-]. tauto.
      + apply lookup_insert_Some in H as [[_ <-] | [_ H]]; [tauto |].
        apply lookup_singleton_Some in H as [_ <-]. tauto.
      + apply lookup_insert_Some in H as [[_ <-] | [_ H]]; [tauto |].
        apply lookup_singleton_Some in H as [_ <-]. tauto.
      + intros u [-> | ->]%Hmem.
        * exists (uuid4_at env (uuid_calls w)), n1. split; [| exact Hu1].
          rewrite lookup_insert_ne by congruence. apply lookup_singleton_eq.
        * exists (uuid4_at env (S (uuid_calls w))), n2. split; [| exact Hu2].
          apply lookup_insert_eq. }
  split; [subst out; by rewrite Hrun |]. split; [exact Hkept |]. split; [exact Hsize |].
  split; [| split; [| split; [exact Hrows | split; [exact Hall |]]]].
  - intros Ha. rewrite Hsize, size_creator_and_assignee, Ha. by rewrite decide_True.
  - intros a Ha Hne. rewrite Hsize, size_creator_and_assignee, Ha. by rewrite decide_False.
  - intros Hcu'. apply Hall. unfold creator_and_assignee. apply elem_of_union.
    destruct Hcu' as [-> | ->]; [left | right]; by apply elem_of_singleton.
Qed.

(** The assignee completes a task created by somebody else: two records, one
    of them for the assignee who made the change. *)
Lemma status_change_notifies_creator_and_assignee_witness :
  (update_task_status Sample.env (Sample.as_user "u-2" "user2" false)
     "t-1" "выполнена" Sample.world0).1 = Ok (VBool true)
  ∧ size (created_notifications (db Sample.world0)
            (db (update_task_status Sample.env (Sample.as_user "u-2" "user2" false)
                   "t-1" "выполнена" Sample.world0).2)) = 2%nat.
Proof.
  destruct (status_change_notifies_creator_and_assignee Sample.env
              (Sample.as_user "u-2" "user2" false)
              (User.mk "u-2" "user2" (User.hash_password "pass123") "user2" false
                 (Some "user2@example.com") User.default_preferences)
              "t-1" "выполнена"
              (mkTaskRow "Server" "Set up" "u-1" (Some "u-2") None 10 None "новая" "высокий")
              Sample.world0)
    as (Hresult & _ & _ & _ & Htwo & _).
  - intros n. reflexivity.
  - exact sample_db_consistent.
  - reflexivity.
  - reflexivity.
  - apply (bool_decide_unpack _). vm_compute. reflexivity.
  - right. right. left. reflexivity.
  - reflexivity.
  - reflexivity.
  - intros H. vm_compute in H. discriminate H.
  - split; [exact Hresult |]. apply (Htwo "u-2"); [reflexivity | discriminate].
Defined.

(** When the creator is the assignee there is one record. *)
Example status_change_single_recipient :
  size (created_notifications (db Sample.world0)
          (db (update_task_status Sample.env (Sample.as_user "u-2" "user2" false)
                 "t-2" "отменена" Sample.world0).2)) = 1%nat.
Proof. vm_compute. reflexivity. Qed.

(** ** Registration and login *)

Lemma select_user_by_username_Some (name : string) (d : Db) (k : string) (r : UserRow) :
  select_user_by_username name d = Some (k, r) →
  users d !! k = Some r ∧ u_username r = name.
Proof.
  unfold select_user_by_username. intros H.
  apply head_Some_elem_of, list_elem_of_filter in H as [Hname Hin].
  apply elem_of_map_to_list in Hin. auto.
Qed.

Lemma select_user_by_username_None (name : string) (d : Db) :
  select_user_by_username name d = None ↔
  ∀ k r, users d !! k = Some r → u_username r ≠ name.
Proof.
  unfold select_user_by_username. rewrite head_None. split.
  - intros Hnil k r Hk Hname.
    eapply (filter_nil_not_elem_of _ _ (k, r)); [exact Hnil | exact Hname |].
    by apply elem_of_map_to_list.
  - intros Hall. destruct (filter _ _) as [|[k r] l] eqn:Hf; [reflexivity |].
    assert ((k, r) ∈ filter (λ kv : string * UserRow, u_username kv.2 = name)
                       (map_to_list (users d))) as Hin by (rewrite Hf; left).
    apply list_elem_of_filter in Hin as [Hname Hin].
    apply elem_of_map_to_list in Hin. by destruct (Hall k r Hin).
Qed.




(** ** Listing the tasks of a user *)

#[local] Instance created_later_total : Total created_later.
Proof. intros a b. unfold created_later. lia. Qed.

#[local] Instance created_later_transitive : Transitive created_later.
Proof. intros a b c. unfold created_later. lia. Qed.

Lemma user_task_filter_spec (user_id : string) (wanted : option string)
    (kv : string * TaskRow) :
  user_task_filter user_id wanted kv = true ↔ task_of_user user_id wanted kv.2.
Proof.
  unfold user_task_filter, task_of_user.
  rewrite andb_true_iff, orb_true_iff, !bool_decide_eq_true.
  destruct wanted as [s|].
  - rewrite bool_decide_eq_true. split.
    + intros [H Hs]. split; [exact H |]. by intros s' [= <-].
    + intros [H Hs]. split; [exact H |]. by apply Hs.
  - split; [intros [H _]; split; [exact H | discriminate] | intros [H _]; by split].
Qed.

(** The rows that the query sorts: each matching task once, the later
    first. *)
Lemma sorted_user_tasks (user_id : string) (wanted : option string) (d : Db) :
  let sorted := merge_sort created_later
                  (filter (λ kv, user_task_filter user_id wanted kv = true)
                     (map_to_list (tasks d))) in
  NoDup sorted
  ∧ (∀ k t, (k, t) ∈ sorted ↔ tasks d !! k = Some t ∧ task_of_user user_id wanted t)
  ∧ StronglySorted created_later sorted.
Proof.
  intros sorted. split; [| split].
  - subst sorted. rewrite merge_sort_Permutation.
    apply NoDup_filter, NoDup_map_to_list.
  - intros k t. subst sorted. rewrite merge_sort_Permutation.
    rewrite list_elem_of_filter, elem_of_map_to_list, user_task_filter_spec. simpl. tauto.
  - apply StronglySorted_merge_sort; apply _.
Qed.

(** C7, as the code has it. A logged-in principal lists tasks, with a working
    connection, a page from 1 on and a page size that is not negative. The
    tasks listed are those of the requested user, who is the principal when
    no user is given. Another user's tasks are refused to a principal who is
    not admin, before the database is asked. Otherwise the answer is a page
    of the list of exactly the tasks that the requested user created or is
    assigned to, in the wanted status if one is given, the later created
    first: [per_page] rows after the first [(page - 1) * per_page]. The
    database is not changed. *)
Theorem get_user_tasks_lists
    (env : Env) (self : TaskManager) (cu : User.t) (user_id status : option string)
    (page per_page : Z) (w : World) :
  current_user self = Some cu →
  no_db_failure env →
  (1 ≤ page)%Z →
  (0 ≤ per_page)%Z →
  let target := requested_user cu user_id in
  let wanted := requested_status status in
  let out := get_user_tasks env self user_id status page per_page w in
  (user_id = None → target = User.id cu)
  ∧ (target ≠ User.id cu ∧ User.is_admin cu = false →
     out = (Ok (inr "Недостаточно прав для просмотра задач другого пользователя"), w))
  ∧ (target = User.id cu ∨ User.is_admin cu = true →
     ∃ sorted,
       NoDup sorted
       ∧ (∀ k t, (k, t) ∈ sorted ↔ tasks (db w) !! k = Some t ∧ task_of_user target wanted t)
       ∧ StronglySorted created_later sorted
       ∧ out.1 = Ok (inl (task_view (db w)
                            <$> take (Z.to_nat per_page)
                                  (drop (Z.to_nat ((page - 1) * per_page)) sorted)))
       ∧ db out.2 = db w).
Proof.
  intros Hcu Hnf Hpage Hper target wanted out.
  split; [by intros -> |].
  subst out. unfold get_user_tasks. rewrite Hcu.
  fold (requested_user cu user_id). fold (requested_status status). fold target. fold wanted.
  assert (truthy user_id && negb (String.eqb (default "" user_id) (User.id cu))
          = negb (String.eqb target (User.id cu))) as ->.
  { subst target. unfold requested_user. destruct (truthy user_id); simpl; [reflexivity |].
    by rewrite String.eqb_refl. }
  split.
  - intros [Hother Hadmin]. rewrite Hadmin.
    by rewrite (proj2 (String.eqb_neq _ _) Hother).
  - intros Hallowed.
    assert (negb (String.eqb target (User.id cu)) && negb (User.is_admin cu) = false) as ->.
    { destruct Hallowed as [-> | ->]; [by rewrite String.eqb_refl |].
      apply andb_false_r. }
    exists (merge_sort created_later
              (filter (λ kv, user_task_filter target wanted kv = true)
                 (map_to_list (tasks (db w))))).
    destruct (sorted_user_tasks target wanted (db w)) as (Hnodup & Hmem & Hsorted).
    split; [exact Hnodup |]. split; [exact Hmem |]. split; [exact Hsorted |].
    unfold_monad. unfold fetch_all, select_user_tasks, limit_offset. rewrite Hnf.
    assert ((per_page <? 0)%Z || ((page - 1) * per_page <? 0)%Z = false) as ->.
    { apply orb_false_iff. split; apply Z.ltb_ge; nia. }
    split; reflexivity.
Qed.

(** A user lists their own tasks, all on the first page. *)
Lemma get_user_tasks_lists_witness :
  (get_user_tasks Sample.env (Sample.as_user "u-2" "user2" false) None None 1 20
     Sample.world0).1
  = Ok (inl [ mkTaskView "t-2" "Backup" "Do it" "выполнена" 20 None "обычный" None
                (Some "user2") (Some "user2");
              mkTaskView "t-1" "Server" "Set up" "новая" 10 None "высокий" None
                (Some "user1") (Some "user2") ]).
Proof.
  destruct (get_user_tasks_lists Sample.env (Sample.as_user "u-2" "user2" false)
              (User.mk "u-2" "user2" (User.hash_password "pass123") "user2" false
                 (Some "user2@example.com") User.default_preferences)
              None None 1 20 Sample.world0)
    as (_ & _ & Hlist).
  - reflexivity.
  - intros n. reflexivity.
  - lia.
  - lia.
  - destruct Hlist as (sorted & _ & _ & _ & _ & _); [by left |].
    vm_compute. reflexivity.
Defined.

(** C7 as stated fails: an administrator who asks for the tasks of another
    user gets that user's tasks. The administrator is neither the creator nor
    the assignee of the two tasks listed, and the task that the administrator
    did create is not listed. *)
Lemma get_user_tasks_counterexample :
  (get_user_tasks Sample.env (Sample.as_user "u-admin" "admin1" true) (Some "u-2") None 1 20
     Sample.world0).1
  = Ok (inl [ mkTaskView "t-2" "Backup" "Do it" "выполнена" 20 None "обычный" None
                (Some "user2") (Some "user2");
              mkTaskView "t-1" "Server" "Set up" "новая" 10 None "высокий" None
                (Some "user1") (Some "user2") ])
  ∧ ¬ task_of_user "u-admin" None
        (mkTaskRow "Backup" "Do it" "u-2" (Some "u-2") None 20 None "выполнена" "обычный")
  ∧ tasks Sample.db0 !! "t-2"
    = Some (mkTaskRow "Backup" "Do it" "u-2" (Some "u-2") None 20 None "выполнена" "обычный")
  ∧ tasks Sample.db0 !! "t-3"
    = Some (mkTaskRow "Audit" "Plan" "u-admin" None (Some "d-it") 30 None "новая" "низкий")
  ∧ task_of_user "u-admin" None
      (mkTaskRow "Audit" "Plan" "u-admin" None (Some "d-it") 30 None "новая" "низкий").
Proof.
  split; [vm_compute; reflexivity |]. split; [| split; [reflexivity | split; [reflexivity |]]].
  - intros [[H | H] _]; discriminate H.
  - split; [by left | discriminate].
Qed.

(** ** Priority *)

Section commutes.
Context (f : Db → Db).









End commutes.




Lemma status_permission_frame (env : Env) (cu : User.t) (created_by : string)
    (assigned_to department_id : option string) (w : World) (r : res bool) (w' : World) :
  status_permission env cu created_by assigned_to department_id w = (r, w') →
  db w' = db w.
Proof.
  unfold status_permission.
  destruct (User.is_admin cu); [by intros [= <- <-] |].
  destruct (String.eqb (User.id cu) created_by); [by intros [= <- <-] |].
  destruct (bool_decide _); [by intros [= <- <-] |].
  destruct (truthy department_id); [| by intros [= <- <-]].
  unfold_monad.
  destruct (fetch_one env _ w) as [[[h|]|e] w1] eqn:Hf;
    apply fetch_one_frame in Hf as (? & _); by intros [= <- <-].
Qed.







(** ** Consistency is kept *)

Section preserves.
Context (P : Db → Prop).

Lemma preserves_ret {A : Type} (a : A) : preserves P (mret a).
Proof. intros w r w' HP [= <- <-]. exact HP. Qed.

Lemma preserves_raise {A : Type} (e : exn) : preserves P (raise e : M A).
Proof. intros w r w' HP [= <- <-]. exact HP. Qed.

Lemma preserves_bind {A B : Type} (m : M A) (k : A → M B) :
  preserves P m → (∀ a, preserves P (k a)) → preserves P (m ≫= k).
Proof.
  intros Hm Hk w r w' HP. unfold mbind, M_bind.
  destruct (m w) as [[a|e] w1] eqn:Hrun.
  - apply (Hk a). by eapply Hm.
  - intros [= <- <-]. by eapply Hm.
Qed.

Lemma preserves_try_except {A : Type} (body : M A) (handler : exn → M A) :
  preserves P body → (∀ e, preserves P (handler e)) → preserves P (try_except body handler).
Proof.
  intros Hbody Hhandler w r w' HP. unfold try_except.
  destruct (body w) as [[a|e] w1] eqn:Hrun.
  - intros [= <- <-]. by eapply Hbody.
  - apply (Hhandler e). by eapply Hbody.
Qed.

Lemma preserves_uuid4 (env : Env) {B : Type} (k : string → M B) :
  (∀ n, preserves P (k (uuid4_at env n))) → preserves P (uuid4 env ≫= k).
Proof. intros Hk w r w' HP. unfold mbind, M_bind, uuid4. by apply Hk. Qed.

Lemma preserves_now (env : Env) : preserves P (now env).
Proof. intros w r w' HP [= <- <-]. exact HP. Qed.

Lemma preserves_smtp_send (env : Env) (mail : Email) : preserves P (smtp_send env mail).
Proof.
  intros w r w' HP. unfold smtp_send.
  destruct (smtp_at env _); intros [= <- <-]; exact HP.
Qed.

Lemma preserves_fetch_one {A : Type} (env : Env) (query : Db → option A) :
  preserves P (fetch_one env query).
Proof.
  intros w r w' HP. unfold fetch_one.
  destruct (db_fails_at env _); intros [= <- <-]; exact HP.
Qed.

Lemma preserves_fetch_all {A : Type} (env : Env) (query : Db → exn + list A) :
  preserves P (fetch_all env query).
Proof.
  intros w r w' HP. unfold fetch_all.
  destruct (db_fails_at env _); [intros [= <- <-]; exact HP |].
  destruct (query (db w)); intros [= <- <-]; exact HP.
Qed.

Lemma preserves_execute (env : Env) (stmt : Db → exn + Db) :
  (∀ d d', P d → stmt d = inr d' → P d') → preserves P (execute env stmt).
Proof.
  intros Hstmt w r w' HP. unfold execute.
  destruct (db_fails_at env _); [intros [= <- <-]; exact HP |].
  destruct (stmt (db w)) as [e|d'] eqn:Hs; intros [= <- <-]; [exact HP |].
  by eapply Hstmt.
Qed.

Lemma preserves_for_each {A : Type} (xs : list A) (body : A → M ()) :
  (∀ x, preserves P (body x)) → preserves P (for_each xs body).
Proof.
  intros Hbody. induction xs as [|x xs IH]; simpl; [apply preserves_ret |].
  apply preserves_bind; [apply Hbody | intros _; exact IH].
Qed.
End preserves.

(** The statements that write. *)

Lemma insert_notification_consistent (notification_id user_id message notification_type : string)
    (related_id : option string) (created_at : Z) (d d' : Db) :
  db_consistent d →
  insert_notification notification_id user_id message notification_type related_id
    created_at d = inr d' →
  db_consistent d'.
Proof.
  intros [Ht Hn Hp Hu Hd]. unfold insert_notification.
  destruct (notifications d !! notification_id); [discriminate |].
  destruct (references (Some user_id) (users d)) eqn:Hfk; [| discriminate].
  intros [= <-]. constructor; try assumption.
  cbn. apply map_Forall_insert_2; assumption.
Qed.

Lemma update_notification_read_consistent (notification_id : string) (d d' : Db) :
  db_consistent d →
  update_notification_read notification_id d = inr d' →
  db_consistent d'.
Proof.
  intros [Ht Hn Hp Hu Hd]. unfold update_notification_read. intros [= <-].
  constructor; try assumption.
  cbn. intros k n Hk. apply lookup_alter_Some in Hk as [(_ & n0 & Hk & ->) | [_ Hk]].
  - exact (Hn k n0 Hk).
  - exact (Hn k n Hk).
Qed.

Lemma insert_task_consistent (task_id : string) (t : TaskRow) (d d' : Db) :
  db_consistent d →
  insert_task task_id t d = inr d' →
  db_consistent d'.
Proof.
  intros [Ht Hn Hp Hu Hd]. unfold insert_task.
  destruct (tasks d !! task_id); [discriminate |].
  destruct (task_references d t) eqn:Hfk; [| discriminate].
  intros [= <-]. constructor; try assumption.
  cbn. apply map_Forall_insert_2; assumption.
Qed.

Lemma update_task_assignment_consistent (user_id task_id : string) (d d' : Db) :
  db_consistent d →
  update_task_assignment user_id task_id d = inr d' →
  db_consistent d'.
Proof.
  intros Hcons. pose proof Hcons as [Ht Hn Hp Hu Hd]. unfold update_task_assignment.
  destruct (tasks d !! task_id) as [t|] eqn:Hk; [| by intros [= <-]].
  destruct (references (Some user_id) (users d)) eqn:Hfk; [| discriminate].
  intros [= <-]. constructor; try assumption.
  cbn. apply map_Forall_insert_2; [| assumption].
  pose proof (Ht task_id t Hk) as Hrefs. unfold task_references in *.
  cbn [set_tasks users departments set_assignment t_created_by t_assigned_to
       t_department_id].
  apply andb_prop in Hrefs as [Hrefs Hdep]. apply andb_prop in Hrefs as [Hcreator _].
  by rewrite Hcreator, Hdep, Hfk.
Qed.

Lemma update_task_status_row_consistent (status task_id : string) (d d' : Db) :
  db_consistent d →
  update_task_status_row status task_id d = inr d' →
  db_consistent d'.
Proof.
  intros Hcons. pose proof Hcons as [Ht Hn Hp Hu Hd]. unfold update_task_status_row.
  destruct (tasks d !! task_id) as [t|] eqn:Hk; intros [= <-]; [| assumption].
  constructor; try assumption.
  cbn. apply map_Forall_insert_2; [| assumption]. exact (Ht task_id t Hk).
Qed.

Lemma references_insert {V : Type} (key : option string) (table : gmap string V)
    (k : string) (v : V) :
  references key table = true → references key (<[k := v]> table) = true.
Proof.
  destruct key as [key|]; [| done]. unfold references.
  rewrite !bool_decide_eq_true. intros [x Hx].
  destruct (decide (k = key)) as [-> |].
  - rewrite lookup_insert_eq. eauto.
  - rewrite lookup_insert_ne by done. eauto.
Qed.

Lemma insert_user_consistent (user_id username password_hash full_name : string)
    (is_admin : bool) (email : option string) (d d' : Db) :
  user_id ≠ "" →
  db_consistent d →
  insert_user user_id username password_hash full_name is_admin email d = inr d' →
  db_consistent d'.
Proof.
  intros Hid [Ht Hn Hp Hu Hd]. unfold insert_user.
  destruct (users d !! user_id); [discriminate |].
  destruct (select_user_by_username username d); [discriminate |].
  intros [= <-]. constructor; cbn [set_users users departments tasks notifications];
    try assumption.
  - intros k t Hk. pose proof (Ht k t Hk) as Hrefs. unfold task_references in *.
    cbn [set_users users departments].
    apply andb_prop in Hrefs as [Hrefs Hdep]. apply andb_prop in Hrefs as [Hc Ha].
    by rewrite (references_insert _ _ _ _ Hc), (references_insert _ _ _ _ Ha), Hdep.
  - intros k n Hk. apply (references_insert (Some (n_user_id n))). exact (Hn k n Hk).
  - apply map_Forall_insert_2; [eauto | assumption].
  - by rewrite lookup_insert_ne.
Qed.

(** The operations. *)

Lemma send_email_notification_consistent (env : Env) (user_id subject message : string) :
  preserves db_consistent (send_email_notification env user_id subject message).
Proof.
  intros w r w' Hcons Hrun. apply send_email_notification_frame in Hrun as (-> & _).
  exact Hcons.
Qed.

Lemma create_notification_consistent (env : Env) (user_id message notification_type : string)
    (related_id : option string) :
  preserves db_consistent
    (create_notification env user_id message notification_type related_id).
Proof.
  unfold create_notification. apply preserves_uuid4. intros n.
  apply preserves_bind; [apply preserves_now | intros created_at].
  apply preserves_bind; [| intros _; apply preserves_ret].
  apply preserves_execute. intros d d'. apply insert_notification_consistent.
Qed.

Lemma notify_task_assignment_consistent (env : Env) (task_id user_id : string) :
  preserves db_consistent (notify_task_assignment env task_id user_id).
Proof.
  unfold notify_task_assignment.
  apply preserves_bind; [apply preserves_fetch_one |].
  intros [[task_title creator_name]|]; [| apply preserves_ret].
  apply preserves_bind; [apply create_notification_consistent | intros _].
  apply preserves_bind; [apply send_email_notification_consistent | intros _].
  apply preserves_ret.
Qed.

Lemma notify_task_status_change_consistent (env : Env) (task_id new_status : string) :
  preserves db_consistent (notify_task_status_change env task_id new_status).
Proof.
  unfold notify_task_status_change.
  apply preserves_bind; [apply preserves_fetch_one |].
  intros [t|]; [| apply preserves_ret].
  apply preserves_for_each. intros user_id. unfold notify_status_change_to.
  apply preserves_bind; [apply create_notification_consistent | intros _].
  apply preserves_bind; [apply send_email_notification_consistent | intros _].
  apply preserves_ret.
Qed.

(** Every operation of the model leaves a consistent database consistent,
    whatever its outcome; [register_user] and [create_task] draw an
    identifier, which must not be the empty string. *)
Theorem operations_keep_consistency (env : Env) (self : TaskManager) :
  (∀ n, uuid4_at env n ≠ "") →
  (∀ username password full_name is_admin email,
     preserves db_consistent (register_user env username password full_name is_admin email))
  ∧ (∀ username password, preserves db_consistent (login env self username password))
  ∧ (∀ title description department_id assigned_to deadline priority,
       preserves db_consistent
         (create_task env self title description department_id assigned_to deadline priority))
  ∧ (∀ task_id user_id, preserves db_consistent (assign_task env self task_id user_id))
  ∧ (∀ task_id status, preserves db_consistent (update_task_status env self task_id status))
  ∧ (∀ user_id status page per_page,
       preserves db_consistent (get_user_tasks env self user_id status page per_page))
  ∧ (∀ notification_id,
       preserves db_consistent (mark_notification_as_read env notification_id)).
Proof.
  intros Huuid. split; [| split; [| split; [| split; [| split; [| split]]]]].
  - intros username password full_name is_admin email. unfold register_user.
    apply preserves_bind; [apply preserves_fetch_one |].
    intros [existing|]; [apply preserves_ret |].
    apply preserves_uuid4. intros n.
    apply preserves_try_except; [| intros e; apply preserves_ret].
    apply preserves_bind; [| intros _; apply preserves_ret].
    apply preserves_execute. intros d d' Hd. by apply insert_user_consistent.
  - intros username password. unfold login.
    apply preserves_bind; [apply preserves_fetch_one |].
    intros [[user_id r]|]; [| apply preserves_ret].
    destruct (User.verify_password _ _); apply preserves_ret.
  - intros title description department_id assigned_to deadline priority.
    unfold create_task. destruct (current_user self) as [cu|]; [| apply preserves_ret].
    apply preserves_bind.
    { destruct (truthy department_id); [| apply preserves_ret].
      apply preserves_bind; [apply preserves_fetch_one |].
      intros [[dep head_id]|]; [| apply preserves_ret].
      destruct (_ && _); apply preserves_ret. }
    intros [msg|]; [apply preserves_ret |].
    apply preserves_bind.
    { destruct (truthy assigned_to); [| apply preserves_ret].
      apply preserves_bind; [apply preserves_fetch_one |].
      intros [u|]; [| apply preserves_ret].
      destruct (truthy department_id); [| apply preserves_ret].
      apply preserves_bind; [apply preserves_fetch_one |].
      intros [one|]; apply preserves_ret. }
    intros [msg|]; [apply preserves_ret |].
    apply preserves_uuid4. intros n.
    apply preserves_try_except; [| intros e; apply preserves_ret].
    apply preserves_bind; [apply preserves_now | intros created_at].
    apply preserves_bind.
    { apply preserves_execute. intros d d'. apply insert_task_consistent. }
    intros _. apply preserves_bind; [| intros _; apply preserves_ret].
    destruct (truthy assigned_to);
      [apply notify_task_assignment_consistent | apply preserves_ret].
  - intros task_id user_id w r w' Hcons. rewrite assign_task_steps. revert w r w' Hcons.
    change (preserves db_consistent
              (checked ← assign_task_checks env self task_id user_id;
               match checked with
               | Some message => mret message
               | None => assign_task_commit env task_id user_id
               end)).
    apply preserves_bind.
    { intros w r w' Hcons Hrun. apply assign_task_checks_frame in Hrun as (-> & _).
      exact Hcons. }
    intros [msg|]; [apply preserves_ret |]. unfold assign_task_commit.
    apply preserves_try_except; [| intros e; apply preserves_ret].
    apply preserves_bind.
    { apply preserves_execute. intros d d'. apply update_task_assignment_consistent. }
    intros _. apply preserves_bind; [| intros _; apply preserves_ret].
    apply notify_task_assignment_consistent.
  - intros task_id status. unfold update_task_status.
    destruct (current_user self) as [cu|]; [| apply preserves_ret].
    destruct (negb _); [apply preserves_ret |].
    apply preserves_bind; [apply preserves_fetch_one |].
    intros [t|]; [| apply preserves_ret].
    apply preserves_bind.
    { intros w r w' Hcons Hrun. apply status_permission_frame in Hrun as ->. exact Hcons. }
    intros b. destruct (negb b); [apply preserves_ret |].
    apply preserves_try_except; [| intros e; apply preserves_ret].
    apply preserves_bind.
    { apply preserves_execute. intros d d'. apply update_task_status_row_consistent. }
    intros _. apply preserves_bind; [| intros _; apply preserves_ret].
    apply notify_task_status_change_consistent.
  - intros user_id status page per_page. unfold get_user_tasks.
    destruct (current_user self) as [cu|]; [| apply preserves_ret].
    destruct (_ && _); [apply preserves_ret |].
    apply preserves_try_except; [| intros e; apply preserves_ret].
    apply preserves_bind; [apply preserves_fetch_all | intros rows; apply preserves_ret].
  - intros notification_id. unfold mark_notification_as_read.
    apply preserves_try_except; [| intros e; apply preserves_ret].
    apply preserves_bind; [| intros _; apply preserves_ret].
    apply preserves_execute. intros d d'. apply update_notification_read_consistent.
Qed.

(** * The rest of [main.py] *)

Arguments create_department : simpl never.
Arguments add_employee_to_department : simpl never.
Arguments create_task : simpl never.
Arguments update_task_status : simpl never.
Arguments register_user : simpl never.
Arguments login : simpl never.
Arguments get_user_tasks : simpl never.
Arguments get_department_tasks : simpl never.
Arguments get_user_statistics : simpl never.
Arguments get_unread_notifications_count : simpl never.
Arguments get_user_notifications : simpl never.
Arguments mark_notification_as_read : simpl never.
Arguments mark_all_notifications_as_read : simpl never.
Arguments add_task_comment : simpl never.
Arguments get_task_comments : simpl never.
Arguments notify_new_comment : simpl never.

(** ** Relations that the writes respect *)

Section keeps.
Context (env : Env) (R : Db → Db → Prop) (HR : writes_respect env R).

Lemma keeps_ret {A : Type} (a : A) : keeps R (mret a).
Proof. intros w r w' [= <- <-]. apply (wr_refl env R HR). Qed.

Lemma keeps_raise {A : Type} (e : exn) : keeps R (raise e : M A).
Proof. intros w r w' [= <- <-]. apply (wr_refl env R HR). Qed.

Lemma keeps_bind {A B : Type} (m : M A) (k : A → M B) :
  keeps R m → (∀ a, keeps R (k a)) → keeps R (m ≫= k).
Proof.
  intros Hm Hk w r w'. unfold mbind, M_bind.
  destruct (m w) as [[a|e] w1] eqn:Hrun.
  - intros Hrest. eapply (wr_trans env R HR); [by eapply Hm | by eapply Hk].
  - intros [= <- <-]. by eapply Hm.
Qed.

Lemma keeps_try_except {A : Type} (body : M A) (handler : exn → M A) :
  keeps R body → (∀ e, keeps R (handler e)) → keeps R (try_except body handler).
Proof.
  intros Hbody Hhandler w r w'. unfold try_except.
  destruct (body w) as [[a|e] w1] eqn:Hrun.
  - intros [= <- <-]. by eapply Hbody.
  - intros Hrest. eapply (wr_trans env R HR); [by eapply Hbody | by eapply Hhandler].
Qed.

Lemma keeps_frame {A : Type} (m : M A) :
  (∀ w r w', m w = (r, w') → db w' = db w) → keeps R m.
Proof. intros Hm w r w' Hrun. rewrite (Hm _ _ _ Hrun). apply (wr_refl env R HR). Qed.

Lemma keeps_fetch_one {A : Type} (query : Db → option A) : keeps R (fetch_one env query).
Proof. apply keeps_frame. intros w r w' Hrun. by apply fetch_one_frame in Hrun as [? _]. Qed.

Lemma keeps_fetch_all {A : Type} (query : Db → exn + list A) :
  keeps R (fetch_all env query).
Proof.
  apply keeps_frame. intros w r w'. unfold fetch_all.
  destruct (db_fails_at env _); [by intros [= <- <-] |].
  destruct (query (db w)); by intros [= <- <-].
Qed.

Lemma keeps_uuid4 {B : Type} (k : string → M B) :
  (∀ n, keeps R (k (uuid4_at env n))) → keeps R (uuid4 env ≫= k).
Proof. intros Hk w r w'. unfold mbind, M_bind, uuid4. intros Hrun. exact (Hk _ _ _ _ Hrun). Qed.

Lemma keeps_now : keeps R (now env).
Proof. apply keeps_frame. by intros w r w' [= <- <-]. Qed.

Lemma keeps_execute (stmt : Db → exn + Db) :
  (∀ d d', stmt d = inr d' → R d d') → keeps R (execute env stmt).
Proof.
  intros Hstmt w r w'. unfold execute.
  destruct (db_fails_at env _); [intros [= <- <-]; apply (wr_refl env R HR) |].
  destruct (stmt (db w)) as [e|d'] eqn:Hs; intros [= <- <-];
    [apply (wr_refl env R HR) | by apply Hstmt].
Qed.

Lemma keeps_for_each {A : Type} (xs : list A) (body : A → M ()) :
  (∀ x, keeps R (body x)) → keeps R (for_each xs body).
Proof.
  intros Hbody. induction xs as [|x xs IH]; simpl; [apply keeps_ret |].
  apply keeps_bind; [apply Hbody | intros _; exact IH].
Qed.

Lemma keeps_send_email_notification (user_id subject message : string) :
  keeps R (send_email_notification env user_id subject message).
Proof.
  apply keeps_frame. intros w r w' Hrun.
  by apply send_email_notification_frame in Hrun as [? _].
Qed.

Lemma keeps_create_notification (user_id message notification_type : string)
    (related_id : option string) :
  keeps R (create_notification env user_id message notification_type related_id).
Proof.
  unfold create_notification. apply keeps_uuid4. intros n.
  apply keeps_bind; [apply keeps_now | intros created_at].
  apply keeps_bind; [| intros _; apply keeps_ret].
  apply keeps_execute. intros d d'. apply (wr_insert_notification env R HR).
Qed.

Lemma keeps_notify_task_assignment (task_id user_id : string) :
  keeps R (notify_task_assignment env task_id user_id).
Proof.
  unfold notify_task_assignment.
  apply keeps_bind; [apply keeps_fetch_one |].
  intros [[task_title creator_name]|]; [| apply keeps_ret].
  apply keeps_bind; [apply keeps_create_notification | intros _].
  apply keeps_bind; [apply keeps_send_email_notification | intros _].
  apply keeps_ret.
Qed.

Lemma keeps_notify_task_status_change (task_id new_status : string) :
  keeps R (notify_task_status_change env task_id new_status).
Proof.
  unfold notify_task_status_change.
  apply keeps_bind; [apply keeps_fetch_one |].
  intros [t|]; [| apply keeps_ret].
  apply keeps_for_each. intros user_id. unfold notify_status_change_to.
  apply keeps_bind; [apply keeps_create_notification | intros _].
  apply keeps_bind; [apply keeps_send_email_notification | intros _].
  apply keeps_ret.
Qed.

Lemma keeps_register_user (username password full_name : string) (is_admin : bool)
    (email : option string) :
  keeps R (register_user env username password full_name is_admin email).
Proof.
  unfold register_user.
  apply keeps_bind; [apply keeps_fetch_one |].
  intros [existing|]; [apply keeps_ret |].
  apply keeps_uuid4. intros n.
  apply keeps_try_except; [| intros e; apply keeps_ret].
  apply keeps_bind; [| intros _; apply keeps_ret].
  apply keeps_execute. intros d d'. apply (wr_insert_user env R HR).
Qed.

Lemma keeps_login (self : TaskManager) (username password : string) :
  keeps R (login env self username password).
Proof.
  unfold login. apply keeps_bind; [apply keeps_fetch_one |].
  intros [[user_id r]|]; [| apply keeps_ret].
  destruct (User.verify_password _ _); apply keeps_ret.
Qed.

(** [create_department] writes after it has read that the head is an admin,
    from the same database. *)
Lemma keeps_create_department (self : TaskManager) (name head_id : string) :
  keeps R (create_department env self name head_id).
Proof.
  unfold create_department. destruct (current_user self) as [cu|]; [| apply keeps_ret].
  destruct (negb (User.is_admin cu)); [apply keeps_ret |].
  intros w r w'. unfold mbind at 1, M_bind at 1, fetch_one at 1.
  destruct (db_fails_at env (db_calls w));
    [intros [= <- <-]; apply (wr_refl env R HR) |].
  destruct (select_user_is_admin head_id (db w)) as [[]|] eqn:Hadmin; cbn [negb];
    try (intros [= <- <-]; apply (wr_refl env R HR)).
  unfold mbind at 1, M_bind at 1, uuid4 at 1, try_except.
  unfold mbind, M_bind, execute, count_db_call. cbn [db db_calls uuid_calls].
  destruct (insert_department _ name head_id (db w)) as [e|d'] eqn:Hs;
    destruct (db_fails_at env (S (db_calls w))); intros [= <- <-];
    try apply (wr_refl env R HR).
  cbn [db]. by eapply (wr_insert_department env R HR).
Qed.

Lemma keeps_add_employee_to_department (self : TaskManager) (user_id department_id : string) :
  keeps R (add_employee_to_department env self user_id department_id).
Proof.
  unfold add_employee_to_department.
  destruct (current_user self) as [cu|]; [| apply keeps_ret].
  destruct (negb (User.is_admin cu)); [apply keeps_ret |].
  apply keeps_bind; [apply keeps_fetch_one | intros user].
  apply keeps_bind; [apply keeps_fetch_one | intros department].
  destruct user, department; try apply keeps_ret.
  apply keeps_try_except; [| intros e; apply keeps_ret].
  apply keeps_bind; [apply keeps_fetch_one |].
  intros [one|]; [apply keeps_ret |].
  apply keeps_bind; [| intros _; apply keeps_ret].
  apply keeps_execute. intros d d'. apply (wr_insert_department_employee env R HR).
Qed.

Lemma keeps_create_task (self : TaskManager) (title description : string)
    (department_id assigned_to : option string) (deadline : option Z) (priority : string) :
  keeps R (create_task env self title description department_id assigned_to deadline
             priority).
Proof.
  unfold create_task. destruct (current_user self) as [cu|]; [| apply keeps_ret].
  apply keeps_bind.
  { destruct (truthy department_id); [| apply keeps_ret].
    apply keeps_bind; [apply keeps_fetch_one |].
    intros [[dep head_id]|]; [| apply keeps_ret].
    destruct (_ && _); apply keeps_ret. }
  intros [msg|]; [apply keeps_ret |].
  apply keeps_bind.
  { destruct (truthy assigned_to); [| apply keeps_ret].
    apply keeps_bind; [apply keeps_fetch_one |].
    intros [u|]; [| apply keeps_ret].
    destruct (truthy department_id); [| apply keeps_ret].
    apply keeps_bind; [apply keeps_fetch_one |].
    intros [one|]; apply keeps_ret. }
  intros [msg|]; [apply keeps_ret |].
  apply keeps_uuid4. intros n.
  apply keeps_try_except; [| intros e; apply keeps_ret].
  apply keeps_bind; [apply keeps_now | intros created_at].
  apply keeps_bind.
  { apply keeps_execute. intros d d'. apply (wr_insert_task env R HR). }
  intros _. apply keeps_bind; [| intros _; apply keeps_ret].
  destruct (truthy assigned_to); [apply keeps_notify_task_assignment | apply keeps_ret].
Qed.

Lemma keeps_assign_task (self : TaskManager) (task_id user_id : string) :
  keeps R (assign_task env self task_id user_id).
Proof.
  intros w r w'. rewrite assign_task_steps. revert w r w'.
  change (keeps R (checked ← assign_task_checks env self task_id user_id;
                   match checked with
                   | Some message => mret message
                   | None => assign_task_commit env task_id user_id
                   end)).
  apply keeps_bind.
  { apply keeps_frame. intros w r w' Hrun.
    by apply assign_task_checks_frame in Hrun as [? _]. }
  intros [msg|]; [apply keeps_ret |]. unfold assign_task_commit.
  apply keeps_try_except; [| intros e; apply keeps_ret].
  apply keeps_bind.
  { apply keeps_execute. intros d d'. apply (wr_update_task_assignment env R HR). }
  intros _. apply keeps_bind; [| intros _; apply keeps_ret].
  apply keeps_notify_task_assignment.
Qed.

Lemma keeps_update_task_status (self : TaskManager) (task_id status : string) :
  keeps R (update_task_status env self task_id status).
Proof.
  unfold update_task_status.
  destruct (current_user self) as [cu|]; [| apply keeps_ret].
  destruct (bool_decide (status ∈ valid_statuses)) eqn:Hvalid; cbn [negb];
    [| apply keeps_ret].
  apply bool_decide_eq_true in Hvalid.
  apply keeps_bind; [apply keeps_fetch_one |].
  intros [t|]; [| apply keeps_ret].
  apply keeps_bind.
  { apply keeps_frame. intros w r w' Hrun. by apply status_permission_frame in Hrun. }
  intros b. destruct (negb b); [apply keeps_ret |].
  apply keeps_try_except; [| intros e; apply keeps_ret].
  apply keeps_bind.
  { apply keeps_execute. intros d d'. by apply (wr_update_task_status_row env R HR). }
  intros _. apply keeps_bind; [| intros _; apply keeps_ret].
  apply keeps_notify_task_status_change.
Qed.

Lemma keeps_get_user_tasks (self : TaskManager) (user_id status : option string)
    (page per_page : Z) :
  keeps R (get_user_tasks env self user_id status page per_page).
Proof.
  unfold get_user_tasks. destruct (current_user self) as [cu|]; [| apply keeps_ret].
  destruct (_ && _); [apply keeps_ret |].
  apply keeps_try_except; [| intros e; apply keeps_ret].
  apply keeps_bind; [apply keeps_fetch_all | intros rows; apply keeps_ret].
Qed.

Lemma keeps_department_view_permission (cu : User.t) (department_id head_id : string) :
  keeps R (department_view_permission env cu department_id head_id).
Proof.
  unfold department_view_permission.
  destruct (User.is_admin cu); [apply keeps_ret |].
  destruct (String.eqb _ _); [apply keeps_ret |].
  apply keeps_bind; [apply keeps_fetch_one |].
  intros [one|]; apply keeps_ret.
Qed.

Lemma keeps_get_department_tasks (self : TaskManager) (department_id : string)
    (status : option string) (page per_page : Z) :
  keeps R (get_department_tasks env self department_id status page per_page).
Proof.
  unfold get_department_tasks. destruct (current_user self) as [cu|]; [| apply keeps_ret].
  apply keeps_bind; [apply keeps_fetch_one |].
  intros [[dep head_id]|]; [| apply keeps_ret].
  apply keeps_bind; [apply keeps_department_view_permission | intros b].
  destruct (negb b); [apply keeps_ret |].
  apply keeps_try_except; [| intros e; apply keeps_ret].
  apply keeps_bind; [apply keeps_fetch_all | intros rows; apply keeps_ret].
Qed.

Lemma keeps_get_unread_notifications_count (self : TaskManager) :
  keeps R (get_unread_notifications_count env self).
Proof.
  unfold get_unread_notifications_count.
  destruct (current_user self) as [cu|]; [| apply keeps_ret].
  apply keeps_try_except; [| intros e; apply keeps_ret].
  apply keeps_bind; [apply keeps_fetch_one | intros count; apply keeps_ret].
Qed.

Lemma keeps_get_user_statistics (current_timestamp : Z) (self : TaskManager)
    (user_id : option string) :
  keeps R (get_user_statistics env current_timestamp self user_id).
Proof.
  unfold get_user_statistics. destruct (current_user self) as [cu|]; [| apply keeps_ret].
  destruct (_ && _); [apply keeps_ret |].
  apply keeps_try_except; [| intros e; apply keeps_ret].
  apply keeps_bind; [apply keeps_fetch_one | intros assigned_stats].
  apply keeps_bind; [apply keeps_fetch_one | intros created_stats].
  apply keeps_bind; [apply keeps_fetch_one | intros deadline_stats].
  apply keeps_ret.
Qed.

Lemma keeps_get_user_notifications (user_id : string) (limit : Z) (only_unread : bool) :
  keeps R (get_user_notifications env user_id limit only_unread).
Proof. apply keeps_fetch_all. Qed.

Lemma keeps_mark_notification_as_read (notification_id : string) :
  keeps R (mark_notification_as_read env notification_id).
Proof.
  unfold mark_notification_as_read.
  apply keeps_try_except; [| intros e; apply keeps_ret].
  apply keeps_bind; [| intros _; apply keeps_ret].
  apply keeps_execute. intros d d'. apply (wr_update_notification_read env R HR).
Qed.

Lemma keeps_mark_all_notifications_as_read (user_id : string) :
  keeps R (mark_all_notifications_as_read env user_id).
Proof.
  unfold mark_all_notifications_as_read.
  apply keeps_try_except; [| intros e; apply keeps_ret].
  apply keeps_bind; [| intros _; apply keeps_ret].
  apply keeps_execute. intros d d'. apply (wr_update_notifications_read env R HR).
Qed.

(** The same, for the operations on comments. *)

Lemma keeps_c_ret {A : Type} (a : A) : keeps_c R (mret a).
Proof. intros wc r wc' [= <- <-]. apply (wr_refl env R HR). Qed.

Lemma keeps_c_bind {A B : Type} (m : MC A) (k : A → MC B) :
  keeps_c R m → (∀ a, keeps_c R (k a)) → keeps_c R (m ≫= k).
Proof.
  intros Hm Hk wc r wc'. unfold mbind, MC_bind.
  destruct (m wc) as [[a|e] wc1] eqn:Hrun.
  - intros Hrest. eapply (wr_trans env R HR); [by eapply Hm | by eapply Hk].
  - intros [= <- <-]. by eapply Hm.
Qed.

Lemma keeps_c_try_except {A : Type} (body : MC A) (handler : exn → MC A) :
  keeps_c R body → (∀ e, keeps_c R (handler e)) → keeps_c R (try_except_c body handler).
Proof.
  intros Hbody Hhandler wc r wc'. unfold try_except_c.
  destruct (body wc) as [[a|e] wc1] eqn:Hrun.
  - intros [= <- <-]. by eapply Hbody.
  - intros Hrest. eapply (wr_trans env R HR); [by eapply Hbody | by eapply Hhandler].
Qed.

Lemma keeps_c_lift {A : Type} (m : M A) : keeps R m → keeps_c R (lift m).
Proof.
  intros Hm wc r wc'. unfold lift.
  destruct (m (world wc)) as [r1 w1] eqn:Hrun. intros [= <- <-]. by eapply Hm.
Qed.

Lemma keeps_c_lift_uuid4 {B : Type} (k : string → MC B) :
  (∀ n, keeps_c R (k (uuid4_at env n))) → keeps_c R (lift (uuid4 env) ≫= k).
Proof.
  intros Hk wc r wc'. unfold mbind, MC_bind, lift, uuid4. intros Hrun.
  exact (Hk _ _ _ _ Hrun).
Qed.

Lemma keeps_c_execute_c
    (stmt : Db → gmap string CommentRow → exn + gmap string CommentRow) :
  keeps_c R (execute_c env stmt).
Proof.
  intros wc r wc'. unfold execute_c.
  destruct (db_fails_at env _); [intros [= <- <-]; apply (wr_refl env R HR) |].
  destruct (stmt _ _); intros [= <- <-]; apply (wr_refl env R HR).
Qed.

Lemma keeps_c_fetch_one_c {A : Type} (query : Db → gmap string CommentRow → option A) :
  keeps_c R (fetch_one_c env query).
Proof. intros wc. unfold fetch_one_c. apply keeps_c_lift, keeps_fetch_one. Qed.

Lemma keeps_c_fetch_all_c {A : Type}
    (query : Db → gmap string CommentRow → exn + list A) :
  keeps_c R (fetch_all_c env query).
Proof. intros wc. unfold fetch_all_c. apply keeps_c_lift, keeps_fetch_all. Qed.

Lemma keeps_c_notify_new_comment (comment_id : string) :
  keeps_c R (notify_new_comment env comment_id).
Proof.
  unfold notify_new_comment.
  apply keeps_c_bind; [apply keeps_c_fetch_one_c |].
  intros [info|]; [| apply keeps_c_ret].
  apply keeps_c_lift, keeps_for_each. intros user_id. unfold notify_new_comment_to.
  apply keeps_bind; [apply keeps_create_notification | intros _].
  apply keeps_bind; [apply keeps_send_email_notification | intros _].
  apply keeps_ret.
Qed.

Lemma keeps_c_add_task_comment (self : TaskManager) (task_id comment_text : string) :
  keeps_c R (add_task_comment env self task_id comment_text).
Proof.
  unfold add_task_comment. destruct (current_user self) as [cu|]; [| apply keeps_c_ret].
  apply keeps_c_bind; [apply keeps_c_lift, keeps_fetch_one |].
  intros [t|]; [| apply keeps_c_ret].
  apply keeps_c_lift_uuid4. intros n.
  apply keeps_c_try_except; [| intros e; apply keeps_c_ret].
  apply keeps_c_bind; [apply keeps_c_lift, keeps_now | intros created_at].
  apply keeps_c_bind; [apply keeps_c_execute_c | intros _].
  apply keeps_c_bind; [apply keeps_c_notify_new_comment | intros _; apply keeps_c_ret].
Qed.

Lemma keeps_comments_permission (cu : User.t) (created_by : string)
    (assigned_to department_id : option string) :
  keeps R (comments_permission env cu created_by assigned_to department_id).
Proof.
  unfold comments_permission.
  destruct (User.is_admin cu); [apply keeps_ret |].
  destruct (_ || _); [apply keeps_ret |].
  destruct (truthy department_id); [| apply keeps_ret].
  apply keeps_bind; [apply keeps_fetch_one | intros head].
  destruct (match head with Some _ => _ | None => _ end); [apply keeps_ret |].
  apply keeps_bind; [apply keeps_fetch_one |].
  intros [one|]; apply keeps_ret.
Qed.

Lemma keeps_c_get_task_comments (self : TaskManager) (task_id : string) :
  keeps_c R (get_task_comments env self task_id).
Proof.
  unfold get_task_comments. destruct (current_user self) as [cu|]; [| apply keeps_c_ret].
  apply keeps_c_bind; [apply keeps_c_lift, keeps_fetch_one |].
  intros [t|]; [| apply keeps_c_ret].
  apply keeps_c_bind; [apply keeps_c_lift, keeps_comments_permission | intros b].
  destruct (negb b); [apply keeps_c_ret |].
  apply keeps_c_try_except; [| intros e; apply keeps_c_ret].
  apply keeps_c_bind; [apply keeps_c_fetch_all_c | intros rows; apply keeps_c_ret].
Qed.

(** Every call, and every sequence of calls, leaves a database related to the
    one it found. *)
Lemma world_after_respects (self : TaskManager) (c : call) (wc : WorldC) :
  R (db (world wc)) (db (world (world_after env self c wc))).
Proof.
  assert (∀ A (m : MC A), keeps_c R m → R (db (world wc)) (db (world (m wc).2))) as Hrun.
  { intros A m Hm. destruct (m wc) as [r wc'] eqn:E. by eapply Hm. }
  destruct c; cbn [world_after]; apply Hrun; try apply keeps_c_lift.
  - apply keeps_register_user.
  - apply keeps_login.
  - apply keeps_create_department.
  - apply keeps_add_employee_to_department.
  - apply keeps_create_task.
  - apply keeps_assign_task.
  - apply keeps_update_task_status.
  - apply keeps_c_add_task_comment.
  - apply keeps_get_user_tasks.
  - apply keeps_get_department_tasks.
  - apply keeps_c_get_task_comments.
  - apply keeps_get_unread_notifications_count.
  - apply keeps_get_user_statistics.
  - apply keeps_get_user_notifications.
  - apply keeps_mark_notification_as_read.
  - apply keeps_mark_all_notifications_as_read.
Qed.

Lemma world_after_all_respects (calls : list (TaskManager * call)) (wc : WorldC) :
  R (db (world wc)) (db (world (world_after_all env calls wc))).
Proof.
  revert wc. induction calls as [|[self c] rest IH]; intros wc; cbn [world_after_all].
  - apply (wr_refl env R HR).
  - eapply (wr_trans env R HR); [apply world_after_respects | apply IH].
Qed.
End keeps.

(** ** Invariants of the database *)

Lemma invariant_writes_respect (env : Env) (P : Db → Prop) :
  writes_respect env (λ d d', P d → P d') →
  ∀ calls wc, P (db (world wc)) → P (db (world (world_after_all env calls wc))).
Proof. intros HR calls wc HP. by apply (world_after_all_respects env _ HR calls wc). Qed.


Lemma mark_read_of_user_id (user_id : string) (n : NotificationRow) :
  n_user_id (mark_read_of user_id n) = n_user_id n.
Proof. unfold mark_read_of. by destruct (_ && _). Qed.




(** Statements that leave a table alone. *)
Lemma insert_user_tables (user_id username password_hash full_name : string)
    (is_admin : bool) (email : option string) (d d' : Db) :
  insert_user user_id username password_hash full_name is_admin email d = inr d' →
  users d !! user_id = None
  ∧ select_user_by_username username d = None
  ∧ d' = set_users
           <[user_id := mkUserRow username password_hash full_name is_admin email
                          (Some {[ "email" := true; "in_app" := true ]})]> d.
Proof.
  unfold insert_user. destruct (users d !! user_id); [discriminate |].
  destruct (select_user_by_username username d); [discriminate |].
  by intros [= <-].
Qed.

Lemma insert_department_tables (department_id name head_id : string) (d d' : Db) :
  insert_department department_id name head_id d = inr d' →
  departments d !! department_id = None
  ∧ is_Some (users d !! head_id)
  ∧ d' = set_departments <[department_id := mkDepartmentRow name head_id]> d.
Proof.
  unfold insert_department. destruct (departments d !! department_id); [discriminate |].
  destruct (references (Some head_id) (users d)) eqn:Hfk; [| discriminate].
  apply references_Some in Hfk. by intros [= <-].
Qed.

Lemma insert_department_employee_tables (department_id user_id : string) (d d' : Db) :
  insert_department_employee department_id user_id d = inr d' →
  ((department_id, user_id) ∉ department_employees d)
  ∧ is_Some (departments d !! department_id)
  ∧ is_Some (users d !! user_id)
  ∧ d' = set_department_employees (λ es, {[ (department_id, user_id) ]} ∪ es) d.
Proof.
  unfold insert_department_employee. destruct (decide _) as [|Hnew]; [discriminate |].
  destruct (references (Some department_id) (departments d)) eqn:Hdep; [| discriminate].
  destruct (references (Some user_id) (users d)) eqn:Hu; [| discriminate].
  apply references_Some in Hdep, Hu. by intros [= <-].
Qed.

Lemma insert_task_tables (task_id : string) (t : TaskRow) (d d' : Db) :
  insert_task task_id t d = inr d' →
  tasks d !! task_id = None ∧ d' = set_tasks <[task_id := t]> d.
Proof.
  unfold insert_task. destruct (tasks d !! task_id); [discriminate |].
  destruct (task_references d t); [| discriminate]. by intros [= <-].
Qed.

Lemma update_task_assignment_tables (user_id task_id : string) (d d' : Db) :
  update_task_assignment user_id task_id d = inr d' →
  d' = d ∨ ∃ t, tasks d !! task_id = Some t
                ∧ d' = set_tasks <[task_id := set_assignment user_id t]> d.
Proof.
  unfold update_task_assignment. destruct (tasks d !! task_id) as [t|]; [| intros [= <-]; by left].
  destruct (references _ _); [| discriminate]. intros [= <-]. right. eauto.
Qed.

Lemma update_task_status_row_tables (status task_id : string) (d d' : Db) :
  update_task_status_row status task_id d = inr d' →
  d' = d ∨ ∃ t, tasks d !! task_id = Some t
                ∧ d' = set_tasks <[task_id := set_status status t]> d.
Proof.
  unfold update_task_status_row. destruct (tasks d !! task_id) as [t|]; intros [= <-];
    [right; eauto | by left].
Qed.

Lemma insert_notification_tables (notification_id user_id message notification_type : string)
    (related_id : option string) (created_at : Z) (d d' : Db) :
  insert_notification notification_id user_id message notification_type related_id
    created_at d = inr d' →
  notifications d !! notification_id = None
  ∧ d' = set_notifications
           <[notification_id := mkNotificationRow user_id message notification_type
                                  related_id created_at false]> d.
Proof.
  unfold insert_notification. destruct (notifications d !! notification_id); [discriminate |].
  destruct (references _ _); [| discriminate]. by intros [= <-].
Qed.

(** A relation that looks at some tables only is respected by the writes to
    the other ones. *)
Ltac other_table :=
  match goal with
  | H : insert_user _ _ _ _ _ _ _ = inr _ |- _ =>
      apply insert_user_tables in H as (? & ? & ->)
  | H : insert_department _ _ _ _ = inr _ |- _ =>
      apply insert_department_tables in H as (? & ? & ->)
  | H : insert_department_employee _ _ _ = inr _ |- _ =>
      apply insert_department_employee_tables in H as (? & ? & ? & ->)
  | H : insert_task _ _ _ = inr _ |- _ =>
      apply insert_task_tables in H as (? & ->)
  | H : update_task_assignment _ _ _ = inr _ |- _ =>
      apply update_task_assignment_tables in H as [-> | (? & ? & ->)]
  | H : update_task_status_row _ _ _ = inr _ |- _ =>
      apply update_task_status_row_tables in H as [-> | (? & ? & ->)]
  | H : insert_notification _ _ _ _ _ _ _ = inr _ |- _ =>
      apply insert_notification_tables in H as (? & ->)
  | H : update_notification_read _ _ = inr _ |- _ => injection H as <-
  | H : update_notifications_read _ _ = inr _ |- _ => injection H as <-
  end.

(** The head of every department is an admin, after any sequence of calls. *)
Theorem calls_keep_department_heads_admins (env : Env) (calls : list (TaskManager * call))
    (wc : WorldC) :
  department_heads_are_admins (db (world wc)) →
  department_heads_are_admins (db (world (world_after_all env calls wc))).
Proof.
  apply invariant_writes_respect.
  constructor; try tauto; intros; other_table; try assumption.
  - (* a new user: the heads are other users *)
    match goal with
    | Hfresh : users _ !! _ = None, Hheads : department_heads_are_admins _ |- _ =>
        intros k r Hk; specialize (Hheads k r Hk); unfold select_user_is_admin in *;
        cbn [set_users users] in *; rewrite lookup_insert_ne; [exact Hheads |];
        intros Heq; rewrite <- Heq, Hfresh in Hheads; discriminate Hheads
    end.
  - (* a new department *)
    apply map_Forall_insert_2; assumption.
Qed.

(** Every task is in one of the four statuses, after any sequence of calls. *)
Theorem calls_keep_task_statuses_valid (env : Env) (calls : list (TaskManager * call))
    (wc : WorldC) :
  task_statuses_valid (db (world wc)) →
  task_statuses_valid (db (world (world_after_all env calls wc))).
Proof.
  apply invariant_writes_respect.
  constructor; try tauto; intros; other_table; try assumption;
    (apply map_Forall_insert_2; [| assumption]).
  - (* a new task *)
    cbn [t_status]. apply (bool_decide_unpack _). vm_compute. reflexivity.
  - (* an assignment *)
    cbn [set_assignment t_status]. apply (bool_decide_unpack _). vm_compute. reflexivity.
  - (* a status that has been checked *)
    assumption.
Qed.

(** No two users have the same name, after any sequence of calls. *)
Theorem calls_keep_usernames_unique (env : Env) (calls : list (TaskManager * call))
    (wc : WorldC) :
  usernames_unique (db (world wc)) →
  usernames_unique (db (world (world_after_all env calls wc))).
Proof.
  apply invariant_writes_respect.
  constructor; try tauto; intros; other_table; try assumption.
  (* a new user, whose name was looked for and not found *)
  match goal with
  | Hfresh : users _ !! _ = None, Hname : select_user_by_username _ _ = None,
    Hunique : usernames_unique _ |- _ =>
      unfold usernames_unique in *; cbn [set_users users];
      rewrite map_to_list_insert by exact Hfresh; cbn [fmap list_fmap snd];
      apply NoDup_cons; split; [| exact Hunique];
      rewrite select_user_by_username_None in Hname;
      intros Hin; apply list_elem_of_fmap in Hin as (r & Hr & Hin);
      apply list_elem_of_fmap in Hin as ([k r'] & -> & Hin);
      apply elem_of_map_to_list in Hin; by destruct (Hname k r' Hin)
  end.
Qed.

(** Every member of a department is an existing user of an existing
    department, after any sequence of calls. *)
Theorem calls_keep_memberships_reference (env : Env) (calls : list (TaskManager * call))
    (wc : WorldC) :
  memberships_reference (db (world wc)) →
  memberships_reference (db (world (world_after_all env calls wc))).
Proof.
  apply invariant_writes_respect.
  constructor; try tauto; intros; other_table; try assumption.
  - (* a new user *)
    match goal with
    | Hmem : memberships_reference _ |- _ =>
        intros p Hp; destruct (Hmem p Hp) as [Hdep [u Hu]]; split; [exact Hdep |];
        cbn [set_users users]; destruct (decide (uuid4_at env n = p.2)) as [-> |];
        [rewrite lookup_insert_eq | rewrite lookup_insert_ne by done]; eauto
    end.
  - (* a new department *)
    match goal with
    | Hmem : memberships_reference _ |- _ =>
        intros p Hp; destruct (Hmem p Hp) as [[r Hdep] Hu]; split; [| exact Hu];
        cbn [set_departments departments]; destruct (decide (uuid4_at env n = p.1)) as [-> |];
        [rewrite lookup_insert_eq | rewrite lookup_insert_ne by done]; eauto
    end.
  - (* a new member *)
    match goal with
    | Hmem : memberships_reference _ |- _ =>
        intros p Hp; cbn [set_department_employees department_employees] in Hp;
        apply elem_of_union in Hp as [->%elem_of_singleton | Hp];
        [by split | exact (Hmem p Hp)]
    end.
Qed.

(** A user, a department or a membership, once there, is never removed nor
    changed by any sequence of calls. *)
Theorem calls_only_add_master_data (env : Env) (calls : list (TaskManager * call))
    (wc : WorldC) :
  master_data_grows (db (world wc)) (db (world (world_after_all env calls wc))).
Proof.
  apply (world_after_all_respects env master_data_grows).
  constructor.
  - intros d. by repeat split.
  - intros d1 d2 d3 (Hu & Hd & He) (Hu' & Hd' & He').
    repeat split; etrans; eassumption.
  - intros. other_table. repeat split; try reflexivity. by apply insert_subseteq.
  - intros. other_table. repeat split; try reflexivity. by apply insert_subseteq.
  - intros. other_table. repeat split; try reflexivity.
    cbn [set_department_employees department_employees]. apply union_subseteq_r.
  - intros. other_table. by repeat split.
  - intros. other_table; by repeat split.
  - intros. other_table; by repeat split.
  - intros. other_table. by repeat split.
  - intros. other_table. by repeat split.
  - intros. other_table. by repeat split.
Qed.

(** A task, once created, is never removed by any sequence of calls, and
    keeps its title, description, creator, department, creation time,
    deadline and priority. *)
Theorem calls_keep_tasks (env : Env) (calls : list (TaskManager * call)) (wc : WorldC) :
  tasks_persist (db (world wc)) (db (world (world_after_all env calls wc))).
Proof.
  apply (world_after_all_respects env tasks_persist).
  assert (∀ d d', tasks d' = tasks d → tasks_persist d d') as Hsame
    by (intros d d' Heq k t Hk; rewrite Heq; eauto).
  assert (∀ d, tasks_persist d d) as Hrefl by (intros d; by apply Hsame).
  assert (∀ d task_id t', (∀ t, tasks d !! task_id = Some t →
                                  task_fixed_part t' = task_fixed_part t) →
            tasks_persist d (set_tasks <[task_id := t']> d)) as Hinsert.
  { intros d task_id t' Hfixed k t Hk. cbn [set_tasks tasks].
    destruct (decide (task_id = k)) as [-> |].
    - rewrite lookup_insert_eq. eauto.
    - rewrite lookup_insert_ne by done. eauto. }
  constructor; try exact Hrefl.
  - intros d1 d2 d3 H12 H23 k t Hk.
    destruct (H12 k t Hk) as (t2 & Hk2 & Hsame2).
    destruct (H23 k t2 Hk2) as (t3 & Hk3 & Hsame3). exists t3. split; congruence.
  - intros. other_table. by apply Hsame.
  - intros. other_table. by apply Hsame.
  - intros. other_table. by apply Hsame.
  - intros. other_table. apply Hinsert. congruence.
  - intros. other_table; [apply Hrefl |]. apply Hinsert. intros t Ht.
    assert (x = t) as -> by congruence. reflexivity.
  - intros. other_table; [apply Hrefl |]. apply Hinsert. intros t Ht.
    assert (x = t) as -> by congruence. reflexivity.
  - intros. other_table. by apply Hsame.
  - intros. other_table. by apply Hsame.
  - intros. other_table. by apply Hsame.
Qed.

Lemma mark_read_idempotent (n : NotificationRow) : mark_read (mark_read n) = mark_read n.
Proof. reflexivity. Qed.

(** A notification, once created, is never removed nor rewritten by any
    sequence of calls: it is the same row, or the same row marked as read,
    and one that has been read stays read. *)
Theorem calls_keep_notifications (env : Env) (calls : list (TaskManager * call))
    (wc : WorldC) :
  notifications_persist (db (world wc)) (db (world (world_after_all env calls wc)))
  ∧ ∀ k n, notifications (db (world wc)) !! k = Some n →
           n_is_read n = true →
           notifications (db (world (world_after_all env calls wc))) !! k = Some n.
Proof.
  assert (notifications_persist (db (world wc))
            (db (world (world_after_all env calls wc)))) as Hpersist.
  { apply (world_after_all_respects env notifications_persist).
    assert (∀ d d', notifications d' = notifications d → notifications_persist d d')
      as Hsame by (intros d d' Heq k n Hk; rewrite Heq; by left).
    assert (∀ d, notifications_persist d d) as Hrefl by (intros d; by apply Hsame).
    constructor; try exact Hrefl.
    - intros d1 d2 d3 H12 H23 k n Hk.
      destruct (H12 k n Hk) as [Hk2 | Hk2]; destruct (H23 k _ Hk2) as [Hk3 | Hk3]; auto.
    - intros. other_table. by apply Hsame.
    - intros. other_table. by apply Hsame.
    - intros. other_table. by apply Hsame.
    - intros. other_table. by apply Hsame.
    - intros. other_table; by apply Hsame.
    - intros. other_table; by apply Hsame.
    - intros. other_table. intros k n0 Hk. left. cbn [set_notifications notifications].
      rewrite lookup_insert_ne; [exact Hk | congruence].
    - intros. other_table. intros k n Hk. cbn [set_notifications notifications].
      destruct (decide (notification_id = k)) as [-> |].
      + right. by rewrite lookup_alter_eq, Hk.
      + left. by rewrite lookup_alter_ne.
    - intros. other_table. intros k n Hk. cbn [set_notifications notifications].
      rewrite lookup_fmap, Hk. cbn. unfold mark_read_of.
      destruct (_ && _); [by right | by left]. }
  split; [exact Hpersist |].
  intros k n Hk Hread. destruct (Hpersist k n Hk) as [H | H]; [exact H |].
  rewrite H. f_equal. destruct n. cbn in *. by subst.
Qed.

(** ** One step of a run *)

Lemma bind_run {A B : Type} (m : M A) (k : A → M B) (w w' : World) (a : A) :
  m w = (Ok a, w') → (m ≫= k) w = k a w'.
Proof. intros Hm. unfold mbind, M_bind. by rewrite Hm. Qed.

Lemma bind_fetch_one {A B : Type} (env : Env) (query : Db → option A) (k : option A → M B)
    (w : World) :
  db_fails_at env (db_calls w) = false →
  (fetch_one env query ≫= k) w = k (query (db w)) (count_db_call w (db w)).
Proof. intros Hok. apply bind_run. unfold fetch_one. by rewrite Hok. Qed.

Lemma bind_fetch_all {A B : Type} (env : Env) (query : Db → exn + list A) (k : list A → M B)
    (w : World) (rows : list A) :
  db_fails_at env (db_calls w) = false → query (db w) = inr rows →
  (fetch_all env query ≫= k) w = k rows (count_db_call w (db w)).
Proof. intros Hok Hq. apply bind_run. unfold fetch_all. by rewrite Hok, Hq. Qed.




(** ** Departments *)




Lemma add_employee_to_department_effect (env : Env) (self : TaskManager)
    (user_id department_id : string) (w : World) (r : res pyval) (w' : World) :
  add_employee_to_department env self user_id department_id w = (r, w') →
  (db w' = db w ∧ r ≠ Ok (VBool true))
  ∨ (∃ cu, current_user self = Some cu ∧ User.is_admin cu = true
           ∧ is_Some (users (db w) !! user_id)
           ∧ is_Some (departments (db w) !! department_id)
           ∧ ((department_id, user_id) ∉ department_employees (db w))
           ∧ db w' = set_department_employees (λ es, {[ (department_id, user_id) ]} ∪ es)
                       (db w)
           ∧ r = Ok (VBool true)).
Proof.
  unfold add_employee_to_department.
  destruct (current_user self) as [cu|]; [| intros [= <- <-]; by left].
  destruct (User.is_admin cu) eqn:Hadmin; cbn [negb]; [| intros [= <- <-]; by left].
  unfold mbind at 1, M_bind at 1.
  destruct (fetch_one env (select_user user_id) w) as [[user|e] w1] eqn:H1;
    apply fetch_one_frame in H1 as (D1 & _ & _ & Q1);
    [| intros [= <- <-]; left; by rewrite D1].
  unfold mbind at 1, M_bind at 1.
  destruct (fetch_one env (select_department_id department_id) w1)
    as [[department|e] w2] eqn:H2;
    apply fetch_one_frame in H2 as (D2 & _ & _ & Q2);
    [| intros [= <- <-]; left; by rewrite D2, D1].
  specialize (Q1 _ eq_refl). specialize (Q2 _ eq_refl).
  destruct user as [u|]; [| intros [= <- <-]; left; by rewrite D2, D1].
  destruct department as [dep|]; [| intros [= <- <-]; left; by rewrite D2, D1].
  unfold try_except, mbind, M_bind.
  destruct (fetch_one env (select_employee department_id user_id) w2)
    as [[existing|e] w3] eqn:H3;
    apply fetch_one_frame in H3 as (D3 & _ & _ & Q3);
    [| intros [= <- <-]; left; by rewrite D3, D2, D1].
  destruct existing as [one|]; [intros [= <- <-]; left; by rewrite D3, D2, D1 |].
  unfold execute. rewrite D3, D2, D1.
  destruct (db_fails_at env (db_calls w3)); [intros [= <- <-]; by left |].
  destruct (insert_department_employee department_id user_id (db w)) as [e|d'] eqn:Hs;
    intros [= <- <-]; [by left |].
  apply insert_department_employee_tables in Hs as (Hnew & Hdep & Hu & ->).
  right. exists cu. by repeat split.
Qed.

(** [add_employee_to_department] returns [True] exactly when it has added the
    pair, and then the caller is an admin, the user and the department exist
    and the user was not a member; otherwise the database is as before.
    After a call that returned [True] the membership query of [assign_task]
    finds the user, and, with a working connection, a second call with the
    same arguments is refused as a duplicate and writes nothing. *)
Theorem add_employee_to_department_outcome (env : Env) (self : TaskManager)
    (user_id department_id : string) (w : World) :
  let out := add_employee_to_department env self user_id department_id w in
  ((db out.2 = db w ∧ out.1 ≠ Ok (VBool true))
   ∨ (is_Some (users (db w) !! user_id)
      ∧ is_Some (departments (db w) !! department_id)
      ∧ ((department_id, user_id) ∉ department_employees (db w))
      ∧ department_employees (db out.2)
        = {[ (department_id, user_id) ]} ∪ department_employees (db w)
      ∧ out.1 = Ok (VBool true)))
  ∧ (out.1 = Ok (VBool true) →
     (∃ cu, current_user self = Some cu ∧ User.is_admin cu = true)
     ∧ select_employee department_id user_id (db out.2) = Some 1%Z
     ∧ (no_db_failure env →
        let again := add_employee_to_department env self user_id department_id out.2 in
        again.1 = Ok (VStr "Пользователь уже является сотрудником этого отдела")
        ∧ db again.2 = db out.2)).
Proof.
  intros out. subst out.
  destruct (add_employee_to_department env self user_id department_id w) as [r w'] eqn:Hrun.
  apply add_employee_to_department_effect in Hrun. cbn [fst snd]. split.
  - destruct Hrun as [Hsame | (cu & _ & _ & Hu & Hdep & Hnew & -> & ->)]; [by left |].
    right. by repeat split.
  - intros ->. destruct Hrun as [[_ Hne] | (cu & Hcu & Hadmin & Hu & Hdep & Hnew & Hdb & _)];
      [done |].
    assert ((department_id, user_id) ∈ department_employees (db w')) as Hmember.
    { rewrite Hdb. cbn. apply elem_of_union. left. by apply elem_of_singleton. }
    split; [eauto |]. split.
    + unfold select_employee. by rewrite decide_True.
    + intros Hnf. unfold add_employee_to_department.
      rewrite Hcu, Hadmin. cbn [negb].
      destruct Hu as [u Hu]. destruct Hdep as [dep Hdep].
      rewrite bind_fetch_one by apply Hnf. cbv beta.
      rewrite bind_fetch_one by apply Hnf. cbv beta.
      unfold select_user, select_department_id, count_db_call. cbn [db].
      rewrite Hdb. cbn [set_department_employees users departments]. rewrite Hu, Hdep.
      cbn [fmap option_fmap option_map].
      unfold try_except. rewrite bind_fetch_one by apply Hnf.
      unfold select_employee. cbn [db set_department_employees department_employees].
      rewrite decide_True; [by cbn |].
      apply elem_of_union. left. by apply elem_of_singleton.
Qed.

(** The admin adds a user to the department; the user is then a member. *)
Lemma add_employee_to_department_outcome_witness :
  select_employee "d-it" "u-3"
    (db (add_employee_to_department Sample.env (Sample.as_user "u-admin" "admin1" true)
           "u-3" "d-it" Sample.world0).2) = Some 1%Z.
Proof.
  apply (add_employee_to_department_outcome Sample.env
           (Sample.as_user "u-admin" "admin1" true) "u-3" "d-it" Sample.world0).
  vm_compute. reflexivity.
Defined.

(** ** Reading notifications *)

#[local] Instance notified_later_total : Total notified_later.
Proof. intros a b. unfold notified_later. lia. Qed.

#[local] Instance notified_later_transitive : Transitive notified_later.
Proof. intros a b c. unfold notified_later. lia. Qed.

Lemma user_notification_filter_spec (user_id : string) (only_unread : bool)
    (kv : string * NotificationRow) :
  user_notification_filter user_id only_unread kv = true
  ↔ n_user_id kv.2 = user_id ∧ (only_unread = true → n_is_read kv.2 = false).
Proof.
  unfold user_notification_filter. rewrite andb_true_iff, bool_decide_eq_true.
  destruct only_unread.
  - rewrite negb_true_iff. split.
    + intros [Hu Hr]. split; [exact Hu | by intros _].
    + intros [Hu Hr]. split; [exact Hu | by apply Hr].
  - split.
    + intros [Hu _]. split; [exact Hu | discriminate].
    + intros [Hu _]. by split.
Qed.

(** The number of rows of a scan that a condition selects is the size of the
    table restricted to it. *)
Lemma length_filter_map_to_list {V : Type} (P : string * V → Prop) `{!∀ kv, Decision (P kv)}
    (m : gmap string V) :
  length (filter P (map_to_list m)) = size (filter P m).
Proof.
  rewrite map_filter_alt, map_size_list_to_map; [done |].
  apply (sublist_NoDup _ ((map_to_list m).*1)); [apply NoDup_fst_map_to_list |].
  apply fmap_sublist. apply sublist_filter; apply _.
Qed.

(** [get_user_notifications] asks the database once and changes nothing. A
    negative limit is an error of the database, which the function does not
    catch. Otherwise the answer holds the first [limit] of the notifications
    of the user, each once, only those not yet read when [only_unread] is
    set, the latest first. *)
Theorem get_user_notifications_lists (env : Env) (user_id : string) (limit : Z)
    (only_unread : bool) (w : World) :
  db_fails_at env (db_calls w) = false →
  let out := get_user_notifications env user_id limit only_unread w in
  db out.2 = db w
  ∧ ((limit < 0)%Z → out.1 = Raise InvalidRowCount)
  ∧ ((0 ≤ limit)%Z →
     ∃ sorted,
       NoDup sorted
       ∧ (∀ k n, (k, n) ∈ sorted
                 ↔ notifications (db w) !! k = Some n ∧ n_user_id n = user_id
                   ∧ (only_unread = true → n_is_read n = false))
       ∧ StronglySorted notified_later sorted
       ∧ out.1 = Ok (notification_view <$> take (Z.to_nat limit) sorted)).
Proof.
  intros Hok out. subst out.
  unfold get_user_notifications, fetch_all, select_user_notifications, limit_offset.
  rewrite Hok. cbn [orb Z.ltb Z.compare]. rewrite orb_false_r.
  split; [by destruct (limit <? 0)%Z |]. split.
  - intros Hneg. by rewrite (proj2 (Z.ltb_lt _ _) Hneg).
  - intros Hpos. rewrite (proj2 (Z.ltb_ge _ _) Hpos).
    exists (merge_sort notified_later
              (filter (λ kv, user_notification_filter user_id only_unread kv = true)
                 (map_to_list (notifications (db w))))).
    split; [| split; [| split; [| reflexivity]]].
    + rewrite merge_sort_Permutation. apply NoDup_filter, NoDup_map_to_list.
    + intros k n. rewrite merge_sort_Permutation.
      rewrite list_elem_of_filter, elem_of_map_to_list, user_notification_filter_spec.
      cbn [snd]. tauto.
    + apply StronglySorted_merge_sort; apply _.
Qed.

(** A user reads the one notification there is. *)
Lemma get_user_notifications_lists_witness :
  db (get_user_notifications Sample.env "u-2" 20 false Sample.world0).2 = db Sample.world0.
Proof.
  apply (get_user_notifications_lists Sample.env "u-2" 20 false Sample.world0).
  reflexivity.
Defined.

Lemma mark_read_of_filtered (user_id : string) (k : string) (n : NotificationRow) :
  user_notification_filter user_id true (k, mark_read_of user_id n) = false.
Proof.
  unfold user_notification_filter, mark_read_of. cbn [snd].
  destruct (bool_decide (n_user_id n = user_id)) eqn:Hu;
    destruct (n_is_read n) eqn:Hr; cbn [andb negb mark_read n_user_id n_is_read];
    rewrite ?Hu, ?Hr; reflexivity.
Qed.

Lemma mark_read_of_other (user_id other : string) (only_unread : bool) (k : string)
    (n : NotificationRow) :
  other ≠ user_id →
  user_notification_filter other only_unread (k, mark_read_of user_id n)
  = user_notification_filter other only_unread (k, n).
Proof.
  intros Hne. unfold user_notification_filter. cbn [snd].
  rewrite mark_read_of_user_id.
  destruct (decide (n_user_id n = user_id)) as [Hu | Hu].
  - by rewrite bool_decide_eq_false_2 by congruence.
  - unfold mark_read_of. by rewrite (bool_decide_eq_false_2 (n_user_id n = user_id)) by exact Hu.
Qed.

Lemma filter_none {A : Type} (P : A → Prop) `{!∀ x, Decision (P x)} (l : list A) :
  (∀ x, x ∈ l → ¬ P x) → filter P l = [].
Proof.
  induction l as [| a l IH]; intros Hnone; [reflexivity |].
  rewrite filter_cons_False by (apply Hnone; left).
  apply IH. intros x Hx. apply Hnone. by right.
Qed.

Lemma unread_after_update_notifications_read (user_id : string) (ns : gmap string NotificationRow) :
  filter (λ kv, user_notification_filter user_id true kv = true)
    (map_to_list (mark_read_of user_id <$> ns)) = [].
Proof.
  apply filter_none. intros [k n'] Hin.
  apply elem_of_map_to_list in Hin. rewrite lookup_fmap in Hin.
  destruct (ns !! k) as [n|]; [| discriminate]. injection Hin as <-.
  by rewrite mark_read_of_filtered.
Qed.

(** [mark_all_notifications_as_read] returns [True], or [False] with nothing
    written. After [True] the user has no unread notification: the count of
    the unread is zero and the list of the unread is empty. No notification
    is added or removed, each keeps its text, its kind, its recipient and its
    time, those of other users are as before, and so is the number of the
    unread of any other user. A second call changes nothing more. *)
Theorem mark_all_notifications_as_read_outcome (env : Env) (user_id : string) (w : World) :
  let out := mark_all_notifications_as_read env user_id w in
  let unread (u : string) (d : Db) :=
    filter (λ kn : string * NotificationRow, n_user_id kn.2 = u ∧ n_is_read kn.2 = false)
      (notifications d) in
  (out.1 = Ok true ∨ (out.1 = Ok false ∧ db out.2 = db w))
  ∧ (out.1 = Ok true →
     unread user_id (db out.2) = ∅
     ∧ count_unread_notifications user_id (db out.2) = Some 0%Z
     ∧ (∀ limit, (0 ≤ limit)%Z →
          select_user_notifications user_id true limit (db out.2) = inr [])
     ∧ (∀ k, ∃ f, notifications (db out.2) !! k = f <$> notifications (db w) !! k
                  ∧ ∀ n, (n_user_id (f n), n_message (f n), n_type (f n),
                          n_related_id (f n), n_created_at (f n))
                         = (n_user_id n, n_message n, n_type n, n_related_id n,
                            n_created_at n)
                         ∧ (n_user_id n ≠ user_id ∨ n_is_read n = true → f n = n))
     ∧ (∀ other, other ≠ user_id → size (unread other (db out.2)) = size (unread other (db w)))
     ∧ db (mark_all_notifications_as_read env user_id out.2).2 = db out.2).
Proof.
  intros out unread.
  assert (∀ w0, ((mark_all_notifications_as_read env user_id w0).1 = Ok false
                 ∧ db (mark_all_notifications_as_read env user_id w0).2 = db w0)
                ∨ ((mark_all_notifications_as_read env user_id w0).1 = Ok true
                   ∧ db (mark_all_notifications_as_read env user_id w0).2
                     = set_notifications (fmap (mark_read_of user_id)) (db w0))) as Hrun.
  { intros w0. unfold mark_all_notifications_as_read, try_except, mbind, M_bind, execute.
    destruct (db_fails_at env (db_calls w0)); [by left | by right]. }
  split.
  - destruct (Hrun w) as [Hfalse | [Htrue _]]; [by right | by left].
  - intros Htrue. destruct (Hrun w) as [[Hfalse _] | [_ Hdb]].
    { subst out. rewrite Hfalse in Htrue. discriminate. }
    fold out in Hdb.
    assert (∀ d, set_notifications (fmap (mark_read_of user_id))
                   (set_notifications (fmap (mark_read_of user_id)) d)
                 = set_notifications (fmap (mark_read_of user_id)) d) as Hidem.
    { intros d. unfold set_notifications. cbn. f_equal.
      rewrite <- map_fmap_compose. apply map_fmap_ext. intros k n _. cbn.
      unfold mark_read_of at 1.
      destruct (bool_decide (n_user_id (mark_read_of user_id n) = user_id)
                && negb (n_is_read (mark_read_of user_id n))) eqn:Hagain; [| reflexivity].
      pose proof (mark_read_of_filtered user_id k n) as Hf.
      unfold user_notification_filter in Hf. cbn [snd] in Hf. congruence. }
    split; [| split; [| split; [| split; [| split]]]].
    + subst unread. cbn beta. rewrite Hdb. cbn [notifications set_notifications].
      apply map_empty_filter. intros k n' Hk [Hu Hr]. cbn [snd] in Hu, Hr.
      rewrite lookup_fmap in Hk. destruct (notifications (db w) !! k) as [n|]; [| discriminate].
      injection Hk as <-.
      pose proof (mark_read_of_filtered user_id k n) as Hf.
      unfold user_notification_filter in Hf. cbn [snd] in Hf.
      rewrite Hr, bool_decide_eq_true_2 in Hf by exact Hu. discriminate.
    + unfold count_unread_notifications. rewrite Hdb. cbn [notifications set_notifications].
      by rewrite unread_after_update_notifications_read.
    + intros limit Hlimit. unfold select_user_notifications, limit_offset.
      rewrite Hdb. cbn [notifications set_notifications].
      rewrite unread_after_update_notifications_read.
      rewrite (proj2 (Z.ltb_ge _ _) Hlimit). cbn. by rewrite drop_nil, take_nil.
    + intros k. exists (mark_read_of user_id). rewrite Hdb. cbn [notifications set_notifications].
      split; [apply lookup_fmap |].
      intros n. unfold mark_read_of.
      destruct (bool_decide (n_user_id n = user_id)) eqn:Hu;
        destruct (n_is_read n) eqn:Hr; cbn [andb negb mark_read n_user_id n_message n_type
                                             n_related_id n_created_at];
        (split; [reflexivity |]); try reflexivity.
      apply bool_decide_eq_true in Hu. intros [Hne | Hread]; [done | discriminate].
    + intros other Hother. subst unread. cbn beta. rewrite Hdb.
      cbn [notifications set_notifications].
      rewrite map_filter_fmap, map_size_fmap. f_equal.
      apply map_filter_ext. intros k n _. cbn [snd]. unfold mark_read_of.
      destruct (bool_decide (n_user_id n = user_id)) eqn:Hu; [| reflexivity].
      apply bool_decide_eq_true in Hu.
      destruct (n_is_read n) eqn:Hr; cbn [andb negb mark_read n_user_id n_is_read];
        [by rewrite Hr |].
      split; intros [Hn _]; congruence.
    + destruct (Hrun out.2) as [[_ Hsame] | [_ Hdb2]]; [exact Hsame |].
      rewrite Hdb2, Hdb. apply Hidem.
Qed.

(** The user of the sample has one unread notification, and none afterwards. *)
Lemma mark_all_notifications_as_read_outcome_witness :
  count_unread_notifications "u-2"
    (db (mark_all_notifications_as_read Sample.env "u-2" Sample.world0).2) = Some 0%Z.
Proof.
  apply (mark_all_notifications_as_read_outcome Sample.env "u-2" Sample.world0).
  reflexivity.
Defined.

(** [get_unread_notifications_count] gives the number of the notifications
    of the logged-in user that are not read, and changes nothing; when the
    connection fails it gives a message instead of a number. A notification
    made for a user by [create_notification] raises the number of that user
    by one and that of nobody else. *)
Theorem get_unread_notifications_count_counts (env : Env) (self : TaskManager) (cu : User.t)
    (w : World) :
  current_user self = Some cu →
  let unread (u : string) (d : Db) :=
    filter (λ kn : string * NotificationRow, n_user_id kn.2 = u ∧ n_is_read kn.2 = false)
      (notifications d) in
  let out := get_unread_notifications_count env self w in
  db out.2 = db w
  ∧ (db_fails_at env (db_calls w) = false →
     out.1 = Ok (inl (Z.of_nat (size (unread (User.id cu) (db w))))))
  ∧ (db_fails_at env (db_calls w) = true → ∃ message, out.1 = Ok (inr message))
  ∧ (∀ user_id message notification_type related_id w0 nid,
       create_notification env user_id message notification_type related_id w0
       = (Ok nid, w) →
       size (unread user_id (db w)) = S (size (unread user_id (db w0)))
       ∧ ∀ other, other ≠ user_id → size (unread other (db w)) = size (unread other (db w0))).
Proof.
  intros Hcu unread out. subst out. unfold get_unread_notifications_count. rewrite Hcu.
  unfold try_except, mbind, M_bind, fetch_one, count_unread_notifications.
  split; [by destruct (db_fails_at env (db_calls w)) |].
  split; [| split].
  - intros ->. cbn. do 3 f_equal. subst unread. cbn beta.
    rewrite <- length_filter_map_to_list. f_equal.
    apply list_filter_iff. intros kv. rewrite user_notification_filter_spec.
    split; [intros [Hu Hr]; split; [exact Hu | by apply Hr] | intros [Hu Hr]; by split].
  - intros ->. cbn. eauto.
  - intros user_id message notification_type related_id w0 nid Hcreate.
    apply create_notification_effect in Hcreate as (_ & [[_ [e [=]]] | (_ & Hfree & Hdb)]).
    subst unread. cbn beta. rewrite Hdb.
    unfold with_notification, new_notification. cbn [notifications set_notifications].
    split.
    + rewrite map_filter_insert_True by (cbn; done).
      apply map_size_insert_None. by apply map_lookup_filter_None_2; left.
    + intros other Hother. rewrite map_filter_insert_not'; [done | |].
      * intros [Hn _]. cbn in Hn. congruence.
      * intros n Hn. rewrite Hfree in Hn. discriminate.
Qed.

(** The user of the sample has one unread notification. *)
Lemma get_unread_notifications_count_counts_witness :
  db (get_unread_notifications_count Sample.env (Sample.as_user "u-2" "user2" false)
        Sample.world0).2 = db Sample.world0.
Proof.
  apply (get_unread_notifications_count_counts Sample.env
           (Sample.as_user "u-2" "user2" false)
           (User.mk "u-2" "user2" (User.hash_password "pass123") "user2" false
              (Some "user2@example.com") User.default_preferences) Sample.world0).
  reflexivity.
Defined.

(** ** Listing the tasks of a department *)

Lemma department_view_permission_run (env : Env) (cu : User.t)
    (department_id head_id : string) (w : World) :
  no_db_failure env →
  ∃ w', department_view_permission env cu department_id head_id w
        = (Ok (User.is_admin cu || String.eqb head_id (User.id cu)
               || bool_decide ((department_id, User.id cu) ∈ department_employees (db w))),
           w')
        ∧ db w' = db w.
Proof.
  intros Hnf. unfold department_view_permission.
  destruct (User.is_admin cu); [by exists w |].
  destruct (String.eqb head_id (User.id cu)); [by exists w |].
  rewrite bind_fetch_one by apply Hnf. unfold select_employee. cbn [orb].
  exists (count_db_call w (db w)).
  destruct (decide ((department_id, User.id cu) ∈ department_employees (db w))) as [Hin | Hout].
  - by rewrite bool_decide_eq_true_2.
  - by rewrite bool_decide_eq_false_2.
Qed.

Lemma department_task_filter_spec (department_id : string) (wanted : option string)
    (kv : string * TaskRow) :
  department_task_filter department_id wanted kv = true
  ↔ t_department_id kv.2 = Some department_id ∧ ∀ s, wanted = Some s → t_status kv.2 = s.
Proof.
  unfold department_task_filter. rewrite andb_true_iff, bool_decide_eq_true.
  destruct wanted as [s|].
  - rewrite bool_decide_eq_true. split.
    + intros [H Hs]. split; [exact H |]. by intros s' [= <-].
    + intros [H Hs]. split; [exact H |]. by apply Hs.
  - split; [intros [H _]; split; [exact H | discriminate] | intros [H _]; by split].
Qed.

(** A logged-in principal lists the tasks of a department, with a working
    connection, a page from 1 on and a page size that is not negative. The
    database is not changed. A department that does not exist is reported.
    Of an existing department the tasks are shown to an admin, to its head
    and to its members, and refused to everybody else. What is shown is a
    page of the list of exactly the tasks of the department, in the wanted
    status if one is given, the later created first. *)
Theorem get_department_tasks_lists (env : Env) (self : TaskManager) (cu : User.t)
    (department_id : string) (status : option string) (page per_page : Z) (w : World) :
  current_user self = Some cu →
  no_db_failure env →
  (1 ≤ page)%Z →
  (0 ≤ per_page)%Z →
  let wanted := requested_status status in
  let out := get_department_tasks env self department_id status page per_page w in
  db out.2 = db w
  ∧ (departments (db w) !! department_id = None → out.1 = Ok (inr "Отдел не найден"))
  ∧ (∀ department, departments (db w) !! department_id = Some department →
       let allowed :=
         User.is_admin cu = true ∨ d_head_id department = User.id cu
         ∨ (department_id, User.id cu) ∈ department_employees (db w) in
       (¬ allowed → out.1 = Ok (inr "Недостаточно прав для просмотра задач отдела"))
       ∧ (allowed →
          ∃ sorted,
            NoDup sorted
            ∧ (∀ k t, (k, t) ∈ sorted
                      ↔ tasks (db w) !! k = Some t
                        ∧ t_department_id t = Some department_id
                        ∧ ∀ s, wanted = Some s → t_status t = s)
            ∧ StronglySorted created_later sorted
            ∧ out.1 = Ok (inl (department_task_view (db w)
                                 <$> take (Z.to_nat per_page)
                                       (drop (Z.to_nat ((page - 1) * per_page)) sorted))))).
Proof.
  intros Hcu Hnf Hpage Hper wanted out. subst out.
  unfold get_department_tasks. rewrite Hcu.
  rewrite bind_fetch_one by apply Hnf. unfold select_department.
  destruct (departments (db w) !! department_id) as [department|] eqn:Hdep;
    cbn [fmap option_fmap option_map].
  2: { split; [reflexivity |]. split; [done |]. intros department [=]. }
  destruct (department_view_permission_run env cu department_id (d_head_id department)
              (count_db_call w (db w)) Hnf) as (w1 & Hperm & Hdb1).
  cbn [db count_db_call] in Hperm, Hdb1.
  rewrite (bind_run _ _ _ _ _ Hperm).
  fold (requested_status status). fold wanted.
  assert ((per_page <? 0)%Z || ((page - 1) * per_page <? 0)%Z = false) as Hrange.
  { apply orb_false_iff. split; apply Z.ltb_ge; nia. }
  destruct (User.is_admin cu || String.eqb (d_head_id department) (User.id cu)
            || bool_decide ((department_id, User.id cu) ∈ department_employees (db w)))
    eqn:Hallowed; cbn [negb].
  - unfold try_except, mbind, M_bind, mret, M_ret, fetch_all, select_department_tasks,
      limit_offset.
    rewrite Hnf, Hdb1, Hrange. cbn [fst snd db count_db_call].
    split; [reflexivity |]. split; [done |].
    intros department' [= <-]. cbv zeta. split.
    + intros Hnot. exfalso. apply Hnot.
      apply orb_true_iff in Hallowed as [Hallowed | Hmember].
      * apply orb_true_iff in Hallowed as [Hadmin | Hhead]; [by left |].
        right. left. by apply String.eqb_eq.
      * right. right. by apply bool_decide_eq_true in Hmember.
    + intros _.
      exists (merge_sort created_later
                (filter (λ kv, department_task_filter department_id wanted kv = true)
                   (map_to_list (tasks (db w))))).
      split; [| split; [| split; [| reflexivity]]].
      * rewrite merge_sort_Permutation. apply NoDup_filter, NoDup_map_to_list.
      * intros k t. rewrite merge_sort_Permutation.
        rewrite list_elem_of_filter, elem_of_map_to_list, department_task_filter_spec.
        cbn [snd]. tauto.
      * apply StronglySorted_merge_sort; apply _.
  - cbn [fst snd]. split; [exact Hdb1 |]. split; [done |].
    intros department' [= <-]. cbv zeta. split; [done |].
    intros Hyes. exfalso.
    apply orb_false_iff in Hallowed as [Hallowed Hmember].
    apply orb_false_iff in Hallowed as [Hadmin Hhead].
    destruct Hyes as [Hyes | [Hyes | Hyes]].
    + congruence.
    + apply String.eqb_neq in Hhead. done.
    + apply bool_decide_eq_false in Hmember. done.
Qed.

(** A member of the department lists its tasks. *)
Lemma get_department_tasks_lists_witness :
  db (get_department_tasks Sample.env (Sample.as_user "u-1" "user1" false) "d-it" None 1 20
        Sample.world0).2 = db Sample.world0.
Proof.
  apply (get_department_tasks_lists Sample.env (Sample.as_user "u-1" "user1" false)
           (User.mk "u-1" "user1" (User.hash_password "pass123") "user1" false
              (Some "user1@example.com") User.default_preferences)
           "d-it" None 1 20 Sample.world0).
  - reflexivity.
  - intros n. reflexivity.
  - lia.
  - lia.
Defined.

(** ** Statistics *)

Lemma length_filter_cons_bool {A : Type} (f : A → bool) (x : A) (l : list A) :
  length (filter (λ y, f y = true) (x :: l))
  = (Nat.b2n (f x) + length (filter (λ y, f y = true) l))%nat.
Proof.
  rewrite filter_cons. destruct (decide (f x = true)) as [Hx | Hx].
  - by rewrite Hx.
  - apply not_true_is_false in Hx. by rewrite Hx.
Qed.

Lemma valid_status_cases (s : string) :
  s ∈ valid_statuses → s = "новая" ∨ s = "в работе" ∨ s = "выполнена" ∨ s = "отменена".
Proof.
  unfold valid_statuses. rewrite !elem_of_cons, elem_of_nil. tauto.
Qed.

(** A task in one of the four statuses is counted under exactly one of them. *)
Lemma status_counts_partition (scope : TaskRow → bool) (l : list (string * TaskRow)) :
  Forall (λ kv, t_status kv.2 ∈ valid_statuses) l →
  length (filter (λ kv : string * TaskRow, scope kv.2 = true) l)
  = (length (filter (λ kv : string * TaskRow,
                       scope kv.2 && has_status "новая" kv.2 = true) l)
     + length (filter (λ kv : string * TaskRow,
                         scope kv.2 && has_status "в работе" kv.2 = true) l)
     + length (filter (λ kv : string * TaskRow,
                         scope kv.2 && has_status "выполнена" kv.2 = true) l)
     + length (filter (λ kv : string * TaskRow,
                         scope kv.2 && has_status "отменена" kv.2 = true) l))%nat.
Proof.
  induction 1 as [| [k t] l Hvalid _ IH]; [reflexivity |].
  rewrite (length_filter_cons_bool (λ kv : string * TaskRow, scope kv.2)).
  rewrite !(length_filter_cons_bool (λ kv : string * TaskRow, scope kv.2 && _ kv.2)).
  rewrite IH. cbn [snd] in *. unfold has_status.
  destruct (scope t); cbn [andb Nat.b2n]; [| lia].
  destruct (valid_status_cases _ Hvalid) as [-> | [-> | [-> | ->]]];
    repeat case_bool_decide; try done; cbn [andb Nat.b2n]; lia.
Qed.

(** Overdue and due within a day exclude each other, and both are open. *)
Lemma deadline_counts_bound (current_timestamp : Z) (scope : TaskRow → bool)
    (user_id : string) (l : list (string * TaskRow)) :
  Forall (λ kv, t_status kv.2 ∈ valid_statuses) l →
  (length (filter (λ kv : string * TaskRow,
                     (assigned_to_user user_id kv.2 && scope kv.2)
                     && is_overdue current_timestamp kv.2 = true) l)
   + length (filter (λ kv : string * TaskRow,
                       (assigned_to_user user_id kv.2 && scope kv.2)
                       && is_due_today current_timestamp kv.2 = true) l)
   ≤ length (filter (λ kv : string * TaskRow,
                       assigned_to_user user_id kv.2 && has_status "новая" kv.2 = true) l)
     + length (filter (λ kv : string * TaskRow,
                         assigned_to_user user_id kv.2 && has_status "в работе" kv.2 = true)
                 l))%nat.
Proof.
  induction 1 as [| [k t] l Hvalid _ IH]; [reflexivity |].
  rewrite !(length_filter_cons_bool (λ kv : string * TaskRow, (_ kv.2 && _ kv.2) && _ kv.2)).
  rewrite !(length_filter_cons_bool (λ kv : string * TaskRow, _ kv.2 && has_status _ kv.2)).
  cbn [snd] in *.
  enough (Nat.b2n (assigned_to_user user_id t && scope t && is_overdue current_timestamp t)
          + Nat.b2n (assigned_to_user user_id t && scope t
                     && is_due_today current_timestamp t)
          ≤ Nat.b2n (assigned_to_user user_id t && has_status "новая" t)
            + Nat.b2n (assigned_to_user user_id t && has_status "в работе" t))%nat by lia.
  unfold is_overdue, is_due_today, still_open, has_status.
  destruct (assigned_to_user user_id t); cbn [andb Nat.b2n]; [| lia].
  destruct (scope t); cbn [andb Nat.b2n]; [| lia].
  destruct (t_deadline t) as [deadline|]; [| cbn; lia].
  destruct (Z.ltb_spec deadline current_timestamp) as [Hlt | Hge];
    destruct (Z.leb_spec current_timestamp deadline) as [Hle | Hgt]; try lia;
    destruct (deadline <=? current_timestamp + one_day)%Z;
    destruct (valid_status_cases _ Hvalid) as [-> | [-> | [-> | ->]]];
    repeat case_bool_decide; try done; cbn [andb negb Nat.b2n]; lia.
Qed.

(** [get_user_statistics], for a logged-in principal and a working
    connection, on a database where every task is in one of the four
    statuses. It changes nothing. The statistics of another user are refused
    to a principal who is not admin. Otherwise the total of the assigned
    tasks is the number of tasks assigned to the user, the total of the
    created tasks is the number of tasks the user created, and the tasks
    overdue and those due within a day are together no more than the
    assigned tasks that are new or in progress. *)
Theorem get_user_statistics_totals (env : Env) (current_timestamp : Z) (self : TaskManager)
    (cu : User.t) (user_id : option string) (w : World) :
  current_user self = Some cu →
  no_db_failure env →
  task_statuses_valid (db w) →
  let target := requested_user cu user_id in
  let out := get_user_statistics env current_timestamp self user_id w in
  db out.2 = db w
  ∧ (target ≠ User.id cu ∧ User.is_admin cu = false →
     out.1 = Ok (inr "Недостаточно прав для просмотра статистики другого пользователя"))
  ∧ (target = User.id cu ∨ User.is_admin cu = true →
     ∃ st,
       out.1 = Ok (inl st)
       ∧ sc_total (assigned_tasks st)
         = Z.of_nat (size (filter (λ kt : string * TaskRow, t_assigned_to kt.2 = Some target)
                             (tasks (db w))))
       ∧ sc_total (created_tasks st)
         = Z.of_nat (size (filter (λ kt : string * TaskRow, t_created_by kt.2 = target)
                             (tasks (db w))))
       ∧ (0 ≤ deadlines_overdue st)%Z ∧ (0 ≤ deadlines_due_today st)%Z
       ∧ (deadlines_overdue st + deadlines_due_today st
          ≤ sc_new (assigned_tasks st) + sc_in_progress (assigned_tasks st))%Z).
Proof.
  intros Hcu Hnf Hvalid target out. subst out.
  unfold get_user_statistics. rewrite Hcu.
  fold (requested_user cu user_id). fold target.
  assert (truthy user_id && negb (String.eqb (default "" user_id) (User.id cu))
          = negb (String.eqb target (User.id cu))) as ->.
  { subst target. unfold requested_user. destruct (truthy user_id); simpl; [reflexivity |].
    by rewrite String.eqb_refl. }
  assert (Forall (λ kv : string * TaskRow, t_status kv.2 ∈ valid_statuses)
            (map_to_list (tasks (db w)))) as Hlist.
  { apply Forall_forall. intros [k t] Hin. apply elem_of_map_to_list in Hin.
    exact (Hvalid k t Hin). }
  destruct (negb (String.eqb target (User.id cu)) && negb (User.is_admin cu)) eqn:Hrefused.
  - split; [reflexivity |]. split; [done |].
    intros Hallowed. exfalso.
    apply andb_true_iff in Hrefused as [Hother Hadmin].
    apply negb_true_iff in Hother, Hadmin. apply String.eqb_neq in Hother.
    destruct Hallowed; congruence.
  - unfold try_except. rewrite bind_fetch_one by apply Hnf. cbv beta.
    rewrite bind_fetch_one by apply Hnf. cbv beta.
    rewrite bind_fetch_one by apply Hnf. cbv beta.
    unfold mret, M_ret. cbn [fst snd db count_db_call].
    split; [reflexivity |]. split.
    { intros [Hother Hadmin]. exfalso. rewrite Hadmin in Hrefused.
      rewrite (proj2 (String.eqb_neq _ _) Hother) in Hrefused. discriminate. }
    intros _. eexists. split; [reflexivity |].
    unfold status_counts, deadline_counts, status_counts_dict, count_tasks.
    cbn [assigned_tasks created_tasks deadlines_overdue deadlines_due_today sc_total sc_new
         sc_in_progress fmap option_fmap option_map default fst snd].
    unfold id.
    split; [| split; [| split; [lia | split; [lia |]]]].
    + rewrite <- !Nat2Z.inj_add. f_equal.
      rewrite <- (status_counts_partition (assigned_to_user target)) by exact Hlist.
      rewrite <- length_filter_map_to_list. f_equal.
      apply list_filter_iff. intros kv. unfold assigned_to_user.
      by rewrite bool_decide_eq_true.
    + rewrite <- !Nat2Z.inj_add. f_equal.
      rewrite <- (status_counts_partition (created_by_user target)) by exact Hlist.
      rewrite <- length_filter_map_to_list. f_equal.
      apply list_filter_iff. intros kv. unfold created_by_user.
      by rewrite bool_decide_eq_true.
    + rewrite <- !Nat2Z.inj_add. apply inj_le.
      apply (deadline_counts_bound current_timestamp
               (λ t, @bool_decide (is_Some (t_deadline t)) (is_Some_dec _)) target _ Hlist).
Qed.

(** A user of the sample asks for their own statistics. *)
Lemma get_user_statistics_totals_witness :
  db (get_user_statistics Sample.env 15 (Sample.as_user "u-2" "user2" false) None
        Sample.world0).2 = db Sample.world0.
Proof.
  apply (get_user_statistics_totals Sample.env 15 (Sample.as_user "u-2" "user2" false)
           (User.mk "u-2" "user2" (User.hash_password "pass123") "user2" false
              (Some "user2@example.com") User.default_preferences) None Sample.world0).
  - reflexivity.
  - intros n. reflexivity.
  - apply (bool_decide_unpack _). vm_compute. reflexivity.
Defined.

(** ** Comments *)

Lemma for_each_invariant_in {A : Type} (P : World → Prop) (body : A → M ()) (xs : list A) :
  (∀ x w r w', x ∈ xs → P w → body x w = (r, w') → P w') →
  ∀ w r w', P w → for_each xs body w = (r, w') → P w'.
Proof.
  induction xs as [| x xs IH]; intros Hbody w r w' HP; cbn [for_each].
  - by intros [= <- <-].
  - unfold mbind, M_bind. destruct (body x w) as [[[]|e] w1] eqn:Hx.
    + apply IH.
      * intros y w2 r2 w3 Hy. apply Hbody. by right.
      * eapply Hbody; [left | exact HP | exact Hx].
    + intros [= <- <-]. eapply Hbody; [left | exact HP | exact Hx].
Qed.

(** When the loop comes to its end, every turn has. *)
Lemma for_each_reaches {A : Type} (P : World → Prop) (Q : A → World → Prop)
    (body : A → M ()) (xs : list A) :
  (∀ x w r w', P w → body x w = (r, w') → P w') →
  (∀ x w w', P w → body x w = (Ok (), w') → Q x w') →
  (∀ x y w r w', P w → Q x w → body y w = (r, w') → Q x w') →
  ∀ w w', P w → for_each xs body w = (Ok (), w') → ∀ x, x ∈ xs → Q x w'.
Proof.
  intros Hinv Hdone Hkept. induction xs as [| y xs IH]; intros w w' HP; cbn [for_each].
  - intros _ x Hx. by apply elem_of_nil in Hx.
  - unfold mbind, M_bind. destruct (body y w) as [[[]|e] w1] eqn:Hy; [| discriminate].
    assert (P w1) as HP1 by exact (Hinv _ _ _ _ HP Hy).
    intros Hrest x Hx. apply elem_of_cons in Hx as [-> | Hx]; [| by eapply IH].
    assert (Q y w1) as HQ by exact (Hdone _ _ _ HP Hy).
    clear IH Hy HP. revert w1 HP1 HQ Hrest.
    induction xs as [| z xs IH]; intros w1 HP1 HQ; cbn [for_each].
    + by intros [= <-].
    + unfold mbind, M_bind. destruct (body z w1) as [[[]|e] w2] eqn:Hz; [| discriminate].
      apply IH; [exact (Hinv _ _ _ _ HP1 Hz) | exact (Hkept _ _ _ _ _ HP1 HQ Hz)].
Qed.

Lemma new_comment_recipients_spec (commenter_id : string) (t : TaskRow) (u : string) :
  u ∈ new_comment_recipients (t_created_by t) (t_assigned_to t) commenter_id
  ↔ comment_recipient commenter_id t u.
Proof.
  unfold new_comment_recipients, comment_recipient, truthy.
  rewrite elem_of_union. split.
  - intros [Hu | Hu].
    + destruct (negb (String.eqb (t_created_by t) "")) eqn:Hne; cbn [andb] in Hu;
        [| by apply not_elem_of_empty in Hu].
      destruct (bool_decide (t_created_by t = commenter_id)) eqn:Hc; cbn [negb] in Hu;
        [by apply not_elem_of_empty in Hu |].
      apply elem_of_singleton in Hu as ->.
      apply negb_true_iff, String.eqb_neq in Hne. apply bool_decide_eq_false in Hc.
      by repeat split; [| | left].
    + destruct (t_assigned_to t) as [a|]; [| by apply not_elem_of_empty in Hu].
      destruct (negb (String.eqb a "")) eqn:Hne; cbn [andb] in Hu;
        [| by apply not_elem_of_empty in Hu].
      destruct (bool_decide (a = commenter_id)) eqn:Hc; cbn [negb andb] in Hu;
        [by apply not_elem_of_empty in Hu |].
      destruct (bool_decide (a = t_created_by t)) eqn:Hcr; cbn [negb] in Hu;
        [by apply not_elem_of_empty in Hu |].
      apply elem_of_singleton in Hu as ->.
      apply negb_true_iff, String.eqb_neq in Hne. apply bool_decide_eq_false in Hc.
      by repeat split; [| | right].
  - intros (Hne & Hc & [-> | Ha]).
    + left. rewrite (proj2 (String.eqb_neq _ _) Hne).
      rewrite bool_decide_eq_false_2 by exact Hc. cbn. by apply elem_of_singleton.
    + rewrite Ha. destruct (decide (u = t_created_by t)) as [-> | Hcr].
      * left. rewrite (proj2 (String.eqb_neq _ _) Hne).
        rewrite bool_decide_eq_false_2 by exact Hc. cbn. by apply elem_of_singleton.
      * right. rewrite (proj2 (String.eqb_neq _ _) Hne).
        rewrite !bool_decide_eq_false_2 by done. cbn. by apply elem_of_singleton.
Qed.

(** One turn of the loop of [notify_new_comment]: the other tables are left
    alone, and [notifications] is left alone or gets one row for the user;
    it gets it when the turn comes to its end. *)
Lemma notify_new_comment_to_effect (env : Env) (info : CommentInfo) (user_id : string)
    (w : World) (r : res ()) (w' : World) :
  notify_new_comment_to env info user_id w = (r, w') →
  same_master_data (db w) (db w')
  ∧ ((notifications (db w') = notifications (db w) ∧ r ≠ Ok ())
     ∨ ∃ k created_at,
         notifications (db w) !! k = None
         ∧ notifications (db w')
           = <[k := mkNotificationRow user_id
                      (comment_message (ci_commenter_name info) (ci_task_title info))
                      "new_comment" (Some (ci_task_id info)) created_at false]>
               (notifications (db w))).
Proof.
  unfold notify_new_comment_to. unfold mbind at 1, M_bind at 1.
  destruct (create_notification env user_id _ _ _ w) as [rc w1] eqn:Hc.
  apply create_notification_effect in Hc as [_ [[Hdb [e ->]] | (-> & Hfree & Hdb)]].
  { intros [= <- <-]. rewrite Hdb. split; [apply same_master_data_refl |]. by left. }
  unfold mbind, M_bind.
  destruct (send_email_notification env user_id _ _ w1) as [rs w2] eqn:Hs.
  apply send_email_notification_frame in Hs as (Hdb2 & _ & _).
  intros Hout. assert (db w' = db w2) as -> by (destruct rs; by injection Hout as <- <-).
  rewrite Hdb2, Hdb. split; [by repeat split |].
  right. eexists _, _. split; [exact Hfree | reflexivity].
Qed.

(** [notify_new_comment] writes to [notifications] only, and only adds to
    it. What it adds are unread notifications of the comment, for the task
    commented on, addressed to the creator or the assignee of the task and
    never to the author of the comment. When it comes to its end, each of
    them has got one. *)
Lemma notify_new_comment_effect (env : Env) (comment_id : string) (wc : WorldC)
    (r : res ()) (wc' : WorldC) (c : CommentRow) (t : TaskRow) :
  task_comments wc !! comment_id = Some c →
  tasks (db (world wc)) !! c_task_id c = Some t →
  notify_new_comment env comment_id wc = (r, wc') →
  task_comments wc' = task_comments wc
  ∧ same_master_data (db (world wc)) (db (world wc'))
  ∧ notifications (db (world wc)) ⊆ notifications (db (world wc'))
  ∧ (∀ k n, notifications (db (world wc')) !! k = Some n →
            notifications (db (world wc)) !! k = None →
            comment_notification (c_task_id c) (c_user_id c) t n)
  ∧ (r = Ok () → is_Some (users (db (world wc)) !! c_user_id c) →
     ∀ u, comment_recipient (c_user_id c) t u →
          ∃ k n, notifications (db (world wc')) !! k = Some n
                 ∧ notifications (db (world wc)) !! k = None
                 ∧ n_user_id n = u
                 ∧ comment_notification (c_task_id c) (c_user_id c) t n).
Proof.
  intros Hc Ht. unfold notify_new_comment, mbind, MC_bind, fetch_one_c, lift, fetch_one.
  destruct wc as [w cs]. cbn [world task_comments] in *.
  assert (same_master_data (db w) (db w)) as Hrefl by apply same_master_data_refl.
  destruct (db_fails_at env (db_calls w)).
  { intros [= <- <-]. cbn [world task_comments db count_db_call].
    split; [done |]. split; [done |]. split; [done |]. split; [| done].
    intros k n Hk Hnone. congruence. }
  unfold select_comment_info. cbn [db count_db_call world task_comments].
  rewrite Hc. cbn [mbind option_bind]. rewrite Ht. cbn [mbind option_bind].
  destruct (users (db w) !! c_user_id c) as [author|] eqn:Hauthor; cbn [mbind option_bind].
  2: { intros [= <- <-]. cbn [world task_comments db count_db_call].
       split; [done |]. split; [done |]. split; [done |]. split.
       - intros k n Hk Hnone. congruence.
       - intros _ [? [=]]. }
  cbn [ci_creator_id ci_assigned_to ci_commenter_id].
  set (info := mkCommentInfo _ _ _ _ _ _ _).
  set (w1 := count_db_call w (db w)).
  cbn [world task_comments].
  destruct (for_each _ (notify_new_comment_to env info) w1) as [r1 w2] eqn:Hloop.
  intros [= <- <-]. cbn [world task_comments].
  split; [done |].
  pose (P := λ w' : World,
         same_master_data (db w) (db w')
         ∧ notifications (db w) ⊆ notifications (db w')
         ∧ ∀ k n, notifications (db w') !! k = Some n →
                  notifications (db w) !! k = None →
                  comment_notification (c_task_id c) (c_user_id c) t n).
  assert (P w1) as HP1.
  { subst P w1. cbn [db count_db_call]. split; [done |]. split; [done |].
    intros k n Hk Hnone. congruence. }
  assert (∀ x w' r' w'', x ∈ elements
                               (new_comment_recipients (t_created_by t) (t_assigned_to t)
                                  (c_user_id c)) →
            P w' → notify_new_comment_to env info x w' = (r', w'') → P w'') as Hstep.
  { intros x w' r' w'' Hx (Hmaster & Hsub & Hnew) Hrun.
    apply elem_of_elements, new_comment_recipients_spec in Hx.
    apply notify_new_comment_to_effect in Hrun as [Hmaster' Hns].
    split; [| split].
    - eapply same_master_data_trans; eassumption.
    - destruct Hns as [[-> _] | (k & created_at & Hfree & ->)]; [exact Hsub |].
      etrans; [exact Hsub |]. by apply insert_subseteq.
    - intros k n Hk Hnone.
      destruct Hns as [[Hsame _] | (k' & created_at & Hfree & Hins)].
      + rewrite Hsame in Hk. exact (Hnew k n Hk Hnone).
      + rewrite Hins in Hk. destruct (decide (k' = k)) as [-> | Hne].
        * rewrite lookup_insert_eq in Hk. injection Hk as <-.
          split; [exact Hx | by repeat split].
        * rewrite lookup_insert_ne in Hk by done. exact (Hnew k n Hk Hnone). }
  assert (P w2) as (Hmaster & Hsub & Hnew).
  { apply (for_each_invariant_in P _ _ Hstep _ _ _ HP1 Hloop). }
  split; [exact Hmaster |]. split; [exact Hsub |]. split; [exact Hnew |].
  intros -> _ u Hu.
  pose (Q := λ (u : string) (w' : World),
         ∃ k n, notifications (db w') !! k = Some n
                ∧ notifications (db w) !! k = None
                ∧ n_user_id n = u
                ∧ comment_notification (c_task_id c) (c_user_id c) t n).
  pose (P' := λ w' : World, notifications (db w) ⊆ notifications (db w')).
  assert (∀ x w' r' w'', P' w' → notify_new_comment_to env info x w' = (r', w'') → P' w'')
    as Hgrow.
  { intros x w' r' w'' Hsub' Hrun. subst P'. cbn beta in *.
    apply notify_new_comment_to_effect in Hrun as [_ Hns].
    destruct Hns as [[-> _] | (k & created_at & Hfree & ->)]; [exact Hsub' |].
    etrans; [exact Hsub' |]. by apply insert_subseteq. }
  assert (∀ x w' w'', P' w' → notify_new_comment_to env info x w' = (Ok (), w'') →
                      comment_recipient (c_user_id c) t x → Q x w'') as Hdone.
  { intros x w' w'' Hsub' Hrun Hx. subst P' Q. cbn beta in *.
    apply notify_new_comment_to_effect in Hrun as [_ Hns].
    destruct Hns as [[_ Hne] | (k & created_at & Hfree & Hins)]; [by destruct Hne |].
    eexists k, _. rewrite Hins, lookup_insert_eq. split; [reflexivity |].
    split; [| split; [reflexivity | split; [exact Hx | by repeat split]]].
    destruct (notifications (db w) !! k) as [n0|] eqn:Hk0; [| reflexivity].
    eapply lookup_weaken in Hk0; [| exact Hsub']. congruence. }
  assert (∀ x y w' r' w'', P' w' → (comment_recipient (c_user_id c) t x → Q x w') →
                           notify_new_comment_to env info y w' = (r', w'') →
                           comment_recipient (c_user_id c) t x → Q x w'') as Hkept.
  { intros x y w' r' w'' Hsub' HQ Hrun Hx. subst P' Q. cbn beta in *.
    destruct (HQ Hx) as (k & n & Hk & Hnone & Hn).
    apply notify_new_comment_to_effect in Hrun as [_ Hns].
    exists k, n. split; [| by split].
    destruct Hns as [[-> _] | (k' & created_at & Hfree & ->)]; [exact Hk |].
    rewrite lookup_insert_ne; [exact Hk |]. intros ->. congruence. }
  assert (P' w1) as HP1' by (subst P' w1; cbn [db count_db_call]; reflexivity).
  assert (u ∈ elements (new_comment_recipients (t_created_by t) (t_assigned_to t)
                          (c_user_id c))) as Hin
    by (by apply elem_of_elements, new_comment_recipients_spec).
  exact (for_each_reaches P' (λ x w', comment_recipient (c_user_id c) t x → Q x w')
           (notify_new_comment_to env info) _ Hgrow Hdone Hkept w1 w2 HP1' Hloop u Hin Hu).
Qed.

Lemma ui_rejects_comment_error (s : string) :
  ui_accepts (VStr ("Ошибка при добавлении комментария: " +:+ s)) = false.
Proof. reflexivity. Qed.

(** Every outcome of [add_task_comment] by a logged-in user. *)
Lemma add_task_comment_effect (env : Env) (self : TaskManager) (cu : User.t)
    (task_id comment_text : string) (wc : WorldC) :
  current_user self = Some cu →
  let w := world wc in
  let out := add_task_comment env self task_id comment_text wc in
  let comment_id := uuid4_at env (uuid_calls w) in
  let comment :=
    mkCommentRow task_id (User.id cu) comment_text (now_at env (clock_calls w)) in
  same_master_data (db w) (db (world out.2))
  ∧ notifications (db w) ⊆ notifications (db (world out.2))
  ∧ ((task_comments out.2 = task_comments wc
      ∧ notifications (db (world out.2)) = notifications (db w)
      ∧ ∀ r, out.1 = Ok r → ui_accepts r = true →
             tasks (db w) !! task_id = None ∧ r = VStr "Задача не найдена")
     ∨ (∃ t, tasks (db w) !! task_id = Some t
             ∧ is_Some (users (db w) !! User.id cu)
             ∧ task_comments wc !! comment_id = None
             ∧ task_comments out.2 = <[comment_id := comment]> (task_comments wc)
             ∧ (∀ k n, notifications (db (world out.2)) !! k = Some n →
                       notifications (db w) !! k = None →
                       comment_notification task_id (User.id cu) t n)
             ∧ (∀ r, out.1 = Ok r → ui_accepts r = true →
                  r = VStr comment_id
                  ∧ ∀ u, comment_recipient (User.id cu) t u →
                         ∃ k n, notifications (db (world out.2)) !! k = Some n
                                ∧ notifications (db w) !! k = None
                                ∧ n_user_id n = u
                                ∧ comment_notification task_id (User.id cu) t n)))
  ∧ (db_fails_at env (db_calls w) = false →
     db_fails_at env (S (db_calls w)) = false →
     is_Some (tasks (db w) !! task_id) →
     is_Some (users (db w) !! User.id cu) →
     task_comments wc !! comment_id = None →
     task_comments out.2 !! comment_id = Some comment).
Proof.
  intros Hcu w out comment_id comment. subst out w.
  destruct wc as [w cs]. cbn [world task_comments] in *.
  assert (same_master_data (db w) (db w)) as Hrefl by apply same_master_data_refl.
  destruct (add_task_comment env self task_id comment_text _) as [r wc'] eqn:Hrun.
  cbn [fst snd]. revert Hrun.
  unfold add_task_comment. rewrite Hcu.
  unfold mbind at 1, MC_bind at 1, lift at 1, fetch_one. cbn [world task_comments].
  destruct (db_fails_at env (db_calls w)) eqn:Hfail1.
  { intros [= <- <-]. cbn [world task_comments db count_db_call].
    split; [exact Hrefl |]. split; [reflexivity |]. split; [| done].
    left. split; [reflexivity |]. split; [reflexivity |]. intros r [=]. }
  unfold select_task. destruct (tasks (db w) !! task_id) as [t|] eqn:Ht.
  2: { intros [= <- <-]. cbn [world task_comments db count_db_call].
       split; [exact Hrefl |]. split; [reflexivity |]. split; [| by intros _ _ [? [=]]].
       left. split; [reflexivity |]. split; [reflexivity |]. intros r [= <-] _. done. }
  unfold mbind at 1, MC_bind at 1, lift at 1, uuid4. cbn [world task_comments].
  cbn [db uuid_calls clock_calls db_calls count_db_call].
  fold comment_id.
  unfold try_except_c.
  unfold mbind at 1, MC_bind at 1, lift at 1, now. cbn [world task_comments].
  cbn [db uuid_calls clock_calls db_calls].
  unfold mbind at 1, MC_bind at 1, execute_c. cbn [world task_comments].
  cbn [db uuid_calls clock_calls db_calls count_db_call].
  destruct (db_fails_at env (S (db_calls w))) eqn:Hfail2.
  { intros [= <- <-]. cbn [world task_comments db count_db_call].
    split; [exact Hrefl |]. split; [reflexivity |]. split; [| done].
    left. split; [reflexivity |]. split; [reflexivity |]. intros r [= <-].
    by rewrite ui_rejects_comment_error. }
  unfold insert_comment. fold comment.
  destruct (cs !! comment_id) as [old|] eqn:Hfree.
  { intros [= <- <-]. cbn [world task_comments db count_db_call].
    split; [exact Hrefl |]. split; [reflexivity |]. split; [| done].
    left. split; [reflexivity |]. split; [reflexivity |]. intros r [= <-].
    by rewrite ui_rejects_comment_error. }
  unfold references. rewrite Ht. rewrite bool_decide_eq_true_2 by eauto. cbn [andb].
  destruct (bool_decide (is_Some (users (db w) !! User.id cu))) eqn:Huser.
  2: { intros [= <- <-]. cbn [world task_comments db count_db_call].
       apply bool_decide_eq_false in Huser.
       split; [exact Hrefl |]. split; [reflexivity |]. split; [| done].
       left. split; [reflexivity |]. split; [reflexivity |]. intros r [= <-].
       by rewrite ui_rejects_comment_error. }
  apply bool_decide_eq_true in Huser.
  unfold mbind at 1, MC_bind at 1.
  match goal with
  | |- context [notify_new_comment env comment_id ?wc2] =>
      destruct (notify_new_comment env comment_id wc2) as [rn wc3] eqn:Hnotify
  end.
  apply (notify_new_comment_effect env comment_id _ rn wc3 comment t) in Hnotify;
    cbn [world task_comments db c_task_id c_user_id comment] in *;
    [| apply lookup_insert_eq | exact Ht].
  destruct Hnotify as (Hcs & Hmaster & Hsub & Honly & Hall).
  destruct rn as [[]|e]; intros [= <- <-].
  - split; [exact Hmaster |]. split; [exact Hsub |]. split.
    + right. exists t. split; [done |]. split; [exact Huser |]. split; [done |].
      split; [exact Hcs |]. split; [exact Honly |].
      intros r [= <-] _. split; [done |]. by apply Hall.
    + intros _ _ _ _ _. rewrite Hcs. apply lookup_insert_eq.
  - split; [exact Hmaster |]. split; [exact Hsub |]. split.
    + right. exists t. split; [done |]. split; [exact Huser |]. split; [done |].
      split; [exact Hcs |]. split; [exact Honly |].
      intros r [= <-]. by rewrite ui_rejects_comment_error.
    + intros _ _ _ _ _. rewrite Hcs. apply lookup_insert_eq.
Qed.

(** [add_task_comment] by a logged-in user. It writes to [task_comments] and
    [notifications] only, and only adds to them. Either nothing is added, or
    the task exists and the comment is stored under the fresh identifier,
    with the user as its author, and every notification added is an unread
    notification of the comment addressed to the creator or the assignee of
    the task, never to the author. Nobody's role is asked for: when the
    first two requests to the database go through, any user comments on any
    task, and the comment is stored whatever becomes of the notifications.
    An answer that the dialog of [ui.py] takes for a success is one of two.
    It is the message that the task was not found, when there is no such
    task, and then nothing is stored: with a working connection that is the
    answer for a task that does not exist, and the dialog takes it for a
    success. Or the task exists, the answer is the identifier of the
    comment, the comment is stored, and the creator and the assignee, if not
    the author, have each got a notification. *)
Theorem add_task_comment_outcome (env : Env) (self : TaskManager) (cu : User.t)
    (task_id comment_text : string) (wc : WorldC) :
  current_user self = Some cu →
  let w := world wc in
  let out := add_task_comment env self task_id comment_text wc in
  let comment_id := uuid4_at env (uuid_calls w) in
  let comment :=
    mkCommentRow task_id (User.id cu) comment_text (now_at env (clock_calls w)) in
  same_master_data (db w) (db (world out.2))
  ∧ notifications (db w) ⊆ notifications (db (world out.2))
  ∧ ((task_comments out.2 = task_comments wc
      ∧ notifications (db (world out.2)) = notifications (db w)
      ∧ ∀ r, out.1 = Ok r → ui_accepts r = true →
             tasks (db w) !! task_id = None ∧ r = VStr "Задача не найдена")
     ∨ (∃ t, tasks (db w) !! task_id = Some t
             ∧ is_Some (users (db w) !! User.id cu)
             ∧ task_comments wc !! comment_id = None
             ∧ task_comments out.2 = <[comment_id := comment]> (task_comments wc)
             ∧ (∀ k n, notifications (db (world out.2)) !! k = Some n →
                       notifications (db w) !! k = None →
                       comment_notification task_id (User.id cu) t n)
             ∧ (∀ r, out.1 = Ok r → ui_accepts r = true →
                  r = VStr comment_id
                  ∧ ∀ u, comment_recipient (User.id cu) t u →
                         ∃ k n, notifications (db (world out.2)) !! k = Some n
                                ∧ notifications (db w) !! k = None
                                ∧ n_user_id n = u
                                ∧ comment_notification task_id (User.id cu) t n)))
  ∧ (db_fails_at env (db_calls w) = false →
     db_fails_at env (S (db_calls w)) = false →
     is_Some (tasks (db w) !! task_id) →
     is_Some (users (db w) !! User.id cu) →
     task_comments wc !! comment_id = None →
     task_comments out.2 !! comment_id = Some comment)
  ∧ (∀ r, out.1 = Ok r → ui_accepts r = true →
       (tasks (db w) !! task_id = None ∧ r = VStr "Задача не найдена"
        ∧ task_comments out.2 = task_comments wc
        ∧ notifications (db (world out.2)) = notifications (db w))
       ∨ (∃ t, tasks (db w) !! task_id = Some t ∧ r = VStr comment_id
               ∧ task_comments out.2 = <[comment_id := comment]> (task_comments wc)
               ∧ ∀ u, comment_recipient (User.id cu) t u →
                      ∃ k n, notifications (db (world out.2)) !! k = Some n
                             ∧ notifications (db w) !! k = None
                             ∧ n_user_id n = u
                             ∧ comment_notification task_id (User.id cu) t n))
  ∧ (db_fails_at env (db_calls w) = false → tasks (db w) !! task_id = None →
     out.1 = Ok (VStr "Задача не найдена")
     ∧ ui_accepts (VStr "Задача не найдена") = true
     ∧ task_comments out.2 = task_comments wc
     ∧ db (world out.2) = db w).
Proof.
  intros Hcu w out comment_id comment.
  destruct (add_task_comment_effect env self cu task_id comment_text wc Hcu)
    as (Hmaster & Hsub & Heffect & Hstored).
  fold w out comment_id comment in Hmaster, Hsub, Heffect, Hstored.
  split; [exact Hmaster |]. split; [exact Hsub |]. split; [exact Heffect |].
  split; [exact Hstored |]. split.
  - intros r Hr Hui.
    destruct Heffect as [(Hcs & Hns & Hmissing) | (t & Ht & _ & _ & Hcs & _ & Hdone)].
    + left. destruct (Hmissing r Hr Hui) as [Hnone ->]. by split_and!.
    + right. exists t. destruct (Hdone r Hr Hui) as [-> Hall]. by split_and!.
  - intros Hok Hnone. subst out w. destruct wc as [w0 cs]. cbn [world task_comments] in *.
    unfold add_task_comment. rewrite Hcu.
    unfold mbind, MC_bind, lift, fetch_one. cbn [world task_comments].
    rewrite Hok. unfold select_task. rewrite Hnone. by split_and!.
Qed.


(** A user of the sample comments on a task. *)
Lemma add_task_comment_outcome_witness :
  task_comments
    (add_task_comment Sample.env (Sample.as_user "u-2" "user2" false) "t-1" "Started"
       sample_world_c).2 !! "uuid-0"
  = Some (mkCommentRow "t-1" "u-2" "Started" 0).
Proof.
  apply (add_task_comment_outcome Sample.env (Sample.as_user "u-2" "user2" false)
           (User.mk "u-2" "user2" (User.hash_password "pass123") "user2" false
              (Some "user2@example.com") User.default_preferences)
           "t-1" "Started" sample_world_c).
  - reflexivity.
  - reflexivity.
  - reflexivity.
  - apply (bool_decide_unpack _). vm_compute. reflexivity.
  - apply (bool_decide_unpack _). vm_compute. reflexivity.
  - vm_compute. reflexivity.
Defined.

#[local] Instance commented_earlier_total : Total commented_earlier.
Proof. intros a b. unfold commented_earlier. lia. Qed.

#[local] Instance commented_earlier_transitive : Transitive commented_earlier.
Proof. intros a b c. unfold commented_earlier. lia. Qed.

(** With a working connection the [if] / [elif] chain of [get_task_comments]
    only reads, and lets in the admin, the creator, the assignee, and the head
    and the members of the department of the task. *)
Lemma comments_permission_run (env : Env) (cu : User.t) (t : TaskRow) (w : World) :
  no_db_failure env →
  ∃ b w',
    comments_permission env cu (t_created_by t) (t_assigned_to t) (t_department_id t) w
    = (Ok b, w')
    ∧ db w' = db w
    ∧ (b = true
       ↔ User.is_admin cu = true ∨ User.id cu = t_created_by t
         ∨ t_assigned_to t = Some (User.id cu)
         ∨ ∃ d, t_department_id t = Some d ∧ d ≠ ""
                ∧ ((∃ r, departments (db w) !! d = Some r ∧ d_head_id r = User.id cu)
                   ∨ (d, User.id cu) ∈ department_employees (db w))).
Proof.
  intros Hnf. unfold comments_permission.
  destruct (User.is_admin cu) eqn:Hadmin.
  { exists true, w. split; [reflexivity |]. split; [reflexivity |]. split; [by left | done]. }
  destruct (String.eqb (User.id cu) (t_created_by t)) eqn:Hcreator; cbn [orb].
  { apply String.eqb_eq in Hcreator.
    exists true, w. split; [reflexivity |]. split; [reflexivity |].
    split; [by right; left | done]. }
  apply String.eqb_neq in Hcreator.
  destruct (bool_decide (Some (User.id cu) = t_assigned_to t)) eqn:Hassignee.
  { apply bool_decide_eq_true in Hassignee.
    exists true, w. split; [reflexivity |]. split; [reflexivity |].
    split; [by right; right; left | done]. }
  apply bool_decide_eq_false in Hassignee.
  destruct (t_department_id t) as [d|] eqn:Hd; cbn [truthy default]; unfold id.
  2: { exists false, w. split; [reflexivity |]. split; [reflexivity |].
       split; [done |]. intros [? | [? | [? | (d & [=] & _)]]]; congruence. }
  destruct (String.eqb d "") eqn:Hempty; cbn [negb].
  { apply String.eqb_eq in Hempty.
    exists false, w. split; [reflexivity |]. split; [reflexivity |].
    split; [done |]. intros [? | [? | [? | (d' & [= <-] & Hne & _)]]]; congruence. }
  apply String.eqb_neq in Hempty.
  rewrite bind_fetch_one by apply Hnf. unfold select_department_head.
  destruct (departments (db w) !! d) as [r|] eqn:Hdep; cbn [fmap option_fmap option_map].
  - destruct (String.eqb (d_head_id r) (User.id cu)) eqn:Hhead.
    { apply String.eqb_eq in Hhead.
      eexists true, _. split; [reflexivity |]. split; [reflexivity |].
      split; [| done]. intros _. right. right. right. exists d.
      split; [done |]. split; [done |]. left. by exists r. }
    apply String.eqb_neq in Hhead.
    rewrite bind_fetch_one by apply Hnf. unfold select_employee.
    cbn [db count_db_call].
    destruct (decide ((d, User.id cu) ∈ department_employees (db w))) as [Hin | Hout].
    + eexists true, _. split; [reflexivity |]. split; [reflexivity |].
      split; [| done]. intros _. right. right. right. exists d.
      split; [done |]. split; [done |]. by right.
    + eexists false, _. split; [reflexivity |]. split; [reflexivity |].
      split; [done |].
      intros [? | [? | [? | (d' & [= <-] & _ & [(r' & Hr' & Hh) | Hin])]]]; congruence.
  - rewrite bind_fetch_one by apply Hnf. unfold select_employee.
    cbn [db count_db_call].
    destruct (decide ((d, User.id cu) ∈ department_employees (db w))) as [Hin | Hout].
    + eexists true, _. split; [reflexivity |]. split; [reflexivity |].
      split; [| done]. intros _. right. right. right. exists d.
      split; [done |]. split; [done |]. by right.
    + eexists false, _. split; [reflexivity |]. split; [reflexivity |].
      split; [done |].
      intros [? | [? | [? | (d' & [= <-] & _ & [(r' & Hr' & Hh) | Hin])]]]; congruence.
Qed.

(** [get_task_comments], for a logged-in principal and a working connection,
    changes nothing. It reports a task that does not exist. The comments of
    an existing task are shown to an admin, to the creator, to the assignee
    and to the head and the members of the department of the task, and
    refused to everybody else: reading asks for a role that writing a
    comment does not. What is shown are exactly the comments on the task
    whose author is a user, each once, the earlier first. *)
Theorem get_task_comments_lists (env : Env) (self : TaskManager) (cu : User.t)
    (task_id : string) (wc : WorldC) :
  current_user self = Some cu →
  no_db_failure env →
  let w := world wc in
  let out := get_task_comments env self task_id wc in
  task_comments out.2 = task_comments wc
  ∧ db (world out.2) = db w
  ∧ (tasks (db w) !! task_id = None → out.1 = Ok (inr "Задача не найдена"))
  ∧ (∀ t, tasks (db w) !! task_id = Some t →
       let allowed :=
         User.is_admin cu = true ∨ User.id cu = t_created_by t
         ∨ t_assigned_to t = Some (User.id cu)
         ∨ ∃ d, t_department_id t = Some d ∧ d ≠ ""
                ∧ ((∃ r, departments (db w) !! d = Some r ∧ d_head_id r = User.id cu)
                   ∨ (d, User.id cu) ∈ department_employees (db w)) in
       (¬ allowed →
        out.1 = Ok (inr "Недостаточно прав для просмотра комментариев к этой задаче"))
       ∧ (allowed →
          ∃ sorted,
            NoDup sorted
            ∧ (∀ k c, (k, c) ∈ sorted
                      ↔ task_comments wc !! k = Some c ∧ c_task_id c = task_id
                        ∧ is_Some (users (db w) !! c_user_id c))
            ∧ StronglySorted commented_earlier sorted
            ∧ out.1
              = Ok (inl ((λ kv : string * CommentRow,
                            mkCommentView kv.1 (c_text kv.2) (c_created_at kv.2)
                              (default "" (u_full_name <$> users (db w) !! c_user_id kv.2)))
                         <$> sorted)))).
Proof.
  intros Hcu Hnf w out. subst out w.
  destruct wc as [w cs]. cbn [world task_comments] in *.
  destruct (get_task_comments env self task_id _) as [r wc'] eqn:Hrun.
  cbn [fst snd]. revert Hrun.
  unfold get_task_comments. rewrite Hcu.
  unfold mbind at 1, MC_bind at 1, lift at 1, fetch_one. cbn [world task_comments].
  rewrite Hnf. unfold select_task.
  destruct (tasks (db w) !! task_id) as [t|] eqn:Ht.
  2: { intros [= <- <-]. cbn [world task_comments db count_db_call].
       split; [reflexivity |]. split; [reflexivity |]. split; [done |]. intros t [=]. }
  destruct (comments_permission_run env cu t (count_db_call w (db w)) Hnf)
    as (b & w1 & Hperm & Hdb1 & Hallowed).
  cbn [db count_db_call] in Hdb1, Hallowed.
  unfold mbind at 1, MC_bind at 1, lift at 1. cbn [world task_comments]. rewrite Hperm.
  destruct b; cbn [negb].
  - unfold try_except_c, mbind, MC_bind, fetch_all_c, lift, fetch_all, select_task_comments.
    cbn [world task_comments]. rewrite Hnf, Hdb1.
    intros [= <- <-]. cbn [world task_comments db count_db_call].
    split; [reflexivity |]. split; [reflexivity |]. split; [done |].
    intros t' [= <-]. cbv zeta. split.
    { intros Hnot. exfalso. apply Hnot. by apply Hallowed. }
    intros _.
    exists (merge_sort commented_earlier
              (filter (λ kv : string * CommentRow,
                         c_task_id kv.2 = task_id ∧ is_Some (users (db w) !! c_user_id kv.2))
                 (map_to_list cs))).
    split; [| split; [| split; [| reflexivity]]].
    + rewrite merge_sort_Permutation. apply NoDup_filter, NoDup_map_to_list.
    + intros k c. rewrite merge_sort_Permutation.
      rewrite list_elem_of_filter, elem_of_map_to_list. cbn [snd]. tauto.
    + apply StronglySorted_merge_sort; apply _.
  - intros [= <- <-]. cbn [world task_comments].
    split; [reflexivity |]. split; [exact Hdb1 |]. split; [done |].
    intros t' [= <-]. cbv zeta. split; [done |].
    intros Hyes. apply Hallowed in Hyes. discriminate.
Qed.

(** The assignee reads the comments on the task. *)
Lemma get_task_comments_lists_witness :
  task_comments (get_task_comments Sample.env (Sample.as_user "u-2" "user2" false) "t-1"
                   sample_world_c).2 = task_comments sample_world_c.
Proof.
  apply (get_task_comments_lists Sample.env (Sample.as_user "u-2" "user2" false)
           (User.mk "u-2" "user2" (User.hash_password "pass123") "user2" false
              (Some "user2@example.com") User.default_preferences)
           "t-1" sample_world_c).
  - reflexivity.
  - intros n. reflexivity.
Defined.

(** ** Creating a task *)






(** ** Who may assign a task *)

Lemma assign_permission_true (env : Env) (cu : User.t) (created_by : string)
    (department_id : option string) (w w' : World) :
  assign_permission env cu created_by department_id w = (Ok true, w') →
  User.is_admin cu = true ∨ User.id cu = created_by
  ∨ ∃ d row, department_id = Some d ∧ d ≠ "" ∧ departments (db w) !! d = Some row
             ∧ d_head_id row = User.id cu.
Proof.
  unfold assign_permission.
  destruct (User.is_admin cu); [by left |].
  destruct (String.eqb (User.id cu) created_by) eqn:Hcreator.
  { apply String.eqb_eq in Hcreator. by right; left. }
  destruct department_id as [d|]; cbn [truthy default]; unfold id; [| discriminate].
  destruct (String.eqb d "") eqn:Hempty; cbn [negb]; [discriminate |].
  apply String.eqb_neq in Hempty.
  unfold mbind, M_bind, fetch_one, select_department_head.
  destruct (db_fails_at env (db_calls w)); [discriminate |].
  destruct (departments (db w) !! d) as [row|] eqn:Hrow; cbn [fmap option_fmap option_map];
    [| discriminate].
  intros [= Hhead _]. apply String.eqb_eq in Hhead.
  right. right. by exists d, row.
Qed.

(** When the checks of [assign_task] pass, the caller is logged in and is an
    admin, the creator of the task or the head of its department, the target
    is a user, and a member of the department when the task has one. *)
Lemma assign_task_checks_require (env : Env) (self : TaskManager) (task_id user_id : string)
    (w w' : World) :
  assign_task_checks env self task_id user_id w = (Ok None, w') →
  ∃ cu t,
    current_user self = Some cu ∧ tasks (db w) !! task_id = Some t
    ∧ (User.is_admin cu = true ∨ User.id cu = t_created_by t
       ∨ ∃ d row, t_department_id t = Some d ∧ d ≠ "" ∧ departments (db w) !! d = Some row
                  ∧ d_head_id row = User.id cu)
    ∧ is_Some (users (db w) !! user_id)
    ∧ (∀ d, t_department_id t = Some d → d ≠ "" →
            (d, user_id) ∈ department_employees (db w)).
Proof.
  unfold assign_task_checks.
  destruct (current_user self) as [cu|]; [| discriminate].
  unfold mbind at 1, M_bind at 1.
  destruct (fetch_one env (select_task task_id) w) as [[[t|]|e] w1] eqn:H1;
    apply fetch_one_frame in H1 as (D1 & _ & _ & Q1); try discriminate.
  specialize (Q1 _ eq_refl). unfold select_task in Q1.
  unfold mbind at 1, M_bind at 1.
  destruct (assign_permission env cu (t_created_by t) (t_department_id t) w1)
    as [[[]|e] w2] eqn:H2; try discriminate.
  pose proof (assign_permission_true _ _ _ _ _ _ H2) as Hperm.
  apply assign_permission_frame in H2 as (D2 & _ & _). cbn [negb].
  rewrite D1 in Hperm.
  unfold mbind at 1, M_bind at 1.
  destruct (fetch_one env (select_user user_id) w2) as [[[u|]|e] w3] eqn:H3;
    apply fetch_one_frame in H3 as (D3 & _ & _ & Q3); try discriminate.
  specialize (Q3 _ eq_refl). unfold select_user in Q3. rewrite D2, D1 in Q3.
  intros Hrest. exists cu, t.
  split; [reflexivity |]. split; [by symmetry |]. split; [exact Hperm |].
  split; [rewrite <- Q3; by eexists |].
  intros d Hd Hne. revert Hrest. rewrite Hd. cbn [truthy default]. unfold id.
  rewrite (proj2 (String.eqb_neq _ _) Hne). cbn [negb].
  unfold mbind, M_bind, fetch_one, select_employee.
  destruct (db_fails_at env (db_calls w3)); [discriminate |].
  rewrite D3, D2, D1.
  destruct (decide ((d, user_id) ∈ department_employees (db w))); [done | discriminate].
Qed.

(** Whenever [assign_task] returns [True] or changes a task, the caller is
    logged in and is an admin, the creator of the task or the head of its
    department: being its assignee or a member of the department is not
    enough. The target is then an existing user, and a member of the
    department when the task has one. *)
Theorem assign_task_requirements (env : Env) (self : TaskManager) (task_id user_id : string)
    (w : World) :
  let out := assign_task env self task_id user_id w in
  out.1 = Ok (VBool true) ∨ tasks (db out.2) ≠ tasks (db w) →
  ∃ cu t,
    current_user self = Some cu ∧ tasks (db w) !! task_id = Some t
    ∧ (User.is_admin cu = true ∨ User.id cu = t_created_by t
       ∨ ∃ d row, t_department_id t = Some d ∧ d ≠ "" ∧ departments (db w) !! d = Some row
                  ∧ d_head_id row = User.id cu)
    ∧ is_Some (users (db w) !! user_id)
    ∧ (∀ d, t_department_id t = Some d → d ≠ "" →
            (d, user_id) ∈ department_employees (db w)).
Proof.
  intros out Hdone. subst out. rewrite assign_task_steps in Hdone.
  unfold mbind, M_bind in Hdone.
  destruct (assign_task_checks env self task_id user_id w) as [rc w0] eqn:Hc.
  pose proof Hc as Hframe.
  apply assign_task_checks_frame in Hframe as (D0 & _ & _ & Hmsg & _).
  destruct rc as [[v|]|e].
  - exfalso. cbn [fst snd mret M_ret] in Hdone. destruct Hdone as [[= ->] | Hchanged].
    + by eapply Hmsg.
    + by rewrite D0 in Hchanged.
  - by eapply assign_task_checks_require.
  - exfalso. cbn [fst snd] in Hdone. destruct Hdone as [[=] | Hchanged].
    by rewrite D0 in Hchanged.
Qed.

(** The creator of a task assigns it. *)
Lemma assign_task_requirements_witness :
  ∃ cu t,
    current_user (Sample.as_user "u-1" "user1" false) = Some cu
    ∧ tasks (db Sample.world0) !! "t-1" = Some t
    ∧ (User.is_admin cu = true ∨ User.id cu = t_created_by t
       ∨ ∃ d row, t_department_id t = Some d ∧ d ≠ ""
                  ∧ departments (db Sample.world0) !! d = Some row
                  ∧ d_head_id row = User.id cu)
    ∧ is_Some (users (db Sample.world0) !! "u-3")
    ∧ (∀ d, t_department_id t = Some d → d ≠ "" →
            (d, "u-3") ∈ department_employees (db Sample.world0)).
Proof.
  apply (assign_task_requirements Sample.env (Sample.as_user "u-1" "user1" false) "t-1" "u-3"
           Sample.world0).
  left. vm_compute. reflexivity.
Defined.

(** ** Mail *)

(** [send_email_notification] never writes to the database. A message is
    handed to the relay only when the relay and the sender are configured
    and the user exists, has an address that is not empty and has not turned
    mail off; it is then one message, to that address, with the subject and
    the text given. Whenever the answer is [True] the message has been handed
    over. The answer [False] does not say that nothing was sent: when the
    exception comes as the session with the relay is closed, the message is
    out and the answer is [False]. In every other outcome the outbox is as
    before and the answer is not [True]. *)
Theorem send_email_notification_outcome (env : Env) (user_id subject message : string)
    (w : World) :
  let out := send_email_notification env user_id subject message w in
  db out.2 = db w
  ∧ ((outbox out.2 = outbox w ∧ out.1 ≠ Ok true)
     ∨ (∃ u address prefs,
          users (db w) !! user_id = Some u
          ∧ u_email u = Some address ∧ address ≠ ""
          ∧ u_notification_preferences u = Some prefs ∧ prefs !! "email" = Some true
          ∧ truthy (smtp_server env) = true ∧ truthy (sender_email env) = true
          ∧ outbox out.2 = (outbox w ++ [mkEmail address subject message])%list
          ∧ ((out.1 = Ok true ∧ smtp_at env (smtp_calls w) = Delivered)
             ∨ (out.1 = Ok false ∧ smtp_at env (smtp_calls w) = DeliveredThenFailed))))
  ∧ (out.1 = Ok true →
     ∃ address, outbox out.2 = (outbox w ++ [mkEmail address subject message])%list).
Proof.
  intros out. subst out.
  destruct (send_email_notification env user_id subject message w) as [r w'] eqn:Hrun.
  cbn [fst snd]. revert Hrun. unfold send_email_notification.
  destruct (truthy (smtp_server env)) eqn:Hserver; cbn [negb orb].
  2: { intros [= <- <-]. split; [done |]. split; [by left | discriminate]. }
  destruct (truthy (sender_email env)) eqn:Hsender; cbn [negb].
  2: { intros [= <- <-]. split; [done |]. split; [by left | discriminate]. }
  unfold mbind, M_bind, fetch_one, select_email_preferences.
  destruct (db_fails_at env (db_calls w)).
  { intros [= <- <-]. split; [done |]. split; [by left | discriminate]. }
  destruct (users (db w) !! user_id) as [u|] eqn:Hu; cbn [fmap option_fmap option_map].
  2: { intros [= <- <-]. split; [done |]. split; [by left | discriminate]. }
  destruct (u_email u) as [address|] eqn:Hemail; cbn [truthy negb].
  2: { intros [= <- <-]. split; [done |]. split; [by left | discriminate]. }
  destruct (String.eqb address "") eqn:Hempty; cbn [negb].
  { intros [= <- <-]. split; [done |]. split; [by left | discriminate]. }
  apply String.eqb_neq in Hempty.
  destruct (u_notification_preferences u) as [prefs|] eqn:Hprefs.
  2: { intros [= <- <-]. split; [done |]. split; [by left | discriminate]. }
  destruct (prefs !! "email") as [[]|] eqn:Hpref; cbn [default]; unfold id; cbn [negb].
  2, 3: intros [= <- <-]; (split; [done |]); (split; [by left | discriminate]).
  unfold smtp_send. cbn [smtp_calls count_db_call db outbox].
  destruct (smtp_at env (smtp_calls w)) eqn:Hsmtp; intros [= <- <-]; cbn [db outbox];
    (split; [done |]).
  - split; [| by eexists]. right. exists u, address, prefs. split_and!; try done. by left.
  - split; [by left | discriminate].
  - split; [| discriminate]. right. exists u, address, prefs. split_and!; try done. by right.
Qed.

(** ** Registration and login, in general *)

(** A name that is taken: [register_user] writes nothing and answers so,
    and the dialog of [ui.py] takes that answer for a registration. The
    first query is outside the [try]: when the connection fails there, the
    exception leaves the function. *)
Theorem register_user_taken_name (env : Env) (username password full_name : string)
    (is_admin : bool) (email : option string) (w : World) (k : string) (row : UserRow) :
  users (db w) !! k = Some row →
  u_username row = username →
  let out := register_user env username password full_name is_admin email w in
  db out.2 = db w
  ∧ (db_fails_at env (db_calls w) = false →
     out.1 = Ok (VStr "Пользователь с таким именем уже существует")
     ∧ ui_accepts (VStr "Пользователь с таким именем уже существует") = true)
  ∧ (db_fails_at env (db_calls w) = true →
     out.1 = Raise (OperationalError (db_calls w))).
Proof.
  intros Hk Hname out. subst out.
  unfold register_user, mbind, M_bind, fetch_one.
  destruct (db_fails_at env (db_calls w)).
  { split; [reflexivity |]. split; [discriminate | done]. }
  destruct (select_user_by_username username (db w)) as [found|] eqn:Hsel.
  - split; [reflexivity |]. split; [done | discriminate].
  - exfalso. rewrite select_user_by_username_None in Hsel. by destruct (Hsel k row Hk).
Qed.

(** A second registration under the name of the admin of the sample. *)
Lemma register_user_taken_name_witness :
  db (register_user Sample.env "admin1" "secret" "Another Admin" true None Sample.world0).2
  = db Sample.world0.
Proof.
  apply (register_user_taken_name Sample.env "admin1" "secret" "Another Admin" true None
           Sample.world0 "u-admin" (Sample.user_row "admin1" true)).
  - vm_compute. reflexivity.
  - reflexivity.
Defined.

Lemma NoDup_fmap_eq {A B : Type} (f : A → B) (l : list A) (x y : A) :
  NoDup (f <$> l) → x ∈ l → y ∈ l → f x = f y → x = y.
Proof.
  induction l as [| a l IH]; intros Hnodup Hx Hy Hf; [by apply elem_of_nil in Hx |].
  rewrite fmap_cons in Hnodup. apply NoDup_cons in Hnodup as [Hnew Hnodup].
  apply elem_of_cons in Hx as [-> | Hx]; apply elem_of_cons in Hy as [-> | Hy].
  - reflexivity.
  - exfalso. apply Hnew. rewrite Hf. by apply list_elem_of_fmap_2.
  - exfalso. apply Hnew. rewrite <- Hf. by apply list_elem_of_fmap_2.
  - by apply IH.
Qed.

(** [login] only reads. It returns [True] only for a name that a user has
    together with the digest of the secret given, and then the session is
    that user's. Otherwise it returns [False] and the session is as before;
    where names are unique, no user then has that name with that digest. *)
Theorem login_outcome (env : Env) (self : TaskManager) (username password : string)
    (w : World) :
  db_fails_at env (db_calls w) = false →
  let out := login env self username password w in
  db out.2 = db w
  ∧ ((∃ k row,
        users (db w) !! k = Some row ∧ u_username row = username
        ∧ u_password_hash row = User.hash_password password
        ∧ out.1 = Ok (true,
                      mkTaskManager
                        (Some (User.init k (u_username row) (u_password_hash row)
                                 (u_full_name row) (u_is_admin row) (u_email row)
                                 (u_notification_preferences row)))))
     ∨ (out.1 = Ok (false, self)
        ∧ (usernames_unique (db w) →
           ∀ k row, users (db w) !! k = Some row → u_username row = username →
                    u_password_hash row ≠ User.hash_password password))).
Proof.
  intros Hok out. subst out. unfold login, mbind, M_bind, fetch_one. rewrite Hok.
  destruct (select_user_by_username username (db w)) as [[k row]|] eqn:Hsel.
  2: { split; [reflexivity |]. right. split; [reflexivity |].
       intros _ k row Hk Hname. rewrite select_user_by_username_None in Hsel.
       by destruct (Hsel k row Hk). }
  apply select_user_by_username_Some in Hsel as [Hk Hname].
  unfold User.verify_password. cbn [User.init User.password_hash].
  destruct (String.eqb (User.hash_password password) (u_password_hash row)) eqn:Hhash.
  - apply String.eqb_eq in Hhash. split; [reflexivity |]. left. exists k, row. by split_and!.
  - apply String.eqb_neq in Hhash. split; [reflexivity |]. right. split; [reflexivity |].
    intros Hunique k' row' Hk' Hname' Hhash'.
    assert ((k', row') = (k, row)) as [= -> ->]; [| congruence].
    unfold usernames_unique in Hunique. rewrite <- list_fmap_compose in Hunique.
    apply (NoDup_fmap_eq (u_username ∘ snd) (map_to_list (users (db w)))).
    + exact Hunique.
    + by apply elem_of_map_to_list.
    + by apply elem_of_map_to_list.
    + cbn. congruence.
Qed.

(** A user of the sample logs in. *)
Lemma login_outcome_witness :
  db (login Sample.env (mkTaskManager None) "user1" "pass123" Sample.world0).2
  = db Sample.world0.
Proof.
  apply (login_outcome Sample.env (mkTaskManager None) "user1" "pass123" Sample.world0).
  reflexivity.
Defined.

(** ** Without a session *)

(** After [logout], the operations that ask for a session do nothing at
    all: no request to the database, no identifier drawn, no clock read, no
    mail, and the comments are as they were. *)
Theorem logged_out_calls_do_nothing (env : Env) (self : TaskManager) (c : call)
    (wc : WorldC) :
  needs_session c = true →
  world_after env (logout self) c wc = wc.
Proof.
  destruct wc as [w cs]. destruct c; cbn [needs_session]; try discriminate; intros _;
    cbn [world_after logout]; reflexivity.
Qed.

(** A task is not created without a session. *)
Lemma logged_out_calls_do_nothing_witness :
  world_after Sample.env (logout (Sample.as_user "u-admin" "admin1" true))
    (CreateTask "Report" "Write it" None None None "обычный") sample_world_c
  = sample_world_c.
Proof.
  apply (logged_out_calls_do_nothing Sample.env (Sample.as_user "u-admin" "admin1" true)
           (CreateTask "Report" "Write it" None None None "обычный") sample_world_c).
  reflexivity.
Defined.

(** ** The priority is looked at by nobody *)




Lemma set_tasks_set_tasks (g h : gmap string TaskRow → gmap string TaskRow) (d : Db) :
  set_tasks g (set_tasks h d) = set_tasks (g ∘ h) d.
Proof. reflexivity. Qed.









(** ** The invariants on the sample *)


Lemma calls_keep_department_heads_admins_witness :
  department_heads_are_admins
    (db (world (world_after_all Sample.env sample_calls sample_world_c))).
Proof.
  apply (calls_keep_department_heads_admins Sample.env sample_calls sample_world_c).
  apply (bool_decide_unpack _). vm_compute. reflexivity.
Defined.

Lemma calls_keep_task_statuses_valid_witness :
  task_statuses_valid (db (world (world_after_all Sample.env sample_calls sample_world_c))).
Proof.
  apply (calls_keep_task_statuses_valid Sample.env sample_calls sample_world_c).
  apply (bool_decide_unpack _). vm_compute. reflexivity.
Defined.

Lemma calls_keep_usernames_unique_witness :
  usernames_unique (db (world (world_after_all Sample.env sample_calls sample_world_c))).
Proof.
  apply (calls_keep_usernames_unique Sample.env sample_calls sample_world_c).
  apply (bool_decide_unpack _). vm_compute. reflexivity.
Defined.

Lemma calls_keep_memberships_reference_witness :
  memberships_reference (db (world (world_after_all Sample.env sample_calls sample_world_c))).
Proof.
  apply (calls_keep_memberships_reference Sample.env sample_calls sample_world_c).
  apply (bool_decide_unpack _). vm_compute. reflexivity.
Defined.

Lemma calls_keep_notifications_witness :
  notifications (db (world (world_after_all Sample.env sample_calls sample_world_c))) !! "n-1"
  = Some (mkNotificationRow "u-2" "hello" "task_assignment" (Some "t-1") 11 false)
  ∨ notifications (db (world (world_after_all Sample.env sample_calls sample_world_c))) !! "n-1"
    = Some (mark_read
              (mkNotificationRow "u-2" "hello" "task_assignment" (Some "t-1") 11 false)).
Proof.
  apply (calls_keep_notifications Sample.env sample_calls sample_world_c).
  reflexivity.
Defined.
